(** * instagram-rss: the post parsers, the text utilities and the site driver

    A shallow embedding of the Python sources

      - [src/instagram_json_parser.py]  (structured-data normalizer)
      - [src/instagram_parser.py]       (markup normalizer)
      - [src/rss_generator.py]          (feed date re-parsing, hashtags)
      - [src/site_generator.py]         (page titles, image copying)
      - [generate_site.py]              (selection handling)

    followed by the properties of the specification that concern them.

    Conventions.  A Python [str] is a list of 8-bit characters, read as
    the code points U+0000..U+00FF; a Python [int] is a [Z]; [None] is
    [None]; a [dict] read only through [get] with fixed keys is a record
    of optional fields.  Library behaviour the repository relies on but
    does not contain (the latin-1/utf-8 codec, the local time zone, the
    [float] constructor, the file system) is a [Variable] of the section
    that uses it. *)

From Stdlib Require Import ZArith List String Ascii Bool Lia.
From Stdlib Require Import Permutation Sorted QArith.
From Stdlib Require Import DecimalString DecimalZ DecimalPos.
Import ListNotations.

Open Scope string_scope.
Open Scope Z_scope.
Open Scope list_scope.

Definition str := list ascii.
Coercion list_ascii_of_string : string >-> list.

(** ** Python built-ins *)

Module Py.

Definition code (c : ascii) : Z := Z.of_nat (nat_of_ascii c).

Definition len {A} (l : list A) : Z := Z.of_nat (List.length l).

Definition str_eqb (a b : str) : bool :=
  if list_eq_dec ascii_dec a b then true else false.

(** Truth value of a string, a list, an integer. *)
Definition truthy {A} (l : list A) : bool :=
  match l with [] => false | _ => true end.

Definition truthy_int (n : Z) : bool := negb (n =? 0).

(** [str.isspace] on one character (Unicode white space below U+0100). *)
Definition isspace (c : ascii) : bool :=
  let n := code c in
  ((9 <=? n) && (n <=? 13)) || ((28 <=? n) && (n <=? 32))
  || (n =? 133) || (n =? 160).

(** The class [\w] of [re] on [str] patterns: alphanumeric or underscore. *)
Definition isword (c : ascii) : bool :=
  let n := code c in
  ((48 <=? n) && (n <=? 57)) || ((65 <=? n) && (n <=? 90))
  || ((97 <=? n) && (n <=? 122)) || (n =? 95)
  || (n =? 170) || (n =? 178) || (n =? 179) || (n =? 181)
  || (n =? 185) || (n =? 186) || ((188 <=? n) && (n <=? 190))
  || ((192 <=? n) && (n <=? 214)) || ((216 <=? n) && (n <=? 246))
  || ((248 <=? n) && (n <=? 255)).

Definition lower_char (c : ascii) : ascii :=
  let n := code c in
  if ((65 <=? n) && (n <=? 90))
     || ((192 <=? n) && (n <=? 214)) || ((216 <=? n) && (n <=? 222))
  then ascii_of_nat (nat_of_ascii c + 32) else c.

(** [s.lower()] *)
Definition lower (s : str) : str := map lower_char s.

Fixpoint lstrip (s : str) : str :=
  match s with
  | c :: s' => if isspace c then lstrip s' else s
  | [] => []
  end.

Definition rstrip (s : str) : str := rev (lstrip (rev s)).

(** [s.strip()] *)
Definition strip (s : str) : str := rstrip (lstrip s).

(** [s.startswith(p)] *)
Fixpoint startswith (s p : str) : bool :=
  match p, s with
  | [], _ => true
  | a :: p', b :: s' => Ascii.eqb a b && startswith s' p'
  | _ :: _, [] => false
  end.

Fixpoint find_from (i : Z) (s sub : str) : Z :=
  if startswith s sub then i
  else match s with
       | [] => -1
       | _ :: s' => find_from (i + 1) s' sub
       end.

(** [s.find(sub)]: the lowest index where [sub] occurs, or [-1]. *)
Definition find (s sub : str) : Z := find_from 0 s sub.

(** [s[:n]], with Python's reading of a negative bound. *)
Definition slice_to {A} (s : list A) (n : Z) : list A :=
  if n <? 0 then firstn (Z.to_nat (len s + n)) s
  else firstn (Z.to_nat n) s.

(** The part of [s] before the last occurrence of the character [sep],
    if there is one. *)
Fixpoint before_last (sep : ascii) (s : str) : option str :=
  match s with
  | [] => None
  | c :: s' =>
      match before_last sep s' with
      | Some h => Some (c :: h)
      | None => if Ascii.eqb c sep then Some [] else None
      end
  end.

(** [s.rsplit(sep, 1)[0]] for a one-character separator. *)
Definition rsplit1_head (s : str) (sep : ascii) : str :=
  match before_last sep s with
  | Some h => h
  | None => s
  end.

(** [sep.join(parts)] *)
Fixpoint join (sep : str) (parts : list str) : str :=
  match parts with
  | [] => []
  | [p] => p
  | p :: rest => p ++ sep ++ join sep rest
  end.

(** A stable ascending sort on an integer key: what [sorted] and
    [list.sort] compute. *)
Section Sort.
Context {A : Type} (key : A -> Z).

(** Elements are inserted from the last to the first, each one in
    front of the equal keys that follow it in the input. *)
Fixpoint insert_front (x : A) (l : list A) : list A :=
  match l with
  | [] => [x]
  | y :: l' => if key y <? key x then y :: insert_front x l' else x :: l
  end.

Definition sorted_asc (l : list A) : list A :=
  fold_right insert_front [] l.

(** [l.sort(key=key, reverse=r)]: with [reverse] the list is reversed,
    sorted and reversed again, which keeps equal keys in input order. *)
Definition sort (reverse : bool) (l : list A) : list A :=
  if reverse then rev (sorted_asc (rev l)) else sorted_asc l.
End Sort.

(** [str(n)] *)
Definition str_int (n : Z) : str :=
  list_ascii_of_string (NilZero.string_of_int (Z.to_int n)).

(** [s.lstrip(c)] and [s.rstrip(c)] for one character [c]. *)
Fixpoint lstrip_char (c : ascii) (s : str) : str :=
  match s with
  | a :: s' => if Ascii.eqb a c then lstrip_char c s' else s
  | [] => []
  end.

Definition rstrip_char (c : ascii) (s : str) : str :=
  rev (lstrip_char c (rev s)).

(** [c in s] for one character [c]. *)
Definition contains (s : str) (c : ascii) : bool := existsb (Ascii.eqb c) s.

(** [s.split(sep)] for a one-character separator. *)
Fixpoint split_char (sep : ascii) (s : str) : list str :=
  match s with
  | [] => [[]]
  | c :: s' =>
      if Ascii.eqb c sep then [] :: split_char sep s'
      else match split_char sep s' with
           | field :: fields => (c :: field) :: fields
           | [] => [[c]]
           end
  end.

(** [s.split()]: the runs of characters that are not white space;
    [word] is the run being read. *)
Fixpoint split_from (word : str) (s : str) : list str :=
  match s with
  | [] => if truthy word then [word] else []
  | c :: s' =>
      if isspace c
      then (if truthy word then [word] else []) ++ split_from [] s'
      else split_from (word ++ [c]) s'
  end.

Definition split_ws (s : str) : list str := split_from [] s.

(** [a <= b] on strings: the order of the code points of the first
    characters that differ. *)
Fixpoint str_leb (a b : str) : bool :=
  match a, b with
  | [], _ => true
  | _ :: _, [] => false
  | x :: a', y :: b' =>
      if code x <? code y then true
      else if code y <? code x then false
      else str_leb a' b'
  end.

End Py.

(** ** Exceptions

    The exceptions the program meets; [SystemExit] is what [sys.exit]
    raises. *)

Inductive exn :=
| FileNotFoundError
| IndexError
| ValueError
| OSError
| OverflowError
| SystemExit (code : Z).

Inductive result (A : Type) :=
| Ok (a : A)
| Raise (e : exn).
Arguments Ok {A} a.
Arguments Raise {A} e.

(** ** The [datetime] module

    The calendar arithmetic follows CPython's [_pydatetime.py], the
    conversion of a timestamp its [_datetimemodule.c]; the formatting
    directives are those of the C library in the C locale, the parsing
    ones those of [_strptime.py].  The local time zone is the function
    [utcoffset], giving for an instant the number of seconds local time
    is ahead of UTC at that instant. *)

Module Datetime.

Record datetime := mkdt {
  year : Z; month : Z; day : Z; hour : Z; minute : Z; second : Z
}.

Definition MINYEAR := 1.
Definition MAXYEAR := 9999.

Definition idx (l : list Z) (i : Z) : Z := nth (Z.to_nat i) l 0.

Definition _DAYS_IN_MONTH : list Z :=
  [-1; 31; 28; 31; 30; 31; 30; 31; 31; 30; 31; 30; 31].

Definition _DAYS_BEFORE_MONTH : list Z :=
  [-1; 0; 31; 59; 90; 120; 151; 181; 212; 243; 273; 304; 334].

Definition _is_leap (y : Z) : bool :=
  (y mod 4 =? 0) && (negb (y mod 100 =? 0) || (y mod 400 =? 0)).

Definition _days_before_year (y : Z) : Z :=
  let y := y - 1 in y * 365 + y / 4 - y / 100 + y / 400.

Definition _days_in_month (y m : Z) : Z :=
  if (m =? 2) && _is_leap y then 29 else idx _DAYS_IN_MONTH m.

Definition _days_before_month (y m : Z) : Z :=
  idx _DAYS_BEFORE_MONTH m + (if (m >? 2) && _is_leap y then 1 else 0).

Definition _ymd2ord (y m d : Z) : Z :=
  _days_before_year y + _days_before_month y m + d.

Definition _DI400Y := 146097.
Definition _DI100Y := 36524.
Definition _DI4Y := 1461.

(** The month and the day of the [n]-th day of a year, counted from 0:
    an estimate of the month, one too large at times, and its
    correction. *)
Definition month_day (n : Z) (leapyear : bool) : Z * Z :=
  let m := Z.shiftr (n + 50) 5 in
  let preceding :=
    idx _DAYS_BEFORE_MONTH m + (if (m >? 2) && leapyear then 1 else 0) in
  if preceding >? n then
    let m := m - 1 in
    let preceding :=
      preceding
      - (idx _DAYS_IN_MONTH m + (if (m =? 2) && leapyear then 1 else 0)) in
    (m, n - preceding + 1)
  else (m, n - preceding + 1).

(** Day number (1 = 1 Jan of year 1) to year, month, day. *)
Definition _ord2ymd (n : Z) : Z * Z * Z :=
  let n := n - 1 in
  let n400 := n / _DI400Y in
  let n := n mod _DI400Y in
  let y := n400 * 400 + 1 in
  let n100 := n / _DI100Y in
  let n := n mod _DI100Y in
  let n4 := n / _DI4Y in
  let n := n mod _DI4Y in
  let n1 := n / 365 in
  let n := n mod 365 in
  let y := y + n100 * 100 + n4 * 4 + n1 in
  if (n1 =? 4) || (n100 =? 4) then (y - 1, 12, 31)
  else
    let leapyear := (n1 =? 3) && (negb (n4 =? 24) || (n100 =? 3)) in
    let '(m, d) := month_day n leapyear in
    (y, m, d).

(** The checks of the [datetime] constructor on the date fields. *)
Definition valid_date (y m d : Z) : bool :=
  (MINYEAR <=? y) && (y <=? MAXYEAR) && (1 <=? m) && (m <=? 12)
  && (1 <=? d) && (d <=? _days_in_month y m).

Definition toordinal (dt : datetime) : Z :=
  _ymd2ord (year dt) (month dt) (day dt).

(** Monday is 0. *)
Definition weekday (dt : datetime) : Z := (toordinal dt + 6) mod 7.

(** The broken-down UTC time of the instant [t] (seconds since the
    epoch, 1 Jan 1970, which is day 719163). *)
Definition gmtime (t : Z) : datetime :=
  let '(y, m, d) := _ord2ymd (t / 86400 + 719163) in
  let r := t mod 86400 in
  mkdt y m d (r / 3600) (r mod 3600 / 60) (r mod 60).

(** The range of the platform's [time_t], of 64 bits, and of [int]. *)
Definition TIME_T_MIN := - 2 ^ 63.
Definition TIME_T_MAX := 2 ^ 63 - 1.

Definition in_time_t (t : Z) : Prop := TIME_T_MIN <= t <= TIME_T_MAX.
Definition INT_MIN := - 2 ^ 31.
Definition INT_MAX := 2 ^ 31 - 1.

(** The seconds between the start of day 0 and the epoch, and the
    longest fold of a time zone the conversion looks for. *)
Definition epoch := 719163 * 24 * 60 * 60.
Definition max_fold_seconds := 24 * 3600.

Section LocalTime.
Variable utcoffset : Z -> Z.

Definition localtime (t : Z) : datetime := gmtime (t + utcoffset t).

(** [_PyTime_localtime]: the C library's [localtime_r] fails, and
    [OSError] is raised, when the year does not fit [tm_year], an [int]
    that counts from 1900. *)
Definition _PyTime_localtime (t : Z) : result datetime :=
  let tm := localtime t in
  if (INT_MIN <=? year tm - 1900) && (year tm - 1900 <=? INT_MAX)
  then Ok tm else Raise OSError.

(** [utc_to_seconds]: the seconds from the start of day 0 to a
    broken-down time, for the years a [datetime] has. *)
Definition utc_to_seconds (tm : datetime) : result Z :=
  if (year tm <? MINYEAR) || (year tm >? MAXYEAR) then Raise ValueError
  else Ok (((toordinal tm * 24 + hour tm) * 60 + minute tm) * 60
           + second tm).

(** [local(u)]: the local time, in seconds from the start of day 0, of
    the instant [u] counted in the same way.  Its own check of the
    range of [time_t] cannot fail where [time_t] is a [long long]. *)
Definition local (u : Z) : result Z :=
  let t := u - epoch in
  match _PyTime_localtime t with
  | Ok tm => utc_to_seconds tm
  | Raise e => Raise e
  end.

(** [datetime.fromtimestamp(t)] for an integer [t]: [OverflowError]
    outside the range of [time_t]; the local time; then the probes for a
    fold of the time zone, a day before [t] and, when the clock was set
    back since, at the time of the transition.  Each of them raises
    [ValueError] for a year outside [MINYEAR..MAXYEAR]. *)
Definition fromtimestamp (t : Z) : result datetime :=
  if (t <? TIME_T_MIN) || (TIME_T_MAX <? t) then Raise OverflowError
  else
    match _PyTime_localtime t with
    | Raise e => Raise e
    | Ok tm =>
        match utc_to_seconds tm with
        | Raise e => Raise e
        | Ok result_seconds =>
            match local (epoch + t - max_fold_seconds) with
            | Raise e => Raise e
            | Ok probe_seconds =>
                let transition :=
                  result_seconds - probe_seconds - max_fold_seconds in
                if transition <? 0 then
                  match local (epoch + t + transition) with
                  | Raise e => Raise e
                  | Ok _ => Ok tm
                  end
                else Ok tm
            end
        end
    end.
End LocalTime.

(** *** strftime *)

Definition day_abbr : list str :=
  [ "Mon" : str; "Tue" : str; "Wed" : str; "Thu" : str; "Fri" : str;
    "Sat" : str; "Sun" : str ].

Definition month_abbr : list str :=
  [ "Jan" : str; "Feb" : str; "Mar" : str; "Apr" : str; "May" : str;
    "Jun" : str; "Jul" : str; "Aug" : str; "Sep" : str; "Oct" : str;
    "Nov" : str; "Dec" : str ].

Definition digit (d : Z) : ascii := ascii_of_nat (Z.to_nat (48 + d)).

Definition pad2 (n : Z) : str := [digit (n / 10); digit (n mod 10)].

Definition pad4 (n : Z) : str :=
  [digit (n / 1000); digit (n / 100 mod 10);
   digit (n / 10 mod 10); digit (n mod 10)].

Definition hour12 (h : Z) : Z :=
  let h := h mod 12 in if h =? 0 then 12 else h.

Definition directive (dt : datetime) (c : ascii) : str :=
  if Ascii.eqb c "a" then nth (Z.to_nat (weekday dt)) day_abbr []
  else if Ascii.eqb c "b" then nth (Z.to_nat (month dt - 1)) month_abbr []
  else if Ascii.eqb c "d" then pad2 (day dt)
  else if Ascii.eqb c "Y" then Py.str_int (year dt)
  else if Ascii.eqb c "H" then pad2 (hour dt)
  else if Ascii.eqb c "I" then pad2 (hour12 (hour dt))
  else if Ascii.eqb c "M" then pad2 (minute dt)
  else if Ascii.eqb c "S" then pad2 (second dt)
  else if Ascii.eqb c "p" then (if hour dt <? 12 then "AM" else "PM" : str)
  else if Ascii.eqb c "%" then "%"
  else ["%"%char; c].

(** [dt.strftime(fmt)] *)
Fixpoint strftime (dt : datetime) (fmt : str) : str :=
  match fmt with
  | [] => []
  | c :: rest =>
      if Ascii.eqb c "%" then
        match rest with
        | d :: rest' => directive dt d ++ strftime dt rest'
        | [] => ["%"%char]
        end
      else c :: strftime dt rest
  end.

(** *** strptime

    [_strptime] turns the format into a regular expression, one named
    group per directive and [\s+] for each run of white space, matches
    it case-insensitively at the start of the string, and refuses a
    match that leaves text unconverted.  A matcher returns the ways
    its expression matches a prefix, in the order in which the
    backtracking engine tries them. *)

Definition matcher (A : Type) := str -> list (A * str).

Definition alt {A} (ps : list (matcher A)) : matcher A :=
  fun s => flat_map (fun p => p s) ps.

Definition digit_val (c : ascii) : option Z :=
  let n := Py.code c in
  if (48 <=? n) && (n <=? 57) then Some (n - 48) else None.

Definition between (lo hi v : Z) : bool := (lo <=? v) && (v <=? hi).

Definition one_digit (lo hi : Z) : matcher Z :=
  fun s =>
    match s with
    | c :: r =>
        match digit_val c with
        | Some v => if between lo hi v then [(v, r)] else []
        | None => []
        end
    | [] => []
    end.

Definition then_digit (p : matcher Z) (lo hi : Z) : matcher Z :=
  fun s =>
    flat_map (fun '(a, r) =>
                map (fun '(b, r') => (10 * a + b, r')) (one_digit lo hi r))
             (p s).

Definition two_digits (lo1 hi1 lo2 hi2 : Z) : matcher Z :=
  then_digit (one_digit lo1 hi1) lo2 hi2.

Definition after_space {A} (p : matcher A) : matcher A :=
  fun s =>
    match s with
    | c :: r => if Ascii.eqb c " " then p r else []
    | [] => []
    end.

(** A literal, compared case-insensitively. *)
Fixpoint literal {A} (v : A) (lit : str) : matcher A :=
  fun s =>
    match lit with
    | [] => [(v, s)]
    | a :: lit' =>
        match s with
        | c :: r =>
            if Ascii.eqb (Py.lower_char c) (Py.lower_char a)
            then literal v lit' r else []
        | [] => []
        end
    end.

(** [3[0-1]|[1-2]\d|0[1-9]|[1-9]| [1-9]] *)
Definition re_d : matcher Z :=
  alt [ two_digits 3 3 0 1; two_digits 1 2 0 9; two_digits 0 0 1 9;
        one_digit 1 9; after_space (one_digit 1 9) ].

(** [\d\d\d\d] *)
Definition re_Y : matcher Z :=
  then_digit (then_digit (two_digits 0 9 0 9) 0 9) 0 9.

(** [1[0-2]|0[1-9]|[1-9]] *)
Definition re_I : matcher Z :=
  alt [ two_digits 1 1 0 2; two_digits 0 0 1 9; one_digit 1 9 ].

(** [[0-5]\d|\d] *)
Definition re_M : matcher Z :=
  alt [ two_digits 0 5 0 9; one_digit 0 9 ].

(** [jan|feb|...|dec], giving the month number. *)
Definition re_b : matcher Z :=
  alt (map (fun m => literal m (nth (Z.to_nat (m - 1)) month_abbr []))
           [1; 2; 3; 4; 5; 6; 7; 8; 9; 10; 11; 12]).

(** [am|pm]; [true] is PM. *)
Definition re_p : matcher bool :=
  alt [ literal false ("AM" : str); literal true ("PM" : str) ].

(** [\s+], the longest run first. *)
Fixpoint re_ws (s : str) : list (unit * str) :=
  match s with
  | c :: r => if Py.isspace c then re_ws r ++ [(tt, r)] else []
  | [] => []
  end.

(** The groups found by a match. *)
Record found := mkfound {
  f_Y : option Z; f_b : option Z; f_d : option Z;
  f_I : option Z; f_M : option Z; f_p : option bool
}.

Definition nothing_found : found :=
  mkfound None None None None None None.

Definition regex := found -> str -> list (found * str).

Definition no_match : regex := fun _ _ => [].

Definition group {A} (p : matcher A) (set : found -> A -> found)
           (k : regex) : regex :=
  fun f s => flat_map (fun '(v, r) => k (set f v) r) (p s).

Definition with_Y (f : found) (v : Z) : found :=
  mkfound (Some v) (f_b f) (f_d f) (f_I f) (f_M f) (f_p f).
Definition with_b (f : found) (v : Z) : found :=
  mkfound (f_Y f) (Some v) (f_d f) (f_I f) (f_M f) (f_p f).
Definition with_d (f : found) (v : Z) : found :=
  mkfound (f_Y f) (f_b f) (Some v) (f_I f) (f_M f) (f_p f).
Definition with_I (f : found) (v : Z) : found :=
  mkfound (f_Y f) (f_b f) (f_d f) (Some v) (f_M f) (f_p f).
Definition with_M (f : found) (v : Z) : found :=
  mkfound (f_Y f) (f_b f) (f_d f) (f_I f) (Some v) (f_p f).
Definition with_p (f : found) (v : bool) : found :=
  mkfound (f_Y f) (f_b f) (f_d f) (f_I f) (f_M f) (Some v).

(** Text of the format that is no directive sets no group. *)
Definition keep (f : found) (_ : unit) : found := f.

Definition directive_re (c : ascii) (k : regex) : regex :=
  if Ascii.eqb c "Y" then group re_Y with_Y k
  else if Ascii.eqb c "b" then group re_b with_b k
  else if Ascii.eqb c "d" then group re_d with_d k
  else if Ascii.eqb c "I" then group re_I with_I k
  else if Ascii.eqb c "M" then group re_M with_M k
  else if Ascii.eqb c "p" then group re_p with_p k
  else no_match.

(** The expression of a format; [in_ws] tells that the white space
    just before has already been turned into [\s+]. *)
Fixpoint pattern (fmt : str) (in_ws : bool) : regex :=
  match fmt with
  | [] => fun f s => [(f, s)]
  | c :: rest =>
      if Py.isspace c then
        if in_ws then pattern rest true
        else group re_ws keep (pattern rest true)
      else if Ascii.eqb c "%" then
        match rest with
        | d :: rest' => directive_re d (pattern rest' false)
        | [] => no_match
        end
      else group (literal tt [c]) keep (pattern rest false)
  end.

Definition default {A} (d : A) (o : option A) : A :=
  match o with Some v => v | None => d end.

(** From the groups to the value; [None] is the [ValueError] of a date
    that does not exist. *)
Definition build (f : found) : option datetime :=
  let y := default 1900 (f_Y f) in
  let m := default 1 (f_b f) in
  let d := default 1 (f_d f) in
  let h := match f_I f with
           | Some h =>
               match f_p f with
               | Some true => if h =? 12 then h else h + 12
               | _ => if h =? 12 then 0 else h
               end
           | None => 0
           end in
  if valid_date y m d then Some (mkdt y m d h (default 0 (f_M f)) 0)
  else None.

(** [datetime.strptime(s, fmt)]; [None] is [ValueError]. *)
Definition strptime (s fmt : str) : option datetime :=
  match pattern fmt false nothing_found s with
  | (f, []) :: _ => build f
  | _ => None
  end.

(** *** Vocabulary of the specification *)

(** The two formats of the program: the one the structured-data parser
    writes and the feed reads back, and the one of the feed. *)
Definition instagram_format : str := "%b %d, %Y %I:%M %p".

Definition rfc822_format : str := "%a, %d %b %Y %H:%M:%S +0000".

(** The expression that has nothing left to match. *)
Definition matched : regex := fun f s => [(f, s)].

(** [month_day] gives a month of the year and a day of that month. *)
Definition month_day_ok (leapyear : bool) (n : Z) : bool :=
  let '(m, d) := month_day n leapyear in
  (1 <=? m) && (m <=? 12) && (1 <=? d)
  && (d <=? (if (m =? 2) && leapyear then 29 else idx _DAYS_IN_MONTH m)).

End Datetime.


(** ** The two regular expressions of the program *)

Module Re.

(** The longest prefix of characters of a class, as a greedy [+] or [*]
    at the end of an expression takes it. *)
Fixpoint run (f : ascii -> bool) (s : str) : str :=
  match s with
  | c :: r => if f c then c :: run f r else []
  | [] => []
  end.

(** [#(\w+)] at the start of [s]: the group it captures. *)
Definition match_tag (s : str) : option str :=
  match s with
  | c :: r =>
      if Ascii.eqb c "#" then
        match run Py.isword r with
        | [] => None
        | w => Some w
        end
      else None
  | [] => None
  end.

(** The scan of [findall]: at each position not inside the previous
    match, try the expression; [skip] counts the characters of the
    previous match still to pass. *)
Fixpoint findall_tag_from (skip : nat) (s : str) : list str :=
  match s with
  | [] => []
  | _ :: r =>
      match skip with
      | S k => findall_tag_from k r
      | O =>
          match match_tag s with
          | Some w => w :: findall_tag_from (List.length w) r
          | None => findall_tag_from 0 r
          end
      end
  end.

(** [re.findall(r'#(\w+)', s)] *)
Definition findall_tag (s : str) : list str := findall_tag_from 0 s.

(** [\s*#\w+] at the start of [s]: the length of the match.  The
    greedy [\s*] first takes a white-space character and gives it back
    when the rest does not match. *)
Fixpoint match_ws_tag (s : str) : option nat :=
  match s with
  | [] => None
  | c :: r =>
      let here := option_map (fun w => S (List.length w)) (match_tag s) in
      if Py.isspace c then
        match match_ws_tag r with
        | Some n => Some (S n)
        | None => here
        end
      else here
  end.

Fixpoint sub_ws_tag_from (skip : nat) (s : str) : str :=
  match s with
  | [] => []
  | c :: r =>
      match skip with
      | S k => sub_ws_tag_from k r
      | O =>
          match match_ws_tag s with
          | Some n => sub_ws_tag_from (pred n) r
          | None => c :: sub_ws_tag_from 0 r
          end
      end
  end.

(** [re.sub(r'\s*#\w+', '', s)] *)
Definition sub_ws_tag (s : str) : str := sub_ws_tag_from 0 s.

(** *** Vocabulary of the specification *)

(** A text is clean when no [#] in it is followed by a word character,
    so that [#\w+] matches nowhere. *)
Fixpoint clean (s : str) : Prop :=
  match s with
  | [] => True
  | c :: r => match_tag s = None /\ clean r
  end.

(** The text is empty or starts with a character that is not a word
    character: what follows a match of a greedy [\w+]. *)
Definition word_free_head (s : str) : Prop := run Py.isword s = [].

End Re.

(** ** src/instagram_json_parser.py *)

Module InstagramJSONParser.

(** The objects of [posts_1.json], as far as the parser reads them; a
    key that is absent is [None]. *)
Record Exif := {
  exif_latitude : option Q;
  exif_longitude : option Q
}.

Record PhotoMetadata := { exif_data : option (list Exif) }.

Record MediaMetadata := { photo_metadata : option PhotoMetadata }.

Record Media := {
  media_title : option str;
  media_creation_timestamp : option Z;
  uri : option str;
  media_metadata : option MediaMetadata
}.

Record PostData := {
  post_title : option str;
  creation_timestamp : option Z;
  media : option (list Media)
}.

Record InstagramPost := {
  title : str;
  images : list str;
  date : str;
  timestamp : Z;
  latitude : option Q;
  longitude : option Q;
  tagged_users : list str;
  hashtags : list str
}.

(** [d.get(key, default)] *)
Definition get {A} (o : option A) (d : A) : A :=
  match o with Some v => v | None => d end.

(** Truth value of what [exif.get('latitude')] returns and of the
    coordinate found so far: [None] and zero are false. *)
Definition truthy_coord (o : option Q) : bool :=
  match o with
  | Some q => negb (Qeq_bool q 0)
  | None => false
  end.

Section Parser.
(** [text.encode('latin-1').decode('utf-8')], [None] when it raises
    [UnicodeDecodeError] or [UnicodeEncodeError]. *)
Variable latin1_utf8 : str -> option str.
Variable utcoffset : Z -> Z.

Definition _fix_encoding (text : str) : str :=
  if negb (Py.truthy text) then text
  else match latin1_utf8 text with
       | Some fixed => fixed
       | None => text
       end.

Fixpoint unique (seen : list str) (tags : list str) : list str :=
  match tags with
  | [] => []
  | tag :: rest =>
      let tag_lower := Py.lower tag in
      if existsb (Py.str_eqb tag_lower) seen then unique seen rest
      else tag :: unique (tag_lower :: seen) rest
  end.

Definition _extract_hashtags (text : str) : str * list str :=
  if negb (Py.truthy text) then (text, [])
  else
    let hashtags := Re.findall_tag text in
    let unique_hashtags := unique [] hashtags in
    let clean_text := Py.strip (Re.sub_ws_tag text) in
    (clean_text, unique_hashtags).

(** [except (ValueError, OSError)]: any other exception goes on to the
    caller. *)
Definition _format_timestamp (timestamp : Z) : result str :=
  if negb (Py.truthy_int timestamp) then Ok ("Unknown date" : str)
  else match Datetime.fromtimestamp utcoffset timestamp with
       | Ok dt => Ok (Datetime.strftime dt "%b %d, %Y %I:%M %p")
       | Raise ValueError => Ok ("Unknown date" : str)
       | Raise OSError => Ok ("Unknown date" : str)
       | Raise e => Raise e
       end.

(** The body of [for exif in exif_data], on the pair of coordinates. *)
Definition exif_step (loc : option Q * option Q) (exif : Exif)
  : option Q * option Q :=
  let '(latitude, longitude) := loc in
  let latitude :=
    if truthy_coord (exif_latitude exif) && negb (truthy_coord latitude)
    then exif_latitude exif else latitude in
  let longitude :=
    if truthy_coord (exif_longitude exif) && negb (truthy_coord longitude)
    then exif_longitude exif else longitude in
  (latitude, longitude).

Definition exif_of (m : Media) : list Exif :=
  let media_metadata := get (media_metadata m) {| photo_metadata := None |} in
  let photo_metadata :=
    get (photo_metadata media_metadata) {| exif_data := None |} in
  get (exif_data photo_metadata) [].

(** The body of [for media in media_items], on the variables it
    assigns: [title], [images] and the coordinates. *)
Definition media_step (st : str * list str * (option Q * option Q))
           (m : Media) : str * list str * (option Q * option Q) :=
  let '(title, images, loc) := st in
  let title :=
    if negb (Py.truthy title) then _fix_encoding (get (media_title m) [])
    else title in
  let uri := get (uri m) [] in
  let images := if Py.truthy uri then images ++ [uri] else images in
  (title, images, fold_left exif_step (exif_of m) loc).

(** [Raise e] is an exception of [_format_timestamp], which
    [_parse_post] does not catch. *)
Definition _parse_post (post_data : PostData)
  : result (option InstagramPost) :=
  let title := _fix_encoding (get (post_title post_data) []) in
  let media_items := get (media post_data) [] in
  if negb (Py.truthy media_items) then Ok None
  else
    let timestamp := get (creation_timestamp post_data) 0 in
    let timestamp :=
      if negb (Py.truthy_int timestamp) && Py.truthy media_items then
        match media_items with
        | m0 :: _ => get (media_creation_timestamp m0) 0
        | [] => timestamp
        end
      else timestamp in
    let timestamp :=
      if negb (Py.truthy_int timestamp) then 0 else timestamp in
    match _format_timestamp timestamp with
    | Raise e => Raise e
    | Ok date =>
        let '(title, images, (latitude, longitude)) :=
          fold_left media_step media_items (title, [], (None, None)) in
        if negb (Py.truthy images) then Ok None
        else
          let '(clean_title, hashtags) := _extract_hashtags title in
          Ok (Some {| title := clean_title;
                      images := images;
                      date := date;
                      timestamp := timestamp;
                      latitude := latitude;
                      longitude := longitude;
                      tagged_users := [];
                      hashtags := hashtags |})
    end.

(** The loop of [parse_posts]: the posts of the records, in the order
    of the array; the exception of a record ends it. *)
Fixpoint parsed (data : list PostData) : result (list InstagramPost) :=
  match data with
  | [] => Ok []
  | post_data :: rest =>
      match _parse_post post_data with
      | Raise e => Raise e
      | Ok post =>
          match parsed rest with
          | Raise e => Raise e
          | Ok posts =>
              Ok match post with
                 | Some post => post :: posts
                 | None => posts
                 end
          end
      end
  end.

(** [posts_json] is the array in the posts file, [None] when the file
    does not exist. *)
Definition parse_posts (posts_json : option (list PostData))
  : result (list InstagramPost) :=
  match posts_json with
  | None => Raise FileNotFoundError
  | Some data =>
      match parsed data with
      | Ok posts => Ok (Py.sort timestamp true posts)
      | Raise e => Raise e
      end
  end.

(** The posts of the records, each record taken on its own, in the
    order of the array. *)
Definition record_posts (data : list PostData) : list InstagramPost :=
  flat_map (fun post_data => match _parse_post post_data with
                             | Ok (Some post) => [post]
                             | _ => []
                             end) data.
End Parser.

(** *** Vocabulary of the specification *)

(** The media items of a record and the non-empty URIs they carry, in
    the order of the media array. *)
Definition media_items (r : PostData) : list Media := get (media r) [].

Definition nonempty_uris (ms : list Media) : list str :=
  filter Py.truthy (map (fun m => get (uri m) []) ms).

(** The EXIF entries of a record, media item after media item. *)
Definition exif_entries (ms : list Media) : list Exif :=
  flat_map exif_of ms.

(** The two assignments of [exif_step], each on its coordinate. *)
Definition pick_lat (cur : option Q) (e : Exif) : option Q :=
  if truthy_coord (exif_latitude e) && negb (truthy_coord cur)
  then exif_latitude e else cur.

Definition pick_lon (cur : option Q) (e : Exif) : option Q :=
  if truthy_coord (exif_longitude e) && negb (truthy_coord cur)
  then exif_longitude e else cur.

(** The timestamp of a record: its own when it has one that is not
    zero, else the one of its first media item, else zero. *)
Definition resolved_timestamp (r : PostData) : Z :=
  let own := get (creation_timestamp r) 0 in
  if own =? 0 then
    match media_items r with
    | m0 :: _ => get (media_creation_timestamp m0) 0
    | [] => 0
    end
  else own.

(** The titles a record offers, repaired: its own, then those of its
    media items; and the first of them that is not empty. *)
Definition candidate_titles (latin1_utf8 : str -> option str) (r : PostData)
  : list str :=
  _fix_encoding latin1_utf8 (get (post_title r) [])
  :: map (fun m => _fix_encoding latin1_utf8 (get (media_title m) []))
         (media_items r).

Definition resolved_title (latin1_utf8 : str -> option str) (r : PostData)
  : str :=
  hd [] (filter Py.truthy (candidate_titles latin1_utf8 r)).

End InstagramJSONParser.

(** ** The part of BeautifulSoup the markup parser uses *)

Module BS4.

#[local] Set Warnings "-register-all".

(** A parsed document: text and elements; the [class] attribute of
    an element is kept apart, split into its classes, as the library
    stores it. *)
Inductive node :=
| Text (s : str)
| Tag (name : str) (classes : list str) (attrs : list (str * str))
      (children : list node).

(** Everything below a node, in document order. *)
Fixpoint descendants (n : node) : list node :=
  match n with
  | Text _ => []
  | Tag _ _ _ children =>
      (fix below (l : list node) : list node :=
         match l with
         | [] => []
         | c :: l' => c :: descendants c ++ below l'
         end) children
  end.

(** A [class_] filter matches one of the classes or the whole
    attribute. *)
Definition has_class (classes : list str) (cls : str) : bool :=
  existsb (Py.str_eqb cls) classes
  || Py.str_eqb (Py.join " " classes) cls.

Definition is_tag (name : str) (class_ : option str) (n : node) : bool :=
  match n with
  | Text _ => false
  | Tag nm classes _ _ =>
      Py.str_eqb nm name
      && match class_ with
         | Some cls => has_class classes cls
         | None => true
         end
  end.

(** [n.find_all(name, class_=...)] *)
Definition find_all (n : node) (name : str) (class_ : option str)
  : list node :=
  filter (is_tag name class_) (descendants n).

(** [n.find(name, class_=...)] *)
Definition find (n : node) (name : str) (class_ : option str)
  : option node :=
  hd_error (find_all n name class_).

(** [n.get_text()] *)
Fixpoint get_text (n : node) : str :=
  match n with
  | Text s => s
  | Tag _ _ _ children =>
      (fix texts (l : list node) : str :=
         match l with
         | [] => []
         | c :: l' => get_text c ++ texts l'
         end) children
  end.

(** [n.get(key)] *)
Definition get (n : node) (key : str) : option str :=
  match n with
  | Text _ => None
  | Tag _ _ attrs _ =>
      option_map snd (List.find (fun kv => Py.str_eqb (fst kv) key) attrs)
  end.

End BS4.

(** ** src/instagram_parser.py *)

Module InstagramParser.

Record InstagramPost := {
  title : str;
  images : list str;
  date : str;
  latitude : option Q;
  longitude : option Q;
  tagged_users : list str;
  hashtags : list str
}.

Section Parser.
(** [float(value)], [None] when it raises [ValueError]. *)
Variable float : str -> option Q.

(** The images of the content block: the truthy [src] attributes. *)
Fixpoint sources (img_tags : list BS4.node) : list str :=
  match img_tags with
  | [] => []
  | img :: rest =>
      match BS4.get img "src" with
      | Some src => if Py.truthy src then src :: sources rest
                    else sources rest
      | None => sources rest
      end
  end.

(** The body of [for row in rows], on the pair of coordinates. *)
Definition row_step (loc : option Q * option Q) (row : BS4.node)
  : option Q * option Q :=
  let '(latitude, longitude) := loc in
  let cells := BS4.find_all row "td" None in
  match cells with
  | cell0 :: cell1 :: _ =>
      let label_div := BS4.find cell0 "div" (Some ("_a6-q" : str)) in
      let value_div := BS4.find cell1 "div" (Some ("_a6-q" : str)) in
      match label_div, value_div with
      | Some label_div, Some value_div =>
          let label := Py.strip (BS4.get_text label_div) in
          let value := Py.strip (BS4.get_text value_div) in
          if Py.str_eqb label "Latitude" && Py.truthy value then
            match float value with
            | Some x => (Some x, longitude)
            | None => loc
            end
          else if Py.str_eqb label "Longitude" && Py.truthy value then
            match float value with
            | Some x => (latitude, Some x)
            | None => loc
            end
          else loc
      | _, _ => loc
      end
  | _ => loc
  end.

(** The body of [for table in tables]. *)
Definition table_step (loc : option Q * option Q) (table : BS4.node)
  : option Q * option Q :=
  fold_left row_step (BS4.find_all table "tr" None) loc.

(** The four extractions of [_parse_post_div], in its order. *)
Definition extract_title (post_div : BS4.node) : str :=
  let title_elem :=
    BS4.find post_div "h2" (Some ("_3-95 _2pim _a6-h _a6-i" : str)) in
  match title_elem with Some e => BS4.get_text e | None => [] end.

Definition extract_date (post_div : BS4.node) : str :=
  let date_elem := BS4.find post_div "div" (Some ("_3-94 _a6-o" : str)) in
  match date_elem with Some e => BS4.get_text e | None => [] end.

Definition extract_images (post_div : BS4.node) : list str :=
  let content_div :=
    BS4.find post_div "div" (Some ("_3-95 _a6-p" : str)) in
  match content_div with
  | Some content_div =>
      sources (BS4.find_all content_div "img" (Some ("_a6_o _3-96" : str)))
  | None => []
  end.

Definition extract_location (post_div : BS4.node) : option Q * option Q :=
  let tables := BS4.find_all post_div "table" None in
  fold_left table_step tables (None, None).

Definition _parse_post_div (post_div : BS4.node) : option InstagramPost :=
  let title := extract_title post_div in
  let date := extract_date post_div in
  let images := extract_images post_div in
  let '(latitude, longitude) := extract_location post_div in
  if negb (Py.truthy images) && negb (Py.truthy title) then None
  else Some {| title := title;
               images := images;
               date := date;
               latitude := latitude;
               longitude := longitude;
               tagged_users := [];
               hashtags := [] |}.

Fixpoint parsed (post_divs : list BS4.node) : list InstagramPost :=
  match post_divs with
  | [] => []
  | post_div :: rest =>
      match _parse_post_div post_div with
      | Some post => post :: parsed rest
      | None => parsed rest
      end
  end.

(** [posts_html] is the parsed posts file, [None] when the file does
    not exist. *)
Definition parse_posts (posts_html : option BS4.node)
  : result (list InstagramPost) :=
  match posts_html with
  | None => Raise FileNotFoundError
  | Some soup =>
      Ok (parsed
            (BS4.find_all soup "div"
               (Some ("pam _3-95 _2ph- _a6-g uiBoxWhite noborder" : str))))
  end.
End Parser.

(** *** Vocabulary of the specification *)

(** The table rows of a block in the order in which the location scan
    visits them: table after table, and the rows of each. *)
Definition scanned_rows (post_div : BS4.node) : list BS4.node :=
  flat_map (fun table => BS4.find_all table "tr" None)
           (BS4.find_all post_div "table" None).

(** The label and the value of a row: the stripped texts of the marked
    blocks in its first two cells. *)
Definition row_label_value (row : BS4.node) : option (str * str) :=
  match BS4.find_all row "td" None with
  | cell0 :: cell1 :: _ =>
      match BS4.find cell0 "div" (Some ("_a6-q" : str)),
            BS4.find cell1 "div" (Some ("_a6-q" : str)) with
      | Some l, Some v =>
          Some (Py.strip (BS4.get_text l), Py.strip (BS4.get_text v))
      | _, _ => None
      end
  | _ => None
  end.

(** The row is labeled [label] and has a value. *)
Definition labeled (label : str) (row : BS4.node) : Prop :=
  exists value, row_label_value row = Some (label, value) /\ value <> [].

(** The row is labeled [label] and its value is the number [x]. *)
Definition reads (float : str -> option Q) (label : str) (row : BS4.node)
           (x : Q) : Prop :=
  exists value,
    row_label_value row = Some (label, value) /\ value <> []
    /\ float value = Some x.

(** The row does not give a number under [label]. *)
Definition silent (float : str -> option Q) (label : str) (row : BS4.node)
  : Prop :=
  forall x, ~ reads float label row x.

End InstagramParser.

(** ** src/rss_generator.py *)

Module RSSGenerator.

Definition _truncate_title (text : str) (max_length : Z) : str :=
  if Py.len text <=? max_length then text
  else
    let truncated := Py.rsplit1_head (Py.slice_to text max_length) " " in
    truncated ++ "...".

Fixpoint unique (seen : list str) (tags : list str) : list str :=
  match tags with
  | [] => []
  | tag :: rest =>
      let tag_lower := Py.lower tag in
      if existsb (Py.str_eqb tag_lower) seen then unique seen rest
      else tag :: unique (tag_lower :: seen) rest
  end.

Definition _extract_hashtags (text : str) : list str :=
  if negb (Py.truthy text) then []
  else unique [] (Re.findall_tag text).

Definition _parse_date (date_str : str) : str :=
  if negb (Py.truthy date_str) then []
  else
    match Datetime.strptime date_str "%b %d, %Y %I:%M %p" with
    | Some dt => Datetime.strftime dt "%a, %d %b %Y %H:%M:%S +0000"
    | None =>
        match Datetime.strptime date_str "%b %d, %Y %I:%M %p" with
        | Some dt => Datetime.strftime dt "%a, %d %b %Y %H:%M:%S +0000"
        | None => []
        end
    end.

End RSSGenerator.

(** ** src/site_generator.py *)

Module SiteGenerator.

(** The posts the generator is given come from either parser. *)
Inductive Post :=
| FromJSON (p : InstagramJSONParser.InstagramPost)
| FromHTML (p : InstagramParser.InstagramPost).

Definition title (post : Post) : str :=
  match post with
  | FromJSON p => InstagramJSONParser.title p
  | FromHTML p => InstagramParser.title p
  end.

Definition images (post : Post) : list str :=
  match post with
  | FromJSON p => InstagramJSONParser.images p
  | FromHTML p => InstagramParser.images p
  end.

(** [post.images = paths] *)
Definition set_images (post : Post) (paths : list str) : Post :=
  match post with
  | FromJSON p =>
      FromJSON
        {| InstagramJSONParser.title := InstagramJSONParser.title p;
           InstagramJSONParser.images := paths;
           InstagramJSONParser.date := InstagramJSONParser.date p;
           InstagramJSONParser.timestamp := InstagramJSONParser.timestamp p;
           InstagramJSONParser.latitude := InstagramJSONParser.latitude p;
           InstagramJSONParser.longitude := InstagramJSONParser.longitude p;
           InstagramJSONParser.tagged_users :=
             InstagramJSONParser.tagged_users p;
           InstagramJSONParser.hashtags := InstagramJSONParser.hashtags p |}
  | FromHTML p =>
      FromHTML
        {| InstagramParser.title := InstagramParser.title p;
           InstagramParser.images := paths;
           InstagramParser.date := InstagramParser.date p;
           InstagramParser.latitude := InstagramParser.latitude p;
           InstagramParser.longitude := InstagramParser.longitude p;
           InstagramParser.tagged_users := InstagramParser.tagged_users p;
           InstagramParser.hashtags := InstagramParser.hashtags p |}
  end.

(** The loop over the sentence delimiters: the cut at the first
    delimiter, in the order of the list, whose first occurrence lies
    between 15 and [max_length]. *)
Fixpoint sentence_cut (text : str) (max_length : Z) (delimiters : list str)
  : option str :=
  match delimiters with
  | [] => None
  | delimiter :: rest =>
      let pos := Py.find text delimiter in
      if (15 <=? pos) && (pos <=? max_length)
      then Some (Py.slice_to text (pos + 1))
      else sentence_cut text max_length rest
  end.

Definition _truncate_title (text : str) (max_length : Z) : str :=
  if Py.len text <=? max_length then text
  else
    match sentence_cut text max_length
                       [". " : str; "! " : str; "? " : str] with
    | Some cut => cut
    | None =>
        let comma_pos := Py.find text ", " in
        if (15 <=? comma_pos) && (comma_pos <=? max_length)
        then Py.slice_to text comma_pos
        else if Py.len text >? max_length then
          let truncated :=
            Py.rsplit1_head (Py.slice_to text max_length) " " in
          truncated ++ "..."
        else text
    end.

(** *** Vocabulary of the specification *)

(** [sub] occurs in [s] at position [p]; [p] is its first occurrence. *)
Definition occurs_at (s sub : str) (p : nat) : Prop :=
  (p <= List.length s)%nat /\ firstn (List.length sub) (skipn p s) = sub.

Definition first_at (s sub : str) (p : nat) : Prop :=
  occurs_at s sub p /\ forall q, (q < p)%nat -> ~ occurs_at s sub q.

(** The first occurrence of the delimiter lies between 15 and 60, at
    [p]; or the delimiter gives no cut: it is absent or its first
    occurrence lies outside. *)
Definition cut_at (text d : str) (p : nat) : Prop :=
  first_at text d p /\ (15 <= p <= 60)%nat.

Definition no_cut (text d : str) : Prop :=
  forall p, first_at text d p -> ~ (15 <= p <= 60)%nat.

(** A sentence ends at position [p]: one of the three delimiters
    occurs there; and the first such position of a window. *)
Definition sentence_end_at (text : str) (p : nat) : bool :=
  Py.startswith (skipn p text) ". "
  || Py.startswith (skipn p text) "! "
  || Py.startswith (skipn p text) "? ".

Definition first_sentence_end (text : str) (lo hi : nat) : option nat :=
  List.find (sentence_end_at text) (seq lo (hi - lo + 1)).

Section Site.
(** The file system: paths with [/] and [.name], a state of files
    with [exists] and [shutil.copy2]. *)
Variables path fs : Type.
Variable joinpath : path -> str -> path.
Variable name : path -> str.
Variable path_exists : fs -> path -> bool.
Variable copy2 : fs -> path -> path -> fs.

(** [self.export_dir] of the parser and [self.images_dir]. *)
Variables export_dir images_dir : path.

(** The method of both parsers. *)
Definition get_full_image_path (relative_path : str) : path :=
  joinpath export_dir relative_path.

(** The loop of [_copy_post_images], on the file system and
    [new_image_paths]. *)
Fixpoint copy_images (files : fs) (new_image_paths : list str)
         (image_paths : list str) : fs * list str :=
  match image_paths with
  | [] => (files, new_image_paths)
  | img_path :: rest =>
      let src_path := get_full_image_path img_path in
      if negb (path_exists files src_path) then
        copy_images files new_image_paths rest
      else
        let dest_filename := name src_path in
        let dest_path := joinpath images_dir dest_filename in
        let files :=
          if negb (path_exists files dest_path)
          then copy2 files src_path dest_path else files in
        copy_images files
                    (new_image_paths ++ [("../images/" : str) ++ dest_filename])
                    rest
  end.

Definition _copy_post_images (files : fs) (post : Post) : fs * Post :=
  let '(files, new_image_paths) := copy_images files [] (images post) in
  (files, set_images post new_image_paths).

(** [for post in posts: self._copy_post_images(post, parser)]: the
    posts are objects, changed in place. *)
Fixpoint copy_all (files : fs) (posts : list Post) : fs * list Post :=
  match posts with
  | [] => (files, [])
  | post :: rest =>
      let '(files, post) := _copy_post_images files post in
      let '(files, rest) := copy_all files rest in
      (files, post :: rest)
  end.

Definition page_title (post : Post) : str :=
  let full_text :=
    if Py.truthy (title post) then title post else "Instagram Post" : str in
  _truncate_title full_text 60.

(** What [generate_site] leaves: the files, the post objects, the
    titles of the pages and the posts handed to [generate_feed]. *)
Record Site := {
  site_files : fs;
  site_posts : list Post;
  site_titles : list str;
  site_feed : list Post
}.

(** [rss_posts] holds references to the objects of [posts], given
    here by their positions in [posts]; [None] is the default
    argument. *)
Definition generate_site (files : fs) (posts : list Post)
           (rss_posts : option (list nat)) : Site :=
  let rss_posts :=
    match rss_posts with
    | Some refs => refs
    | None => seq 0 (List.length posts)
    end in
  let '(files, posts) := copy_all files posts in
  {| site_files := files;
     site_posts := posts;
     site_titles := map page_title posts;
     site_feed :=
       flat_map (fun r => match nth_error posts r with
                          | Some post => [post]
                          | None => []
                          end) rss_posts |}.
(** *** Vocabulary of the specification *)

(** The path an image is given in the site. *)
Definition site_path (img_path : str) : str :=
  ("../images/" : str) ++ name (get_full_image_path img_path).

(** The images of a list that are found on disk, as the copy step
    goes through them from the file system [files]: an image is found
    when its source file exists as its turn comes; it is then copied
    to the images directory, unless a file of its name is there
    already.  [kept] are the images found, [files'] is the file system
    left. *)
Inductive found_on_disk : fs -> list str -> fs -> list str -> Prop :=
| found_none (files : fs) : found_on_disk files [] files []
| found_missing (files files' : fs) (img : str) (imgs kept : list str) :
    path_exists files (get_full_image_path img) = false ->
    found_on_disk files imgs files' kept ->
    found_on_disk files (img :: imgs) files' kept
| found_there (files files' : fs) (img : str) (imgs kept : list str) :
    path_exists files (get_full_image_path img) = true ->
    path_exists files
                (joinpath images_dir (name (get_full_image_path img))) = true ->
    found_on_disk files imgs files' kept ->
    found_on_disk files (img :: imgs) files' (img :: kept)
| found_copied (files files' : fs) (img : str) (imgs kept : list str) :
    path_exists files (get_full_image_path img) = true ->
    path_exists files
                (joinpath images_dir (name (get_full_image_path img))) = false ->
    found_on_disk
      (copy2 files (get_full_image_path img)
             (joinpath images_dir (name (get_full_image_path img))))
      imgs files' kept ->
    found_on_disk files (img :: imgs) files' (img :: kept).

(** What the copy step does to the posts, one after the other: the
    images of a post become the site paths of its images found on
    disk, in their order, and putting the old images back gives the
    old post. *)
Inductive copied : fs -> list Post -> list Post -> Prop :=
| copied_nil (files : fs) : copied files [] []
| copied_cons (files files' : fs) (post post' : Post)
              (posts posts' : list Post) (kept : list str) :
    found_on_disk files (images post) files' kept ->
    images post' = map site_path kept ->
    set_images post' (images post) = post ->
    copied files' posts posts' ->
    copied files (post :: posts) (post' :: posts').
End Site.

Arguments site_path {path}.
Arguments found_on_disk {path fs}.
Arguments copied {path fs}.
Arguments get_full_image_path {path} joinpath export_dir relative_path.
Arguments copy_images {path fs}.
Arguments _copy_post_images {path fs}.
Arguments copy_all {path fs}.
Arguments generate_site {path fs}.
Arguments site_files {fs}.
Arguments site_posts {fs}.
Arguments site_titles {fs}.
Arguments site_feed {fs}.

(** The name of the page of the post at position [idx]:
    [post_id = f"post-{idx + 1}"], written to [posts/{post_id}.html]. *)
Definition post_id (idx : Z) : str :=
  ("post-" : str) ++ Py.str_int (idx + 1).

Definition page_file (idx : Z) : str := post_id idx ++ ".html".

Definition date (post : Post) : str :=
  match post with
  | FromJSON p => InstagramJSONParser.date p
  | FromHTML p => InstagramParser.date p
  end.

Definition hashtags (post : Post) : list str :=
  match post with
  | FromJSON p => InstagramJSONParser.hashtags p
  | FromHTML p => InstagramParser.hashtags p
  end.

Definition latitude (post : Post) : option Q :=
  match post with
  | FromJSON p => InstagramJSONParser.latitude p
  | FromHTML p => InstagramParser.latitude p
  end.

Definition longitude (post : Post) : option Q :=
  match post with
  | FromJSON p => InstagramJSONParser.longitude p
  | FromHTML p => InstagramParser.longitude p
  end.

End SiteGenerator.

(** ** src/rss_generator.py: the items of the feed

    An item is given by the children [_add_item] creates, the
    [content:encoded] child of [_create_content_html] apart; the feed is
    the list of the items of its channel. *)

Module RSSFeed.

Record Item := {
  item_title : str;
  link : str;
  guid : str;
  pubDate : option str;
  description : str;
  category : list str
}.

(** [RSSGenerator.__init__]: the base URL kept. *)
Definition init (base_url : str) : str := Py.rstrip_char "/" base_url.

Section Generator.
Variable base_url : str.

Definition _create_description (post : SiteGenerator.Post) (idx : Z) : str :=
  let parts := [] in
  let parts :=
    if Py.truthy (SiteGenerator.title post)
    then parts ++ [SiteGenerator.title post] else parts in
  let parts :=
    if Py.truthy (SiteGenerator.images post)
    then parts ++ [Py.str_int (Py.len (SiteGenerator.images post))
                   ++ " image(s)"]
    else parts in
  let parts :=
    if Py.truthy (SiteGenerator.date post)
    then parts ++ [("Posted: " : str) ++ SiteGenerator.date post]
    else parts in
  if Py.truthy parts then Py.join " | " parts
  else ("Instagram Post " : str) ++ Py.str_int (idx + 1).

Definition _add_item (post : SiteGenerator.Post) (idx : Z) : Item :=
  let full_title :=
    if Py.truthy (SiteGenerator.title post) then SiteGenerator.title post
    else ("Instagram Post " : str) ++ Py.str_int (idx + 1) in
  let title := RSSGenerator._truncate_title full_title 100 in
  let post_url :=
    base_url ++ ("/posts/post-" : str) ++ Py.str_int (idx + 1) ++ ".html" in
  let pub_date := RSSGenerator._parse_date (SiteGenerator.date post) in
  {| item_title := title;
     link := post_url;
     guid := post_url;
     pubDate := if Py.truthy pub_date then Some pub_date else None;
     description := _create_description post idx;
     category := SiteGenerator.hashtags post |}.

(** [for idx, post in enumerate(posts): self._add_item(channel, post, idx)] *)
Fixpoint items_from (idx : Z) (posts : list SiteGenerator.Post) : list Item :=
  match posts with
  | [] => []
  | post :: rest => _add_item post idx :: items_from (idx + 1) rest
  end.

Definition generate_feed (posts : list SiteGenerator.Post) : list Item :=
  items_from 0 posts.
End Generator.

(** The feed [generate_site] writes:
    [rss_gen = RSSGenerator(base_url)] and
    [rss_gen.generate_feed(rss_posts, ...)], on the posts
    [generate_site] hands to it. *)
Definition feed_of_site {fs : Type} (base_url : str)
           (site : SiteGenerator.Site fs) : list Item :=
  generate_feed (init base_url) (SiteGenerator.site_feed site).

End RSSFeed.

(** ** generate_site.py *)

Module GenerateSite.

(** [sorted(set(indices))] *)
Definition sorted_set (indices : list Z) : list Z :=
  Py.sorted_asc (fun i => i) (nodup Z.eq_dec indices).

(** [[posts[i] for i in indices if i < len(posts)]], as positions in
    [posts]; a negative index counts from the end. *)
Fixpoint pick (n : Z) (indices : list Z) : result (list nat) :=
  match indices with
  | [] => Ok []
  | i :: rest =>
      if i <? n then
        if i <? - n then Raise IndexError
        else
          match pick n rest with
          | Ok refs => Ok (Z.to_nat (if i <? 0 then n + i else i) :: refs)
          | Raise e => Raise e
          end
      else pick n rest
  end.

(** The selection of [main]: [selection_file] is the array in
    [selected_posts.json], [None] when the file does not exist; the
    result gives [selected_posts] by positions in [posts]. *)
Definition selected_posts (selection_file : option (list Z))
           (posts : list SiteGenerator.Post) : result (list nat) :=
  match selection_file with
  | Some indices =>
      let selected_indices := sorted_set indices in
      if Py.truthy selected_indices then pick (Py.len posts) selected_indices
      else Ok (seq 0 (List.length posts))
  | None => Ok (seq 0 (List.length posts))
  end.

Section Main.
Variables path fs : Type.
Variable joinpath : path -> str -> path.
Variable name : path -> str.
Variable path_exists : fs -> path -> bool.
Variable copy2 : fs -> path -> path -> fs.
Variables export_dir images_dir : path.

(** [main] from the parsed posts on: [if not posts: sys.exit(1)], the
    selection, and the site. *)
Definition main (files : fs) (posts : list SiteGenerator.Post)
           (selection_file : option (list Z))
  : result (SiteGenerator.Site fs) :=
  if negb (Py.truthy posts) then Raise (SystemExit 1)
  else
    match selected_posts selection_file posts with
    | Ok refs =>
        Ok (SiteGenerator.generate_site
              joinpath name path_exists copy2 export_dir images_dir
              files posts (Some refs))
    | Raise e => Raise e
    end.
End Main.

Arguments main {path fs}.

End GenerateSite.

(** ** select_posts.py

    The console is the list of the lines still to be read by [input],
    which raises [EOFError] when none is left; what is printed is left
    out.  A set of integers is the list of its elements: the code reads
    it through [in], its truth value and [sorted] only, and [len] is
    only printed. *)

Module SelectPosts.

(** How a run of the tool ends: it returns the selection, after having
    saved it; or [sys.exit]; or an exception. *)
Inductive ended :=
| Returned (selected : list Z)
| SystemExit (code : Z)
| EOFError
| Raised (e : exn).

(** [selection_file] is the array in [selected_posts.json], [None]
    when the file does not exist. *)
Definition load_selection (selection_file : option (list Z)) : list Z :=
  match selection_file with
  | Some indices => indices
  | None => []
  end.

(** The array [save_selection] writes: [sorted(list(selected_indices))]. *)
Definition save_selection (selected_indices : list Z) : list Z :=
  GenerateSite.sorted_set selected_indices.

(** [idx in selected] *)
Definition mem (idx : Z) (selected : list Z) : bool :=
  existsb (Z.eqb idx) selected.

(** [selected.add(idx)] *)
Definition add (idx : Z) (selected : list Z) : list Z :=
  if mem idx selected then selected else selected ++ [idx].

(** [posts[idx]] *)
Definition getitem {A} (l : list A) (idx : Z) : result A :=
  if (idx <? - Py.len l) || (Py.len l <=? idx) then Raise IndexError
  else match nth_error l (Z.to_nat (if idx <? 0 then Py.len l + idx else idx))
       with
       | Some x => Ok x
       | None => Raise IndexError
       end.

(** [date.split(',')[1].strip().split()[0] if ',' in date else default] *)
Definition year_of (date : str) (default : str) : result str :=
  if Py.contains date ","
  then
    match nth_error (Py.split_char "," date) 1 with
    | Some field =>
        match Py.split_ws (Py.strip field) with
        | year :: _ => Ok year
        | [] => Raise IndexError
        end
    | None => Raise IndexError
    end
  else Ok default.

(** The loop [for post in selected_posts] of [show_statistics], which
    computes the year of each post. *)
Fixpoint count_years (selected_posts : list SiteGenerator.Post)
  : result unit :=
  match selected_posts with
  | [] => Ok tt
  | post :: rest =>
      match year_of (SiteGenerator.date post) "Unknown" with
      | Ok _ => count_years rest
      | Raise e => Raise e
      end
  end.

(** [show_statistics] only prints; what is kept is whether it raises.
    Both steps raise the same exception, so that the order in which the
    set is run through plays no role. *)
Definition show_statistics (posts : list SiteGenerator.Post)
           (selected : list Z) : result unit :=
  if Py.truthy selected then
    match GenerateSite.pick (Py.len posts) selected with
    | Ok refs =>
        count_years
          (flat_map (fun r => match nth_error posts r with
                              | Some post => [post]
                              | None => []
                              end) refs)
    | Raise e => Raise e
    end
  else Ok tt.

(** What the loop [while True] of [interactive_selection] ends with. *)
Inductive answer :=
| Select
| Skip
| Finish
| Quit
| NoInput
| Failed (e : exn).

Definition one_of (choices : list str) (choice : str) : bool :=
  existsb (Py.str_eqb choice) choices.

(** The loop [while True] for one post: lines are read until one is a
    command that leaves the loop. *)
Fixpoint ask (posts : list SiteGenerator.Post) (selected : list Z)
         (inputs : list str) : answer * list str :=
  match inputs with
  | [] => (NoInput, [])
  | line :: inputs =>
      let choice := Py.lower (Py.strip line) in
      if one_of ["y" : str; "yes" : str] choice then (Select, inputs)
      else if one_of ["n" : str; "no" : str] choice then (Skip, inputs)
      else if one_of ["s" : str; "skip" : str] choice then (Skip, inputs)
      else if one_of ["d" : str; "done" : str] choice then (Finish, inputs)
      else if one_of ["q" : str; "quit" : str] choice then (Quit, inputs)
      else if Py.str_eqb choice "stats" then
        match show_statistics posts selected with
        | Ok _ => ask posts selected inputs
        | Raise e => (Failed e, inputs)
        end
      else ask posts selected inputs
  end.

(** [for idx, post in enumerate(posts)], from the post at [idx] on;
    [posts] is the whole list and [rest] what is left of it. *)
Fixpoint review (posts : list SiteGenerator.Post) (selected : list Z)
         (idx : Z) (rest : list SiteGenerator.Post) (inputs : list str)
  : ended :=
  match rest with
  | [] => Returned selected
  | _ :: rest =>
      if mem idx selected then review posts selected (idx + 1) rest inputs
      else
        match ask posts selected inputs with
        | (Select, inputs) =>
            review posts (add idx selected) (idx + 1) rest inputs
        | (Skip, inputs) => review posts selected (idx + 1) rest inputs
        | (Finish, _) => Returned selected
        | (Quit, _) => SystemExit 0
        | (NoInput, _) => EOFError
        | (Failed e, _) => Raised e
        end
  end.

(** The file after a run that began with [selection_file]: a run that
    returns has saved its selection. *)
Definition file_after (selection_file : option (list Z)) (e : ended)
  : option (list Z) :=
  match e with
  | Returned selected => Some (save_selection selected)
  | _ => selection_file
  end.

Definition interactive_selection (selection_file : option (list Z))
           (posts : list SiteGenerator.Post) (inputs : list str)
  : ended * option (list Z) :=
  let selected := load_selection selection_file in
  let e := review posts selected 0 posts inputs in
  (e, file_after selection_file e).

(** *** Bulk selection *)

(** [years[year].append(idx)], with [years[year] = []] first for a new
    year; the dictionary keeps its keys in the order of insertion. *)
Fixpoint years_append (year : str) (idx : Z) (years : list (str * list Z))
  : list (str * list Z) :=
  match years with
  | [] => [(year, [idx])]
  | (y, l) :: rest =>
      if Py.str_eqb y year then (y, l ++ [idx]) :: rest
      else (y, l) :: years_append year idx rest
  end.

Fixpoint years_get (year : str) (years : list (str * list Z))
  : option (list Z) :=
  match years with
  | [] => None
  | (y, l) :: rest => if Py.str_eqb y year then Some l else years_get year rest
  end.

(** The first loop of option 2: the positions of the posts of each
    year. *)
Fixpoint years_index (years : list (str * list Z)) (idx : Z)
         (posts : list SiteGenerator.Post) : result (list (str * list Z)) :=
  match posts with
  | [] => Ok years
  | post :: rest =>
      match year_of (SiteGenerator.date post) "Unknown" with
      | Ok year => years_index (years_append year idx years) (idx + 1) rest
      | Raise e => Raise e
      end
  end.

(** [for idx in years[year]: selected.add(idx)] *)
Definition add_all (indices : list Z) (selected : list Z) : list Z :=
  fold_left (fun selected idx => add idx selected) indices selected.

(** [for year in year_input.split(','): ...] *)
Fixpoint add_years (years : list (str * list Z)) (year_input : list str)
         (selected : list Z) : list Z :=
  match year_input with
  | [] => selected
  | year :: rest =>
      let year := Py.strip year in
      match years_get year years with
      | Some indices => add_years years rest (add_all indices selected)
      | None => add_years years rest selected
      end
  end.

(** [for idx, post in enumerate(posts): if test(post): selected.add(idx)],
    the loop of options 3, 4 and 5. *)
Fixpoint add_where (test : SiteGenerator.Post -> result bool) (idx : Z)
         (posts : list SiteGenerator.Post) (selected : list Z)
  : result (list Z) :=
  match posts with
  | [] => Ok selected
  | post :: rest =>
      match test post with
      | Ok b =>
          add_where test (idx + 1) rest
                    (if b then add idx selected else selected)
      | Raise e => Raise e
      end
  end.

Definition has_hashtags (post : SiteGenerator.Post) : result bool :=
  Ok (Py.truthy (SiteGenerator.hashtags post)).

(** [post.latitude and post.longitude] *)
Definition has_location (post : SiteGenerator.Post) : result bool :=
  Ok (InstagramJSONParser.truthy_coord (SiteGenerator.latitude post)
      && InstagramJSONParser.truthy_coord (SiteGenerator.longitude post)).

(** [start_year <= year <= end_year] on the year of the post. *)
Definition in_years (start_year end_year : str) (post : SiteGenerator.Post)
  : result bool :=
  match year_of (SiteGenerator.date post) "" with
  | Ok year => Ok (Py.str_leb start_year year && Py.str_leb year end_year)
  | Raise e => Raise e
  end.

(** Option 7: [for idx in sorted(list(selected))[:20]: post = posts[idx]]. *)
Fixpoint view_each (posts : list SiteGenerator.Post) (indices : list Z)
  : result unit :=
  match indices with
  | [] => Ok tt
  | idx :: rest =>
      match getitem posts idx with
      | Ok _ => view_each posts rest
      | Raise e => Raise e
      end
  end.

Definition view_selected (posts : list SiteGenerator.Post)
           (selected : list Z) : result unit :=
  if negb (Py.truthy selected) then Ok tt
  else view_each posts (Py.slice_to (GenerateSite.sorted_set selected) 20).

(** [set(range(len(posts)))] *)
Definition all_positions (posts : list SiteGenerator.Post) : list Z :=
  map Z.of_nat (seq 0 (List.length posts)).

(** The loop [while True] of [bulk_selection]. *)
Fixpoint bulk_loop (selection_file : option (list Z))
         (posts : list SiteGenerator.Post) (selected : list Z)
         (inputs : list str) : ended * option (list Z) :=
  match inputs with
  | [] => (EOFError, selection_file)
  | line :: inputs =>
      let choice := Py.strip line in
      if Py.str_eqb choice "1" then
        bulk_loop selection_file posts (all_positions posts) inputs
      else if Py.str_eqb choice "2" then
        match years_index [] 0 posts with
        | Raise e => (Raised e, selection_file)
        | Ok years =>
            match inputs with
            | [] => (EOFError, selection_file)
            | line :: inputs =>
                let year_input := Py.strip line in
                bulk_loop selection_file posts
                          (add_years years (Py.split_char "," year_input)
                                     selected)
                          inputs
            end
        end
      else if Py.str_eqb choice "3" then
        match add_where has_hashtags 0 posts selected with
        | Ok selected => bulk_loop selection_file posts selected inputs
        | Raise e => (Raised e, selection_file)
        end
      else if Py.str_eqb choice "4" then
        match add_where has_location 0 posts selected with
        | Ok selected => bulk_loop selection_file posts selected inputs
        | Raise e => (Raised e, selection_file)
        end
      else if Py.str_eqb choice "5" then
        match inputs with
        | [] => (EOFError, selection_file)
        | line1 :: inputs =>
            match inputs with
            | [] => (EOFError, selection_file)
            | line2 :: inputs =>
                let start_year := Py.strip line1 in
                let end_year := Py.strip line2 in
                match add_where (in_years start_year end_year) 0 posts
                                selected with
                | Ok selected => bulk_loop selection_file posts selected inputs
                | Raise e => (Raised e, selection_file)
                end
            end
        end
      else if Py.str_eqb choice "6" then
        match inputs with
        | [] => (EOFError, selection_file)
        | line :: inputs =>
            let confirm := Py.lower (Py.strip line) in
            if Py.str_eqb confirm "y"
            then bulk_loop selection_file posts [] inputs
            else bulk_loop selection_file posts selected inputs
        end
      else if Py.str_eqb choice "7" then
        match view_selected posts selected with
        | Ok _ => bulk_loop selection_file posts selected inputs
        | Raise e => (Raised e, selection_file)
        end
      else if Py.str_eqb choice "8" then
        interactive_selection (Some (save_selection selected)) posts inputs
      else if Py.str_eqb choice "9" then
        (Returned selected, Some (save_selection selected))
      else if Py.str_eqb choice "0" then (SystemExit 0, selection_file)
      else bulk_loop selection_file posts selected inputs
  end.

Definition bulk_selection (selection_file : option (list Z))
           (posts : list SiteGenerator.Post) (inputs : list str)
  : ended * option (list Z) :=
  bulk_loop selection_file posts (load_selection selection_file) inputs.

(** [main] from the parsed posts on. *)
Definition main (selection_file : option (list Z))
           (posts : list SiteGenerator.Post) (inputs : list str)
  : ended * option (list Z) :=
  if negb (Py.truthy posts) then (SystemExit 1, selection_file)
  else
    match inputs with
    | [] => (EOFError, selection_file)
    | line :: inputs =>
        let mode := Py.strip line in
        if Py.str_eqb mode "1"
        then bulk_selection selection_file posts inputs
        else if Py.str_eqb mode "2"
        then interactive_selection selection_file posts inputs
        else (SystemExit 1, selection_file)
    end.

(** *** Vocabulary of the properties *)

(** Every index of [selected] was in the file or is the position of a
    post. *)
Definition known (selection_file : option (list Z))
           (posts : list SiteGenerator.Post) (selected : list Z) : Prop :=
  forall i, In i selected ->
            In i (load_selection selection_file) \/ 0 <= i < Py.len posts.

(** [idx in years[year]] *)
Definition listed (years : list (str * list Z)) (year : str) (idx : Z)
  : Prop :=
  exists l, years_get year years = Some l /\ In idx l.

End SelectPosts.

(** ** A file system for the examples

    Paths are strings joined with [/], the state is the list of the
    files that exist. *)

Module ListFS.

Definition joinpath (p : str) (s : str) : str := p ++ "/" ++ s.

Definition name (p : str) : str :=
  rev (Re.run (fun c => negb (Ascii.eqb c "/")) (rev p)).

Definition path_exists (files : list str) (p : str) : bool :=
  existsb (Py.str_eqb p) files.

Definition copy2 (files : list str) (src dst : str) : list str :=
  dst :: files.

End ListFS.

(** ** Example data *)

Definition ex_title : str :=
  "Wow. We spent the whole day at the beach. It was sunny and warm and we loved it all.".

(** A codec that repairs nothing, UTC as local time, and a [float] that
    reads plain decimal numbers. *)

Definition ex_codec (text : str) : option str := None.

Definition ex_utc (t : Z) : Z := 0.

Fixpoint ex_number (s : str) (num : Z) (den : positive) (frac : bool)
  : option Q :=
  match s with
  | [] => Some (num # den)
  | c :: r =>
      if Ascii.eqb c "." then
        if frac then None else ex_number r num den true
      else
        match Datetime.digit_val c with
        | Some v =>
            ex_number r (10 * num + v) (if frac then (10 * den)%positive else den)
                      frac
        | None => None
        end
  end.

Definition ex_float (s : str) : option Q :=
  match s with
  | [] => None
  | c :: r =>
      if Ascii.eqb c "-" then option_map Qopp (ex_number r 0 1 false)
      else ex_number s 0 1 false
  end.

(** A record of the posts array: three media items, the first without
    URI and with a zero latitude. *)

Definition ex_exif (lat lon : option Q) : InstagramJSONParser.Exif :=
  {| InstagramJSONParser.exif_latitude := lat;
     InstagramJSONParser.exif_longitude := lon |}.

Definition ex_media (u : option str) (es : list InstagramJSONParser.Exif)
  : InstagramJSONParser.Media :=
  {| InstagramJSONParser.media_title := None;
     InstagramJSONParser.media_creation_timestamp := Some 1755850705;
     InstagramJSONParser.uri := u;
     InstagramJSONParser.media_metadata :=
       Some {| InstagramJSONParser.photo_metadata :=
                 Some {| InstagramJSONParser.exif_data := Some es |} |} |}.

Definition ex_record : InstagramJSONParser.PostData :=
  {| InstagramJSONParser.post_title := Some ("Sunset #Berlin #berlin" : str);
     InstagramJSONParser.creation_timestamp := None;
     InstagramJSONParser.media :=
       Some [ ex_media (Some []) [ex_exif (Some 0%Q) (Some (67 # 5))];
              ex_media (Some ("media/posts/b.jpg" : str))
                       [ex_exif (Some (105 # 2)) (Some (99 # 1))];
              ex_media (Some ("media/posts/c.jpg" : str))
                       [ex_exif (Some (1 # 1)) None] ] |}.


Definition ex_post : InstagramJSONParser.InstagramPost :=
  {| InstagramJSONParser.title := "Sunset";
     InstagramJSONParser.images :=
       ["media/posts/b.jpg" : str; "media/posts/c.jpg" : str];
     InstagramJSONParser.date := "Aug 22, 2025 08:18 AM";
     InstagramJSONParser.timestamp := 1755850705;
     InstagramJSONParser.latitude := Some (105 # 2);
     InstagramJSONParser.longitude := Some (67 # 5);
     InstagramJSONParser.tagged_users := [];
     InstagramJSONParser.hashtags := ["Berlin" : str] |}.

(** A post block of the markup export: a title, no image, and a table
    of four rows. *)

Definition ex_row (label value : str) : BS4.node :=
  BS4.Tag "tr" [] []
    [ BS4.Tag "td" [] [] [BS4.Tag "div" ["_a6-q" : str] [] [BS4.Text label]];
      BS4.Tag "td" [] [] [BS4.Tag "div" ["_a6-q" : str] [] [BS4.Text value]] ].

Definition ex_div : BS4.node :=
  BS4.Tag "div"
    ["pam" : str; "_3-95" : str; "_2ph-" : str; "_a6-g" : str;
     "uiBoxWhite" : str; "noborder" : str] []
    [ BS4.Tag "h2" ["_3-95" : str; "_2pim" : str; "_a6-h" : str; "_a6-i" : str]
        [] [BS4.Text "Sunset"];
      BS4.Tag "div" ["_3-94" : str; "_a6-o" : str] []
        [BS4.Text "Aug 22, 2025 8:18 am"];
      BS4.Tag "table" [] []
        [ ex_row "Latitude" "48.1"; ex_row "Latitude" " 52.5 ";
          ex_row "Latitude" "n/a"; ex_row "Longitude" "13.4" ] ].

Definition ex_html_post : InstagramParser.InstagramPost :=
  {| InstagramParser.title := "Sunset";
     InstagramParser.images := [];
     InstagramParser.date := "Aug 22, 2025 8:18 am";
     InstagramParser.latitude := Some (525 # 10);
     InstagramParser.longitude := Some (134 # 10);
     InstagramParser.tagged_users := [];
     InstagramParser.hashtags := [] |}.

(** The files of an export, and a title of 90 characters. *)

Definition ex_files : list str :=
  ["insta-export/media/posts/b.jpg" : str;
   "insta-export/media/posts/c.jpg" : str].

Definition ex_title90 : str :=
  "A long walk through the forest. Then we sat by the lake and watched the sun go down slowly".

(** The two posts, as the site generator is given them. *)

Definition ex_posts : list SiteGenerator.Post :=
  [SiteGenerator.FromJSON ex_post; SiteGenerator.FromHTML ex_html_post].

(** * Properties *)

(** ** Sorting *)

Section SortFacts.
Context {A : Type} (key : A -> Z).

Let le_key (a b : A) : Prop := key a <= key b.
Let ge_key (a b : A) : Prop := key a >= key b.

Lemma insert_front_perm (x : A) (l : list A) :
  Permutation (x :: l) (Py.insert_front key x l).
Proof.
  induction l as [|y l IH]; simpl.
  - apply Permutation_refl.
  - destruct (key y <? key x).
    + eapply Permutation_trans; [apply perm_swap|].
      apply perm_skip, IH.
    + apply Permutation_refl.
Qed.

Lemma sorted_asc_perm (l : list A) : Permutation l (Py.sorted_asc key l).
Proof.
  induction l as [|x l IH]; simpl.
  - constructor.
  - eapply Permutation_trans; [apply perm_skip, IH|].
    apply insert_front_perm.
Qed.

Lemma insert_front_sorted (x : A) (l : list A) :
  StronglySorted le_key l -> StronglySorted le_key (Py.insert_front key x l).
Proof.
  induction 1 as [|y l Hs IH Hy]; simpl.
  - constructor; constructor.
  - destruct (key y <? key x) eqn:E.
    + constructor; [exact IH|].
      apply Z.ltb_lt in E.
      eapply Permutation_Forall; [apply insert_front_perm|].
      constructor; [unfold le_key; lia | exact Hy].
    + apply Z.ltb_ge in E.
      constructor; [constructor; assumption|].
      constructor; [exact E|].
      eapply Forall_impl; [|exact Hy].
      unfold le_key; intros; lia.
Qed.

Lemma sorted_asc_sorted (l : list A) :
  StronglySorted le_key (Py.sorted_asc key l).
Proof.
  induction l as [|x l IH]; simpl.
  - constructor.
  - apply insert_front_sorted, IH.
Qed.

(** Insertion passes strictly smaller keys only, so the elements of any
    one key stay in their order. *)
Lemma insert_front_filter (k : Z) (x : A) (l : list A) :
  filter (fun a => key a =? k) (Py.insert_front key x l)
  = filter (fun a => key a =? k) (x :: l).
Proof.
  induction l as [|y l IH]; simpl; [reflexivity|].
  destruct (key y <? key x) eqn:E; simpl; [|reflexivity].
  apply Z.ltb_lt in E.
  simpl in IH. rewrite IH.
  destruct (key y =? k) eqn:Ey, (key x =? k) eqn:Ex; try reflexivity.
  apply Z.eqb_eq in Ey, Ex. lia.
Qed.

Lemma sorted_asc_filter (k : Z) (l : list A) :
  filter (fun a => key a =? k) (Py.sorted_asc key l)
  = filter (fun a => key a =? k) l.
Proof.
  induction l as [|x l IH]; simpl; [reflexivity|].
  rewrite insert_front_filter. simpl. rewrite IH. reflexivity.
Qed.

Lemma filter_rev (f : A -> bool) (l : list A) :
  filter f (rev l) = rev (filter f l).
Proof.
  induction l as [|x l IH]; simpl; [reflexivity|].
  rewrite filter_app, IH. simpl.
  destruct (f x); simpl; [reflexivity | apply app_nil_r].
Qed.

Lemma StronglySorted_snoc (R : A -> A -> Prop) (l : list A) (x : A) :
  StronglySorted R l -> Forall (fun a => R a x) l ->
  StronglySorted R (l ++ [x]).
Proof.
  induction 1 as [|y l Hs IH Hy]; intros Hx; simpl.
  - constructor; constructor.
  - inversion Hx; subst.
    constructor; [apply IH; assumption|].
    apply Forall_app; split; [exact Hy|].
    constructor; [assumption | constructor].
Qed.

Lemma StronglySorted_rev (l : list A) :
  StronglySorted le_key l -> StronglySorted ge_key (rev l).
Proof.
  induction 1 as [|y l Hs IH Hy]; simpl.
  - constructor.
  - apply StronglySorted_snoc; [exact IH|].
    apply Forall_rev.
    eapply Forall_impl; [|exact Hy].
    unfold le_key, ge_key; intros; lia.
Qed.

Lemma sort_reverse_perm (l : list A) : Permutation l (Py.sort key true l).
Proof.
  unfold Py.sort.
  eapply Permutation_trans; [apply Permutation_rev|].
  eapply Permutation_trans; [apply sorted_asc_perm|].
  apply Permutation_rev.
Qed.

Lemma sort_reverse_sorted (l : list A) :
  StronglySorted ge_key (Py.sort key true l).
Proof. apply StronglySorted_rev, sorted_asc_sorted. Qed.

Lemma sort_reverse_stable (k : Z) (l : list A) :
  filter (fun a => key a =? k) (Py.sort key true l)
  = filter (fun a => key a =? k) l.
Proof.
  unfold Py.sort.
  rewrite filter_rev, sorted_asc_filter, filter_rev.
  apply rev_involutive.
Qed.
End SortFacts.

(** ** The structured-data normalizer *)

Section ConversionFacts.
Import Datetime.

Variable utcoffset : Z -> Z.

Lemma in_time_t_dec (t : Z) :
  (t <? TIME_T_MIN) || (TIME_T_MAX <? t) = false <-> in_time_t t.
Proof.
  unfold in_time_t. rewrite orb_false_iff, !Z.ltb_ge. tauto.
Qed.

Lemma in_time_t_0 : in_time_t 0.
Proof. unfold in_time_t. split; discriminate. Qed.

Lemma PyTime_localtime_result (t : Z) :
  _PyTime_localtime utcoffset t = Ok (localtime utcoffset t)
  \/ _PyTime_localtime utcoffset t = Raise OSError.
Proof.
  unfold _PyTime_localtime. cbv zeta.
  destruct ((INT_MIN <=? year (localtime utcoffset t) - 1900)
            && (year (localtime utcoffset t) - 1900 <=? INT_MAX)); auto.
Qed.

Lemma utc_to_seconds_result (tm : datetime) :
  match utc_to_seconds tm with
  | Ok _ => MINYEAR <= year tm <= MAXYEAR
  | Raise e => e = ValueError
  end.
Proof.
  unfold utc_to_seconds.
  destruct (Z.ltb_spec (year tm) MINYEAR); cbn [orb]; [reflexivity|].
  destruct (Z.gtb_spec (year tm) MAXYEAR); [reflexivity | lia].
Qed.

Lemma local_raises (u : Z) (e : exn) :
  local utcoffset u = Raise e -> e = ValueError \/ e = OSError.
Proof.
  unfold local. cbv zeta.
  destruct (PyTime_localtime_result (u - epoch)) as [E|E]; rewrite E.
  - pose proof (utc_to_seconds_result (localtime utcoffset (u - epoch))) as H.
    destruct (utc_to_seconds _); [discriminate|].
    intros [= <-]. left. exact H.
  - intros [= <-]. right. reflexivity.
Qed.

(** What [fromtimestamp] returns: the local time, of a year a
    [datetime] can have; and what it raises. *)
Lemma fromtimestamp_result (t : Z) :
  match fromtimestamp utcoffset t with
  | Ok dt =>
      in_time_t t /\ dt = localtime utcoffset t
      /\ MINYEAR <= year dt <= MAXYEAR
  | Raise e =>
      (e = OverflowError /\ ~ in_time_t t)
      \/ (in_time_t t /\ (e = ValueError \/ e = OSError))
  end.
Proof.
  unfold fromtimestamp.
  destruct ((t <? TIME_T_MIN) || (TIME_T_MAX <? t)) eqn:Er.
  { left. split; [reflexivity|]. intros H. apply in_time_t_dec in H.
    congruence. }
  apply in_time_t_dec in Er.
  destruct (PyTime_localtime_result t) as [E|E]; rewrite E; [|auto].
  pose proof (utc_to_seconds_result (localtime utcoffset t)) as Hy.
  destruct (utc_to_seconds (localtime utcoffset t)) as [rs|e];
    [|subst e; auto].
  destruct (local utcoffset (epoch + t - max_fold_seconds)) as [ps|e] eqn:El;
    [|right; split; [exact Er | eapply local_raises, El]].
  cbv zeta. destruct (rs - ps - max_fold_seconds <? 0); [|auto].
  destruct (local utcoffset (epoch + t + (rs - ps - max_fold_seconds)))
    as [ps2|e] eqn:El2; [auto|].
  right. split; [exact Er | eapply local_raises, El2].
Qed.

(** The formatter fails exactly outside the range of [time_t], with
    [OverflowError]. *)
Lemma format_timestamp_raises (t : Z) (e : exn) :
  InstagramJSONParser._format_timestamp utcoffset t = Raise e
  <-> e = OverflowError /\ ~ in_time_t t.
Proof.
  unfold InstagramJSONParser._format_timestamp, Py.truthy_int.
  destruct (Z.eqb_spec t 0) as [->|Ht]; cbn [negb].
  { split; [discriminate|]. intros [_ H]. exfalso. apply H, in_time_t_0. }
  pose proof (fromtimestamp_result t) as H.
  destruct (fromtimestamp utcoffset t) as [dt|e'].
  - destruct H as [Hr _]. split; [discriminate | tauto].
  - destruct H as [[-> Hn] | [Hr [-> | ->]]].
    + split; [intros [= <-]; auto | intros [-> _]; reflexivity].
    + split; [discriminate | tauto].
    + split; [discriminate | tauto].
Qed.

End ConversionFacts.

Section JSONParserFacts.
Import InstagramJSONParser.

Variable latin1_utf8 : str -> option str.
Variable utcoffset : Z -> Z.

Abbreviation _format_timestamp := (_format_timestamp utcoffset).
Abbreviation _parse_post := (_parse_post latin1_utf8 utcoffset).
Abbreviation media_step := (media_step latin1_utf8).
Abbreviation parsed := (parsed latin1_utf8 utcoffset).
Abbreviation parse_posts := (parse_posts latin1_utf8 utcoffset).
Abbreviation record_posts := (record_posts latin1_utf8 utcoffset).

Lemma media_fold (ms : list Media) (t : str) (imgs : list str)
      (loc : option Q * option Q) :
  exists t',
    fold_left media_step ms (t, imgs, loc)
    = (t', imgs ++ nonempty_uris ms,
       fold_left exif_step (exif_entries ms) loc).
Proof.
  revert t imgs loc.
  induction ms as [|m ms IH]; intros t imgs loc; simpl.
  - exists t. rewrite app_nil_r. reflexivity.
  - unfold exif_entries; simpl. rewrite fold_left_app.
    match goal with
    | |- context [fold_left _ ms (?a, ?b, ?c)] =>
        destruct (IH a b c) as [t' Ht']
    end.
    exists t'. rewrite Ht'. f_equal. f_equal.
    unfold nonempty_uris; simpl.
    destruct (Py.truthy (get (uri m) [])); simpl;
      [rewrite <- app_assoc|]; reflexivity.
Qed.

(** The timestamp [_parse_post] settles on. *)
Lemma timestamp_resolved (own first : Z) :
  (if negb (Py.truthy_int
              (if negb (Py.truthy_int own) && true then first else own))
   then 0
   else if negb (Py.truthy_int own) && true then first else own)
  = if own =? 0 then first else own.
Proof.
  unfold Py.truthy_int.
  destruct (Z.eqb_spec own 0) as [E0|E0]; cbn [negb andb].
  - destruct (Z.eqb_spec first 0) as [E1|E1]; cbn [negb]; congruence.
  - destruct (Z.eqb_spec own 0); [contradiction | reflexivity].
Qed.

(** What [_parse_post] returns, in one statement. *)
Lemma parse_post_eq (r : PostData) :
  (media_items r = [] /\ _parse_post r = Ok None)
  \/ (media_items r <> []
      /\ match _format_timestamp (resolved_timestamp r) with
         | Raise e => _parse_post r = Raise e
         | Ok d =>
             (_parse_post r = Ok None
              /\ nonempty_uris (media_items r) = [])
             \/ exists p,
                 _parse_post r = Ok (Some p)
                 /\ images p = nonempty_uris (media_items r)
                 /\ images p <> []
                 /\ (latitude p, longitude p)
                    = fold_left exif_step (exif_entries (media_items r))
                                (None, None)
                 /\ date p = d
                 /\ timestamp p = resolved_timestamp r
         end).
Proof.
  unfold InstagramJSONParser._parse_post, resolved_timestamp, media_items.
  destruct (get (media r) []) as [|m0 ms] eqn:Em.
  - left. split; reflexivity.
  - right. split; [discriminate|]. cbv zeta.
    change (negb (Py.truthy (m0 :: ms))) with false. cbv iota.
    change (Py.truthy (m0 :: ms)) with true.
    rewrite !timestamp_resolved.
    set (ts := if get (creation_timestamp r) 0 =? 0
               then get (media_creation_timestamp m0) 0
               else get (creation_timestamp r) 0).
    destruct (_format_timestamp ts) as [d|e]; [|reflexivity].
    match goal with
    | |- context [fold_left _ (m0 :: ms) (?a, ?b, ?c)] =>
        destruct (media_fold (m0 :: ms) a b c) as [t' Ht']; rewrite Ht'
    end.
    simpl app.
    destruct (fold_left exif_step (exif_entries (m0 :: ms)) (None, None))
      as [lat lon] eqn:El.
    destruct (nonempty_uris (m0 :: ms)) as [|u us] eqn:Eu.
    + left. split; reflexivity.
    + right. cbn [Py.truthy negb].
      destruct (_extract_hashtags t') as [clean tags].
      eexists. split; [reflexivity|].
      cbn [images latitude longitude date timestamp].
      repeat split; congruence.
Qed.


(** A record fails exactly when it has media items and its timestamp
    lies outside the range of [time_t]. *)
Lemma parse_post_raises (r : PostData) (e : exn) :
  _parse_post r = Raise e
  <-> e = OverflowError /\ media_items r <> []
      /\ ~ Datetime.in_time_t (resolved_timestamp r).
Proof.
  destruct (parse_post_eq r) as [[Hm Hp] | [Hm Hp]].
  - rewrite Hp. split; [discriminate | tauto].
  - destruct (_format_timestamp (resolved_timestamp r)) as [d|e'] eqn:Ef.
    + assert (Hr : Datetime.in_time_t (resolved_timestamp r)).
      { destruct (Z_le_dec Datetime.TIME_T_MIN (resolved_timestamp r));
          [destruct (Z_le_dec (resolved_timestamp r) Datetime.TIME_T_MAX);
             [split; assumption|]|].
        - exfalso.
          assert (Hx : _format_timestamp (resolved_timestamp r)
                       = Raise OverflowError).
          { apply format_timestamp_raises. split; [reflexivity|].
            unfold Datetime.in_time_t. lia. }
          congruence.
        - exfalso.
          assert (Hx : _format_timestamp (resolved_timestamp r)
                       = Raise OverflowError).
          { apply format_timestamp_raises. split; [reflexivity|].
            unfold Datetime.in_time_t. lia. }
          congruence. }
      destruct Hp as [[Hp _] | [p [Hp _]]]; rewrite Hp;
        (split; [discriminate | tauto]).
    + rewrite Hp. apply format_timestamp_raises in Ef.
      destruct Ef as [-> Hn]. split.
      * intros [= <-]. auto.
      * intros [-> _]. reflexivity.
Qed.

(** The posts the loop gathers are those of the records, one by one. *)
Lemma parsed_records (data : list PostData) (posts : list InstagramPost) :
  parsed data = Ok posts -> posts = record_posts data.
Proof.
  revert posts. induction data as [|r data IH]; intros posts;
    cbn [InstagramJSONParser.parsed InstagramJSONParser.record_posts
         flat_map].
  - intros [= <-]. reflexivity.
  - destruct (_parse_post r) as [o|e]; [|discriminate].
    destruct (parsed data) as [rest|e]; [|discriminate].
    intros [= <-]. rewrite (IH rest eq_refl).
    destruct o; reflexivity.
Qed.

Lemma record_posts_In (data : list PostData) (p : InstagramPost) :
  In p (record_posts data)
  <-> exists r, In r data /\ _parse_post r = Ok (Some p).
Proof.
  unfold InstagramJSONParser.record_posts. rewrite in_flat_map. split.
  - intros [r [Hr Hp]]. exists r. split; [exact Hr|].
    destruct (_parse_post r) as [[q|]|e]; try contradiction.
    destruct Hp as [<- | []]. reflexivity.
  - intros [r [Hr Hp]]. exists r. split; [exact Hr|].
    rewrite Hp. left. reflexivity.
Qed.

Lemma parse_posts_sorted (data : list PostData)
      (posts : list InstagramPost) :
  parse_posts (Some data) = Ok posts ->
  posts = Py.sort timestamp true (record_posts data).
Proof.
  unfold InstagramJSONParser.parse_posts.
  destruct (parsed data) as [l|e] eqn:E; [|discriminate].
  intros [= <-]. rewrite (parsed_records _ _ E). reflexivity.
Qed.

(** [parse_posts] returns exactly when no record with media items has
    a timestamp outside the range of [time_t]. *)
Lemma parse_posts_returns (data : list PostData) :
  (exists posts, parse_posts (Some data) = Ok posts)
  <-> forall r, In r data -> media_items r <> [] ->
                Datetime.in_time_t (resolved_timestamp r).
Proof.
  unfold InstagramJSONParser.parse_posts. split.
  - intros [posts Hp] r Hr Hm.
    destruct (parsed data) as [l|e] eqn:El; [clear Hp|discriminate].
    revert l El. induction data as [|r0 data IH]; intros l El; [destruct Hr|].
    cbn [InstagramJSONParser.parsed] in El.
    destruct (_parse_post r0) as [o|e] eqn:E0; [|discriminate].
    destruct (parsed data) as [rest|e] eqn:Er; [|discriminate].
    destruct Hr as [<-|Hr]; [|exact (IH Hr rest eq_refl)].
    destruct (Z_le_dec Datetime.TIME_T_MIN (resolved_timestamp r0)) as [H1|H1];
      [destruct (Z_le_dec (resolved_timestamp r0) Datetime.TIME_T_MAX)
        as [H2|H2]; [split; assumption|]|];
      exfalso;
      assert (Hx : _parse_post r0 = Raise OverflowError)
        by (apply parse_post_raises; split; [reflexivity|];
            split; [exact Hm|]; unfold Datetime.in_time_t; lia);
      congruence.
  - intros H.
    assert (Hl : exists l, parsed data = Ok l).
    { induction data as [|r data IH];
        cbn [InstagramJSONParser.parsed]; [eauto|].
      destruct (_parse_post r) as [o|e] eqn:E.
      - destruct IH as [rest Hrest];
          [intros r' Hr'; apply H; right; exact Hr'|].
        rewrite Hrest. eauto.
      - exfalso. apply parse_post_raises in E.
        destruct E as [_ [Hm Hn]]. apply Hn, H; [left; reflexivity | exact Hm]. }
    destruct Hl as [l Hl]. rewrite Hl. eauto.
Qed.


(** C4.  The list [parse_posts] returns holds the posts of the
    records, each taken on its own, sorted by decreasing timestamp,
    and posts of equal timestamps stand in the order of their records
    in the array.  It returns exactly when no record with media items
    has a timestamp outside the range of the platform's [time_t]. *)
Theorem C4_sorted_descending_stable (data : list PostData) :
  ((exists posts, parse_posts (Some data) = Ok posts)
   <-> forall r, In r data -> media_items r <> [] ->
                 Datetime.in_time_t (resolved_timestamp r))
  /\ forall posts,
      parse_posts (Some data) = Ok posts ->
      Permutation (record_posts data) posts
      /\ StronglySorted (fun a b => timestamp a >= timestamp b) posts
      /\ forall t,
          filter (fun p => timestamp p =? t) posts
          = filter (fun p => timestamp p =? t) (record_posts data).
Proof.
  split; [apply parse_posts_returns|].
  intros posts Hp. rewrite (parse_posts_sorted _ _ Hp).
  split; [|split].
  - apply sort_reverse_perm.
  - apply sort_reverse_sorted.
  - intros t. apply sort_reverse_stable.
Qed.

(** *** First match wins *)

Lemma exif_fold_split (es : list Exif) (lat lon : option Q) :
  fold_left exif_step es (lat, lon)
  = (fold_left pick_lat es lat, fold_left pick_lon es lon).
Proof.
  revert lat lon. induction es as [|e es IH]; intros; simpl;
    [reflexivity | apply IH].
Qed.

Section FirstMatch.
Variable field : Exif -> option Q.
Variable pick : option Q -> Exif -> option Q.
Hypothesis pick_eq : forall cur e,
    pick cur e
    = if truthy_coord (field e) && negb (truthy_coord cur)
      then field e else cur.

Lemma pick_kept (es : list Exif) (cur : option Q) :
  truthy_coord cur = true -> fold_left pick es cur = cur.
Proof.
  induction es as [|e es IH]; intros Hc; simpl; [reflexivity|].
  rewrite pick_eq, Hc, andb_false_r. apply IH, Hc.
Qed.

Lemma pick_none (es : list Exif) (cur : option Q) :
  (forall e, In e es -> truthy_coord (field e) = false) ->
  fold_left pick es cur = cur.
Proof.
  induction es as [|e es IH]; intros Hf; simpl; [reflexivity|].
  rewrite pick_eq, (Hf e (or_introl eq_refl)). simpl.
  apply IH. intros e' He'. apply Hf. right. exact He'.
Qed.

Lemma pick_first (es1 es2 : list Exif) (e : Exif) :
  (forall x, In x es1 -> truthy_coord (field x) = false) ->
  truthy_coord (field e) = true ->
  fold_left pick (es1 ++ e :: es2) None = field e.
Proof.
  intros Hf He. rewrite fold_left_app. simpl.
  rewrite (pick_none es1 None Hf), pick_eq, He. simpl.
  apply pick_kept, He.
Qed.
End FirstMatch.

(** C6.  The latitude of a post is the latitude of the first EXIF
    entry, in the order of the media array and then of the entries,
    whose latitude is truthy, whatever the entries after it carry, and
    there is none when no entry has one; the same holds, on its own,
    for the longitude. *)
Theorem C6_first_exif_wins (r : PostData) (p : InstagramPost) :
  _parse_post r = Ok (Some p) ->
  (forall es1 e es2,
      exif_entries (media_items r) = es1 ++ e :: es2 ->
      (forall x, In x es1 -> truthy_coord (exif_latitude x) = false) ->
      truthy_coord (exif_latitude e) = true ->
      latitude p = exif_latitude e)
  /\ (forall es1 e es2,
         exif_entries (media_items r) = es1 ++ e :: es2 ->
         (forall x, In x es1 -> truthy_coord (exif_longitude x) = false) ->
         truthy_coord (exif_longitude e) = true ->
         longitude p = exif_longitude e)
  /\ ((forall x, In x (exif_entries (media_items r)) ->
                 truthy_coord (exif_latitude x) = false) ->
      latitude p = None)
  /\ ((forall x, In x (exif_entries (media_items r)) ->
                 truthy_coord (exif_longitude x) = false) ->
      longitude p = None).
Proof.
  intros Hp.
  destruct (parse_post_eq r) as [[_ Hn] | [_ Hc]]; [congruence|].
  destruct (_format_timestamp (resolved_timestamp r)) as [d|e];
    [|congruence].
  destruct Hc as [[Hn _] | [q [Hq [_ [_ [Hloc _]]]]]]; [congruence|].
  assert (q = p) by congruence. subst q.
  rewrite exif_fold_split in Hloc.
  injection Hloc as Hlat Hlon.
  repeat split.
  - intros es1 e es2 E Hf He. rewrite Hlat, E.
    apply (pick_first exif_latitude pick_lat); auto.
  - intros es1 e es2 E Hf He. rewrite Hlon, E.
    apply (pick_first exif_longitude pick_lon); auto.
  - intros Hf. rewrite Hlat.
    apply (pick_none exif_latitude pick_lat); auto.
  - intros Hf. rewrite Hlon.
    apply (pick_none exif_longitude pick_lon); auto.
Qed.
End JSONParserFacts.

(** ** The markup normalizer *)

Lemma str_eqb_eq (a b : str) : Py.str_eqb a b = true <-> a = b.
Proof.
  unfold Py.str_eqb. destruct (list_eq_dec ascii_dec a b); split;
    congruence.
Qed.

Lemma truthy_nil {A} (l : list A) : Py.truthy l = false <-> l = [].
Proof. destruct l; simpl; split; congruence. Qed.

Section MarkupParserFacts.
Import InstagramParser.

Variable float : str -> option Q.

Abbreviation _parse_post_div := (_parse_post_div float).
Abbreviation row_step := (row_step float).
Abbreviation table_step := (table_step float).
Abbreviation extract_location := (extract_location float).

(** C7.  A block yields no post exactly when it has neither an image
    source nor a title; a block with a title and no image source
    yields one post, whose images are the empty sequence. *)
Theorem C7_dropped_iff_no_images_no_title :
  (forall post_div,
      _parse_post_div post_div = None <->
      extract_images post_div = [] /\ extract_title post_div = [])
  /\ (forall post_div,
         extract_title post_div <> [] ->
         extract_images post_div = [] ->
         exists p,
           _parse_post_div post_div = Some p
           /\ images p = []
           /\ title p = extract_title post_div
           /\ forall rest,
               parsed float (post_div :: rest) = p :: parsed float rest).
Proof.
  split.
  - intros post_div. unfold InstagramParser._parse_post_div.
    destruct (InstagramParser.extract_location float post_div) as [lat lon].
    destruct (extract_images post_div) as [|i imgs];
      destruct (extract_title post_div) as [|c t]; simpl;
      split; try tauto; try discriminate; intros [? ?]; discriminate.
  - intros post_div Ht Hi.
    unfold InstagramParser.parsed.
    unfold InstagramParser._parse_post_div.
    destruct (InstagramParser.extract_location float post_div) as [lat lon].
    rewrite Hi.
    destruct (extract_title post_div) as [|c t]; [congruence|]. simpl.
    eexists. split; [reflexivity|]. simpl. auto.
Qed.

(** *** The location scan *)

Lemma row_step_eq (loc : option Q * option Q) (row : BS4.node) :
  row_step loc row
  = match row_label_value row with
    | Some (label, value) =>
        if Py.str_eqb label "Latitude" && Py.truthy value then
          match float value with
          | Some x => (Some x, snd loc)
          | None => loc
          end
        else if Py.str_eqb label "Longitude" && Py.truthy value then
          match float value with
          | Some x => (fst loc, Some x)
          | None => loc
          end
        else loc
    | None => loc
    end.
Proof.
  unfold InstagramParser.row_step, row_label_value.
  destruct loc as [lat lon].
  destruct (BS4.find_all row "td" None) as [|cell0 [|cell1 cells]];
    try reflexivity.
  destruct (BS4.find cell0 "div" (Some ("_a6-q" : str)));
    destruct (BS4.find cell1 "div" (Some ("_a6-q" : str)));
    reflexivity.
Qed.

Lemma scan_rows (post_div : BS4.node) :
  extract_location post_div
  = fold_left row_step (scanned_rows post_div) (None, None).
Proof.
  unfold InstagramParser.extract_location, scanned_rows.
  generalize (@None Q, @None Q).
  induction (BS4.find_all post_div "table" None) as [|t ts IH];
    intros loc; simpl; [reflexivity|].
  rewrite fold_left_app. apply IH.
Qed.

Lemma latitude_not_longitude : Py.str_eqb "Longitude" "Latitude" = false.
Proof. reflexivity. Qed.

Lemma row_reads_latitude loc row x :
  reads float "Latitude" row x -> fst (row_step loc row) = Some x.
Proof.
  intros [value [Hr [Hv Hf]]]. rewrite row_step_eq, Hr.
  destruct value; [congruence|]. rewrite Hf. reflexivity.
Qed.

Lemma row_reads_longitude loc row x :
  reads float "Longitude" row x -> snd (row_step loc row) = Some x.
Proof.
  intros [value [Hr [Hv Hf]]]. rewrite row_step_eq, Hr.
  destruct value; [congruence|]. rewrite Hf. reflexivity.
Qed.

Lemma row_silent_latitude loc row :
  silent float "Latitude" row -> fst (row_step loc row) = fst loc.
Proof.
  intros Hs. rewrite row_step_eq.
  destruct (row_label_value row) as [[label value]|] eqn:Hr;
    [|reflexivity].
  destruct (Py.str_eqb label "Latitude") eqn:El; simpl.
  - apply str_eqb_eq in El. subst label.
    destruct value as [|c v]; simpl; [reflexivity|].
    destruct (float (c :: v)) as [x|] eqn:Hf; [|reflexivity].
    exfalso. apply (Hs x). exists (c :: v). repeat split; auto.
    discriminate.
  - match goal with
    | |- context [if ?b then _ else _] => destruct b
    end; [|reflexivity].
    destruct (float value); reflexivity.
Qed.

Lemma row_silent_longitude loc row :
  silent float "Longitude" row -> snd (row_step loc row) = snd loc.
Proof.
  intros Hs. rewrite row_step_eq.
  destruct (row_label_value row) as [[label value]|] eqn:Hr;
    [|reflexivity].
  destruct (Py.str_eqb label "Latitude" && Py.truthy value).
  { destruct (float value); reflexivity. }
  destruct (Py.str_eqb label "Longitude") eqn:El; simpl; [|reflexivity].
  apply str_eqb_eq in El. subst label.
  destruct value as [|c v]; simpl; [reflexivity|].
  destruct (float (c :: v)) as [x|] eqn:Hf; [|reflexivity].
  exfalso. apply (Hs x). exists (c :: v). repeat split; auto.
  discriminate.
Qed.

Section LastMatch.
Variable label : str.
Variable proj : option Q * option Q -> option Q.
Hypothesis step_reads : forall loc row x,
    reads float label row x -> proj (row_step loc row) = Some x.
Hypothesis step_silent : forall loc row,
    silent float label row -> proj (row_step loc row) = proj loc.

Lemma fold_silent (rows : list BS4.node) (loc : option Q * option Q) :
  (forall r, In r rows -> silent float label r) ->
  proj (fold_left row_step rows loc) = proj loc.
Proof.
  revert loc. induction rows as [|r rows IH]; intros loc Hs; simpl;
    [reflexivity|].
  rewrite IH; [|intros; apply Hs; right; assumption].
  apply step_silent, Hs. left. reflexivity.
Qed.

Lemma fold_last (rs1 rs2 : list BS4.node) (r : BS4.node) (x : Q) loc :
  reads float label r x ->
  (forall r', In r' rs2 -> silent float label r') ->
  proj (fold_left row_step (rs1 ++ r :: rs2) loc) = Some x.
Proof.
  intros Hr Hs. rewrite fold_left_app. simpl.
  rewrite (fold_silent rs2 _ Hs). apply step_reads, Hr.
Qed.
End LastMatch.

(** C10.  Of the rows labeled [Latitude] whose value is a number, the
    last one the scan visits gives the latitude of the post: rows
    before it are overwritten, and rows after it that give no number,
    among them those labeled [Latitude] with a value that is not a
    number, leave it in place.  The same holds for [Longitude]. *)
Theorem C10_last_row_wins (post_div : BS4.node) (p : InstagramPost) :
  _parse_post_div post_div = Some p ->
  (forall rs1 r rs2 x,
      scanned_rows post_div = rs1 ++ r :: rs2 ->
      reads float "Latitude" r x ->
      (forall r', In r' rs2 -> silent float "Latitude" r') ->
      latitude p = Some x)
  /\ (forall rs1 r rs2 x,
         scanned_rows post_div = rs1 ++ r :: rs2 ->
         reads float "Longitude" r x ->
         (forall r', In r' rs2 -> silent float "Longitude" r') ->
         longitude p = Some x)
  /\ (forall label r value,
         row_label_value r = Some (label, value) ->
         float value = None ->
         silent float label r)
  /\ ((forall r, In r (scanned_rows post_div) ->
                 silent float "Latitude" r) ->
      latitude p = None)
  /\ ((forall r, In r (scanned_rows post_div) ->
                 silent float "Longitude" r) ->
      longitude p = None).
Proof.
  intros Hp.
  unfold InstagramParser._parse_post_div in Hp.
  destruct (InstagramParser.extract_location float post_div)
    as [lat lon] eqn:El.
  destruct (negb (Py.truthy (extract_images post_div))
            && negb (Py.truthy (extract_title post_div)));
    [discriminate|].
  injection Hp as <-. cbn [latitude longitude].
  rewrite scan_rows in El.
  assert (Hlat : lat = fst (fold_left row_step (scanned_rows post_div) (None, None)))
    by (rewrite El; reflexivity).
  assert (Hlon : lon = snd (fold_left row_step (scanned_rows post_div) (None, None)))
    by (rewrite El; reflexivity).
  repeat split.
  - intros rs1 r rs2 x E Hr Hs. rewrite Hlat, E.
    apply (fold_last "Latitude" fst row_reads_latitude row_silent_latitude);
      assumption.
  - intros rs1 r rs2 x E Hr Hs. rewrite Hlon, E.
    apply (fold_last "Longitude" snd row_reads_longitude row_silent_longitude);
      assumption.
  - intros label r value Hr Hf x [v [Hv [_ Hx]]]. congruence.
  - intros Hs. rewrite Hlat.
    exact (fold_silent "Latitude" fst row_silent_latitude _ (None, None) Hs).
  - intros Hs. rewrite Hlon.
    exact (fold_silent "Longitude" snd row_silent_longitude _ (None, None) Hs).
Qed.
End MarkupParserFacts.

(** ** The site generator and the driver *)

Section SiteFacts.
Import SiteGenerator.

Variables path fs : Type.
Variable joinpath : path -> str -> path.
Variable name : path -> str.
Variable path_exists : fs -> path -> bool.
Variable copy2 : fs -> path -> path -> fs.
Variables export_dir images_dir : path.

Abbreviation copy_images :=
  (copy_images joinpath name path_exists copy2 export_dir images_dir).
Abbreviation _copy_post_images :=
  (_copy_post_images joinpath name path_exists copy2 export_dir images_dir).
Abbreviation copy_all :=
  (copy_all joinpath name path_exists copy2 export_dir images_dir).
Abbreviation generate_site :=
  (generate_site joinpath name path_exists copy2 export_dir images_dir).
Abbreviation main :=
  (GenerateSite.main joinpath name path_exists copy2 export_dir images_dir).

Abbreviation site_path := (site_path joinpath name export_dir).
Abbreviation full := (get_full_image_path joinpath export_dir).
Abbreviation found_on_disk :=
  (found_on_disk joinpath name path_exists copy2 export_dir images_dir).
Abbreviation copied :=
  (copied joinpath name path_exists copy2 export_dir images_dir).

Lemma set_images_images (post : Post) (l : list str) :
  images (set_images post l) = l.
Proof. destruct post; reflexivity. Qed.

Lemma set_images_back (post : Post) (l : list str) :
  set_images (set_images post l) (images post) = post.
Proof. destruct post as [[]|[]]; reflexivity. Qed.

Lemma copy_images_found (imgs : list str) (files : fs) (acc : list str) :
  exists kept,
    found_on_disk files imgs (fst (copy_images files acc imgs)) kept
    /\ snd (copy_images files acc imgs) = acc ++ map site_path kept.
Proof.
  revert files acc. induction imgs as [|i imgs IH]; intros files acc;
    cbn [SiteGenerator.copy_images].
  - exists []. split; [constructor|]. cbn [snd map]. symmetry.
    apply app_nil_r.
  - cbv zeta.
    destruct (path_exists files (full i)) eqn:Es; cbn [negb].
    + destruct (path_exists files (joinpath images_dir (name (full i))))
        eqn:Ed; cbn [negb].
      * destruct (IH files (acc ++ [("../images/" : str) ++ name (full i)]))
          as [kept [Hf Hk]].
        exists (i :: kept). split; [apply found_there; assumption|].
        rewrite Hk, <- app_assoc. reflexivity.
      * destruct (IH (copy2 files (full i)
                            (joinpath images_dir (name (full i))))
                     (acc ++ [("../images/" : str) ++ name (full i)]))
          as [kept [Hf Hk]].
        exists (i :: kept). split; [apply found_copied; assumption|].
        rewrite Hk, <- app_assoc. reflexivity.
    + destruct (IH files acc) as [kept [Hf Hk]].
      exists kept. split; [apply found_missing; assumption | exact Hk].
Qed.

Lemma copy_all_copied (posts : list Post) (files : fs) :
  copied files posts (snd (copy_all files posts)).
Proof.
  revert files. induction posts as [|post posts IH]; intros files;
    cbn [SiteGenerator.copy_all].
  - constructor.
  - unfold SiteGenerator._copy_post_images.
    destruct (copy_images_found (images post) files []) as [kept [Hf Hk]].
    destruct (copy_images files [] (images post)) as [files1 paths].
    cbn [fst snd app] in Hf, Hk. subst paths.
    specialize (IH files1).
    destruct (copy_all files1 posts) as [files2 posts'].
    cbn [snd] in *.
    eapply copied_cons; [exact Hf | apply set_images_images
                        | apply set_images_back | exact IH].
Qed.

Lemma copied_back (posts posts' : list Post) (files : fs) :
  copied files posts posts' ->
  Forall2 (fun post post' => set_images post' (images post) = post)
          posts posts'.
Proof. induction 1; constructor; assumption. Qed.






End SiteFacts.

(** ** Hashtag extraction *)

Section HashtagFacts.

Import Re.

Lemma match_tag_cons (c : ascii) (r : str) :
  Re.match_tag (c :: r) = None <->
  (c = "#"%char -> word_free_head r).
Proof.
  unfold Re.match_tag, word_free_head.
  destruct (Ascii.eqb c "#") eqn:E.
  - apply Ascii.eqb_eq in E. subst c.
    destruct (Re.run Py.isword r); split; intros H; auto;
      try discriminate.
    specialize (H eq_refl). discriminate.
  - split; [|reflexivity]. intros _ Hc. subst c. discriminate.
Qed.

Lemma run_app_head (r q : str) :
  word_free_head (r ++ q) -> r <> [] -> word_free_head r.
Proof.
  unfold word_free_head. destruct r as [|d r]; [congruence|]. simpl.
  destruct (Py.isword d); [discriminate | reflexivity].
Qed.

Lemma clean_app_l (a b : str) : clean (a ++ b) -> clean a.
Proof.
  induction a as [|c a IH]; simpl; [trivial|].
  intros [Hm Hc]. split; [|apply IH, Hc].
  change (Re.match_tag (c :: a ++ b) = None) in Hm.
  apply match_tag_cons. intros E.
  apply (proj1 (match_tag_cons c (a ++ b)) Hm) in E.
  destruct a as [|d a]; [reflexivity|].
  apply (run_app_head _ b E). discriminate.
Qed.

Lemma clean_app_r (a b : str) : clean (a ++ b) -> clean b.
Proof.
  induction a as [|c a IH]; simpl; [trivial|].
  intros [_ Hc]. apply IH, Hc.
Qed.

Lemma lstrip_suffix (s : str) : exists a, s = a ++ Py.lstrip s.
Proof.
  induction s as [|c s [a Ha]]; simpl.
  - exists []. reflexivity.
  - destruct (Py.isspace c).
    + exists (c :: a). simpl. f_equal. exact Ha.
    + exists []. reflexivity.
Qed.

Lemma rstrip_prefix (s : str) : exists b, s = Py.rstrip s ++ b.
Proof.
  unfold Py.rstrip.
  destruct (lstrip_suffix (rev s)) as [a Ha].
  exists (rev a).
  rewrite <- rev_app_distr, <- Ha. symmetry. apply rev_involutive.
Qed.

Lemma clean_strip (s : str) : clean s -> clean (Py.strip s).
Proof.
  intros Hc. unfold Py.strip.
  destruct (rstrip_prefix (Py.lstrip s)) as [b Hb].
  destruct (lstrip_suffix s) as [a Ha].
  rewrite Ha in Hc. apply clean_app_r in Hc.
  rewrite Hb in Hc. apply clean_app_l in Hc. exact Hc.
Qed.

Lemma clean_findall (s : str) (skip : nat) :
  clean s -> Re.findall_tag_from skip s = [].
Proof.
  revert skip. induction s as [|c r IH]; intros skip Hc; [reflexivity|].
  destruct Hc as [Hm Hc].
  cbn [Re.findall_tag_from].
  destruct skip; [rewrite Hm|]; apply IH, Hc.
Qed.

(** After the expression [\s*#\w+] has matched, the text goes on with
    something that is not a word character. *)
Lemma run_rest (f : ascii -> bool) (s : str) :
  Re.run f (skipn (List.length (Re.run f s)) s) = [].
Proof.
  induction s as [|c s IH]; simpl; [reflexivity|].
  destruct (f c) eqn:E; simpl; [exact IH | rewrite E; reflexivity].
Qed.

Lemma match_tag_rest (s : str) (w : str) :
  Re.match_tag s = Some w ->
  word_free_head (skipn (S (List.length w)) s).
Proof.
  destruct s as [|c r]; simpl; [discriminate|].
  destruct (Ascii.eqb c "#"); [|discriminate].
  destruct (Re.run Py.isword r) as [|d w'] eqn:E; [discriminate|].
  intros [= <-]. rewrite <- E. apply run_rest.
Qed.

Lemma match_ws_tag_rest (s : str) (n : nat) :
  Re.match_ws_tag s = Some n ->
  word_free_head (skipn n s) /\ (0 < n)%nat.
Proof.
  revert n. induction s as [|c r IH]; intros n; [discriminate|].
  cbn [Re.match_ws_tag].
  assert (Hhere : option_map (fun w => S (List.length w))
                             (Re.match_tag (c :: r)) = Some n ->
                  word_free_head (skipn n (c :: r)) /\ (0 < n)%nat).
  { destruct (Re.match_tag (c :: r)) as [w|] eqn:E; [|discriminate].
    intros [= <-]. split; [apply match_tag_rest, E | lia]. }
  destruct (Py.isspace c); [|exact Hhere].
  destruct (Re.match_ws_tag r) as [m|]; [|exact Hhere].
  intros [= <-]. split; [apply (IH m eq_refl) | lia].
Qed.

Lemma match_ws_tag_none (s : str) :
  Re.match_ws_tag s = None -> Re.match_tag s = None.
Proof.
  destruct s as [|c r]; [reflexivity|].
  cbn [Re.match_ws_tag].
  destruct (Re.match_tag (c :: r)); [|reflexivity].
  destruct (Py.isspace c); [|discriminate].
  destruct (Re.match_ws_tag r); discriminate.
Qed.

Lemma sub_skip (s : str) (skip : nat) :
  Re.sub_ws_tag_from skip s = Re.sub_ws_tag_from 0 (skipn skip s).
Proof.
  revert skip. induction s as [|c r IH]; intros [|k]; try reflexivity.
  simpl. apply IH.
Qed.

Lemma sub_clean (n : nat) (s : str) :
  (List.length s <= n)%nat ->
  clean (Re.sub_ws_tag_from 0 s)
  /\ (word_free_head s -> word_free_head (Re.sub_ws_tag_from 0 s)).
Proof.
  revert s. induction n as [|n IH]; intros s Hl.
  - destruct s; [|simpl in Hl; lia]. simpl. auto.
  - destruct s as [|c r]; [simpl; auto|].
    cbn [Re.sub_ws_tag_from].
    destruct (Re.match_ws_tag (c :: r)) as [m|] eqn:E.
    + apply match_ws_tag_rest in E. destruct E as [Hw Hm].
      destruct m as [|m]; [lia|]. cbn [pred].
      rewrite sub_skip. cbn [skipn] in Hw.
      destruct (IH (skipn m r)) as [Hc Hh].
      { rewrite length_skipn. simpl in Hl. lia. }
      split; [exact Hc | intros _; apply Hh, Hw].
    + destruct (IH r) as [Hc Hh]; [simpl in Hl; lia|].
      apply match_ws_tag_none in E.
      split.
      * split; [|exact Hc].
        apply match_tag_cons. intros Ec. apply Hh.
        apply (proj1 (match_tag_cons c r) E Ec).
      * unfold word_free_head. simpl.
        destruct (Py.isword c); [discriminate | reflexivity].
Qed.

Lemma cleaned_is_clean (text : str) :
  clean (Py.strip (Re.sub_ws_tag text)).
Proof.
  apply clean_strip.
  apply (proj1 (sub_clean (List.length text) text (Nat.le_refl _))).
Qed.

(** C5.  Extraction applied to the cleaned text of an extraction finds
    no hashtag, with the extraction of the parser and with the one of
    the feed generator. *)
Theorem C5_extraction_idempotent (text : str) :
  let cleaned := fst (InstagramJSONParser._extract_hashtags text) in
  snd (InstagramJSONParser._extract_hashtags cleaned) = []
  /\ RSSGenerator._extract_hashtags cleaned = [].
Proof.
  assert (H : forall s, clean s -> Re.findall_tag s = [])
    by (intros s Hs; apply clean_findall, Hs).
  unfold InstagramJSONParser._extract_hashtags,
    RSSGenerator._extract_hashtags.
  destruct text as [|c text]; simpl negb; cbv iota; cbn [fst snd].
  - split; reflexivity.
  - pose proof (cleaned_is_clean (c :: text)) as Hc.
    destruct (Py.strip (Re.sub_ws_tag (c :: text))) as [|d s] eqn:E;
      cbn [Py.truthy negb fst snd].
    + split; reflexivity.
    + rewrite (H _ Hc). split; reflexivity.
Qed.
End HashtagFacts.

(** ** Title truncation *)

Section TruncateFacts.
Import SiteGenerator.

Lemma startswith_firstn (sub s : str) :
  Py.startswith s sub = true <-> firstn (List.length sub) s = sub.
Proof.
  revert s. induction sub as [|a sub IH]; intros s; simpl.
  - destruct s; split; reflexivity.
  - destruct s as [|b s]; simpl; [split; discriminate|].
    rewrite andb_true_iff, Ascii.eqb_eq, IH. split.
    + intros [-> ->]. reflexivity.
    + intros [= -> H]. auto.
Qed.

Lemma occurs_at_0 (s sub : str) :
  occurs_at s sub 0 <-> Py.startswith s sub = true.
Proof.
  unfold occurs_at. rewrite startswith_firstn. simpl.
  split; [tauto | intros; split; [lia | assumption]].
Qed.

Lemma occurs_at_S (c : ascii) (s sub : str) (p : nat) :
  occurs_at (c :: s) sub (S p) <-> occurs_at s sub p.
Proof. unfold occurs_at. simpl. split; intros [? ?]; split; auto; lia. Qed.

Lemma occurs_at_nil (sub : str) (p : nat) :
  occurs_at [] sub p -> Py.startswith [] sub = true.
Proof.
  intros [Hl H]. simpl in Hl. assert (p = 0%nat) by lia. subst p.
  apply startswith_firstn. exact H.
Qed.

Lemma find_from_spec (sub s : str) (i : Z) :
  (Py.find_from i s sub = -1 /\ forall p, ~ occurs_at s sub p)
  \/ exists p, Py.find_from i s sub = i + Z.of_nat p /\ first_at s sub p.
Proof.
  revert i. induction s as [|c s IH]; intros i.
  - cbn [Py.find_from].
    destruct (Py.startswith [] sub) eqn:E.
    + right. exists 0%nat. split; [lia|]. split.
      * apply occurs_at_0, E.
      * intros q Hq. lia.
    + left. split; [reflexivity|].
      intros p Hp. apply occurs_at_nil in Hp. congruence.
  - cbn [Py.find_from].
    destruct (Py.startswith (c :: s) sub) eqn:E.
    + right. exists 0%nat. split; [lia|]. split.
      * apply occurs_at_0, E.
      * intros q Hq. lia.
    + destruct (IH (i + 1)) as [[Hn Ha]|[p [Hp [Ho Hf]]]].
      * left. split; [exact Hn|].
        intros [|p] Hp.
        -- apply occurs_at_0 in Hp. congruence.
        -- apply occurs_at_S in Hp. apply (Ha p Hp).
      * right. exists (S p). split; [lia|]. split.
        -- apply occurs_at_S, Ho.
        -- intros [|q] Hq Hoq.
           ++ apply occurs_at_0 in Hoq. congruence.
           ++ apply occurs_at_S in Hoq. apply (Hf q); [lia | exact Hoq].
Qed.

Lemma first_at_unique (s sub : str) (p q : nat) :
  first_at s sub p -> first_at s sub q -> p = q.
Proof.
  intros [Hp Hfp] [Hq Hfq].
  destruct (Nat.lt_trichotomy p q) as [H|[H|H]]; [|exact H|].
  - exfalso. apply (Hfq p H Hp).
  - exfalso. apply (Hfp q H Hq).
Qed.

Lemma find_first (s sub : str) (p : nat) :
  first_at s sub p -> Py.find s sub = Z.of_nat p.
Proof.
  intros Hp. unfold Py.find.
  destruct (find_from_spec sub s 0) as [[_ Ha]|[q [Hq Hf]]].
  - exfalso. apply (Ha p), Hp.
  - rewrite Hq, (first_at_unique _ _ _ _ Hp Hf). lia.
Qed.

Lemma find_first_at (s sub : str) (p : nat) :
  Py.find s sub = Z.of_nat p -> first_at s sub p.
Proof.
  unfold Py.find.
  destruct (find_from_spec sub s 0) as [[-> _]|[q [-> Hf]]]; [lia|].
  intros E. assert (q = p) by lia. subst q. exact Hf.
Qed.

Lemma window_cut (text d : str) (p : nat) :
  cut_at text d p ->
  Py.find text d = Z.of_nat p
  /\ (15 <=? Py.find text d) && (Py.find text d <=? 60) = true.
Proof.
  intros [Hf Hw]. rewrite (find_first _ _ _ Hf). split; [reflexivity|].
  apply andb_true_iff. split; apply Z.leb_le; lia.
Qed.

Lemma window_no_cut (text d : str) :
  no_cut text d ->
  (15 <=? Py.find text d) && (Py.find text d <=? 60) = false.
Proof.
  intros Hn. unfold Py.find.
  destruct (find_from_spec d text 0) as [[-> _]|[q [-> Hf]]];
    [reflexivity|].
  specialize (Hn q Hf).
  apply andb_false_iff.
  destruct (Z.leb_spec 15 (0 + Z.of_nat q)); [|left; reflexivity].
  right. apply Z.leb_gt. lia.
Qed.

Lemma slice_to_nat {A} (s : list A) (n : nat) :
  Py.slice_to s (Z.of_nat n) = firstn n s.
Proof.
  unfold Py.slice_to.
  destruct (Z.ltb_spec (Z.of_nat n) 0); [lia|].
  rewrite Nat2Z.id. reflexivity.
Qed.

Lemma before_last_spec (sep : ascii) (s : str) :
  match Py.before_last sep s with
  | Some h => exists t, s = h ++ sep :: t /\ ~ In sep t
  | None => ~ In sep s
  end.
Proof.
  induction s as [|c s IH]; simpl; [tauto|].
  destruct (Py.before_last sep s) as [h|].
  - destruct IH as [t [-> Ht]]. exists t. auto.
  - destruct (Ascii.eqb c sep) eqn:E.
    + apply Ascii.eqb_eq in E. subst c. exists s. auto.
    + apply Ascii.eqb_neq in E. intros [H|H]; auto.
Qed.

Lemma split_last_unique (sep : ascii) (h1 h2 t1 t2 : str) :
  h1 ++ sep :: t1 = h2 ++ sep :: t2 ->
  ~ In sep t1 -> ~ In sep t2 -> h1 = h2.
Proof.
  revert h2. induction h1 as [|a h1 IH]; intros [|b h2]; simpl;
    intros E H1 H2.
  - reflexivity.
  - injection E as <- ->. exfalso. apply H1, in_elt.
  - injection E as -> <-. exfalso. apply H2, in_elt.
  - injection E as -> E. f_equal. eapply IH; eauto.
Qed.

Lemma rsplit1_head_last (s h t : str) (sep : ascii) :
  s = h ++ sep :: t -> ~ In sep t -> Py.rsplit1_head s sep = h.
Proof.
  intros E Ht. unfold Py.rsplit1_head.
  pose proof (before_last_spec sep s) as H.
  destruct (Py.before_last sep s) as [h'|].
  - destruct H as [t' [E' Ht']]. rewrite E in E'.
    symmetry. eapply split_last_unique; eauto.
  - exfalso. apply H. rewrite E. apply in_elt.
Qed.

Lemma rsplit1_head_none (s : str) (sep : ascii) :
  ~ In sep s -> Py.rsplit1_head s sep = s.
Proof.
  intros Hn. unfold Py.rsplit1_head.
  pose proof (before_last_spec sep s) as H.
  destruct (Py.before_last sep s) as [h'|]; [|reflexivity].
  destruct H as [t' [E' _]]. exfalso. apply Hn. rewrite E'. apply in_elt.
Qed.

Lemma truncate_long (text : str) :
  60 < Py.len text ->
  _truncate_title text 60
  = match sentence_cut text 60 [". " : str; "! " : str; "? " : str] with
    | Some cut => cut
    | None =>
        if (15 <=? Py.find text ", ") && (Py.find text ", " <=? 60)
        then Py.slice_to text (Py.find text ", ")
        else Py.rsplit1_head (Py.slice_to text 60) " " ++ "..."
    end.
Proof.
  intros Hl. unfold _truncate_title.
  destruct (Z.leb_spec (Py.len text) 60); [lia|].
  destruct (Z.gtb_spec (Py.len text) 60); [reflexivity | lia].
Qed.

Lemma cut_slice (text d : str) (p : nat) :
  cut_at text d p ->
  Py.slice_to text (Py.find text d + 1) = firstn (p + 1) text.
Proof.
  intros Hc. destruct (window_cut _ _ _ Hc) as [-> _].
  replace (Z.of_nat p + 1) with (Z.of_nat (p + 1)) by lia.
  apply slice_to_nat.
Qed.

(** C2, as the program has it.  A text of at most 60 characters is
    returned unchanged.  For a longer one the delimiters [. ], [! ]
    and [? ] are tried in this order: the first of them whose first
    occurrence in the whole text lies between positions 15 and 60
    gives the cut, the text up to and including the punctuation mark.
    Failing that, a first [, ] in the text between 15 and 60 gives the
    text before the comma.  Failing that, the result is the first 60
    characters up to their last space, or all of them when they hold
    no space, followed by [...].  A text of 90 characters whose first
    [. ] is at position 30 gives its first 31 characters. *)
Theorem C2_page_title_truncation (text : str) :
  let r := _truncate_title text 60 in
  (Py.len text <= 60 -> r = text)
  /\ (60 < Py.len text ->
      (forall p, cut_at text ". " p -> r = firstn (p + 1) text)
      /\ (no_cut text ". " ->
          forall p, cut_at text "! " p -> r = firstn (p + 1) text)
      /\ (no_cut text ". " -> no_cut text "! " ->
          forall p, cut_at text "? " p -> r = firstn (p + 1) text)
      /\ (no_cut text ". " -> no_cut text "! " -> no_cut text "? " ->
          forall p, cut_at text ", " p -> r = firstn p text)
      /\ (no_cut text ". " -> no_cut text "! " -> no_cut text "? " ->
          no_cut text ", " ->
          (forall h t, firstn 60 text = h ++ " "%char :: t ->
                       ~ In " "%char t -> r = h ++ "...")
          /\ (~ In " "%char (firstn 60 text) ->
              r = firstn 60 text ++ "...")))
  /\ (Py.len text = 90 -> first_at text ". " 30 -> r = firstn 31 text).
Proof.
  cbv zeta.
  assert (Hlong : 60 < Py.len text ->
                  forall p, cut_at text ". " p ->
                            _truncate_title text 60 = firstn (p + 1) text).
  { intros Hl p Hc. rewrite (truncate_long _ Hl). cbn [sentence_cut].
    rewrite (proj2 (window_cut _ _ _ Hc)). apply cut_slice, Hc. }
  split; [|split].
  - intros Hl. unfold _truncate_title.
    destruct (Z.leb_spec (Py.len text) 60); [reflexivity | lia].
  - intros Hl. split; [exact (Hlong Hl)|].
    rewrite (truncate_long _ Hl). cbn [sentence_cut].
    split; [|split; [|split]].
    + intros N1 p Hc.
      rewrite (window_no_cut _ _ N1), (proj2 (window_cut _ _ _ Hc)).
      apply cut_slice, Hc.
    + intros N1 N2 p Hc.
      rewrite (window_no_cut _ _ N1), (window_no_cut _ _ N2),
        (proj2 (window_cut _ _ _ Hc)).
      apply cut_slice, Hc.
    + intros N1 N2 N3 p Hc.
      rewrite (window_no_cut _ _ N1), (window_no_cut _ _ N2),
        (window_no_cut _ _ N3), (proj2 (window_cut _ _ _ Hc)).
      rewrite (proj1 (window_cut _ _ _ Hc)). apply slice_to_nat.
    + intros N1 N2 N3 N4.
      rewrite (window_no_cut _ _ N1), (window_no_cut _ _ N2),
        (window_no_cut _ _ N3), (window_no_cut _ _ N4).
      change 60 with (Z.of_nat 60). rewrite slice_to_nat.
      split.
      * intros h t E Ht. rewrite (rsplit1_head_last _ h t _ E Ht).
        reflexivity.
      * intros Hn. rewrite (rsplit1_head_none _ _ Hn). reflexivity.
  - intros Hl Hf. apply (Hlong ltac:(lia) 30%nat).
    split; [exact Hf | lia].
Qed.

(** The rule as the specification words it: the cut is at the first
    position between 15 and 60 at which a sentence ends.  It fails on a
    title whose first
    sentence is shorter than 15 characters: the first [. ] of the
    whole text, at position 3, is outside the window, so the one at
    position 40 is not looked for and the title is cut at a space. *)
Lemma C2_counterexample :
  60 < Py.len ex_title
  /\ first_sentence_end ex_title 15 60 = Some 40%nat
  /\ firstn (40 + 1) ex_title
     = ("Wow. We spent the whole day at the beach." : str)
  /\ _truncate_title ex_title 60
     = ("Wow. We spent the whole day at the beach. It was sunny and..." : str)
  /\ _truncate_title ex_title 60 <> firstn (40 + 1) ex_title.
Proof.
  split; [reflexivity|].
  split; [reflexivity|].
  split; [reflexivity|].
  split; [reflexivity|].
  vm_compute. discriminate.
Qed.
End TruncateFacts.

(** ** The calendar *)

Section CalendarFacts.
Import Datetime.

Lemma range_forallb (f : Z -> bool) (lo : Z) (n : nat) :
  forallb f (map (fun k => lo + Z.of_nat k) (seq 0 n)) = true ->
  forall x, lo <= x < lo + Z.of_nat n -> f x = true.
Proof.
  intros H x Hx. rewrite forallb_forall in H. apply H.
  apply in_map_iff. exists (Z.to_nat (x - lo)). split; [lia|].
  apply in_seq. lia.
Qed.

Lemma month_day_valid (n : Z) (leapyear : bool) :
  0 <= n < 365 -> month_day_ok leapyear n = true.
Proof.
  intros Hn.
  apply (range_forallb (month_day_ok leapyear) 0 365); [|lia].
  destruct leapyear; vm_compute; reflexivity.
Qed.

Lemma is_leap_decode (n400 n100 n4 n1 : Z) :
  0 <= n100 <= 3 -> 0 <= n4 <= 24 -> 0 <= n1 <= 3 ->
  _is_leap (n400 * 400 + 1 + n100 * 100 + n4 * 4 + n1)
  = (n1 =? 3) && (negb (n4 =? 24) || (n100 =? 3)).
Proof.
  intros H100 H4 H1. unfold _is_leap.
  repeat match goal with
         | |- context [?a =? ?b] => destruct (Z.eqb_spec a b)
         end; simpl; try reflexivity; exfalso;
    Z.div_mod_to_equations; lia.
Qed.

Lemma ord2ymd_valid (n : Z) :
  let '(y, m, d) := _ord2ymd n in
  1 <= m <= 12 /\ 1 <= d <= _days_in_month y m.
Proof.
  unfold _ord2ymd, _DI400Y, _DI100Y, _DI4Y. cbv zeta.
  set (r := (n - 1) mod 146097).
  set (n400 := (n - 1) / 146097).
  set (n100 := r / 36524).
  set (r1 := r mod 36524).
  set (n4 := r1 / 1461).
  set (r2 := r1 mod 1461).
  set (n1 := r2 / 365).
  set (n' := r2 mod 365).
  assert (Hr : 0 <= r < 146097) by (apply Z.mod_pos_bound; lia).
  assert (Hr1 : 0 <= r1 < 36524) by (apply Z.mod_pos_bound; lia).
  assert (Hr2 : 0 <= r2 < 1461) by (apply Z.mod_pos_bound; lia).
  assert (Hn' : 0 <= n' < 365) by (apply Z.mod_pos_bound; lia).
  assert (H100 : 0 <= n100 <= 4)
    by (unfold n100; Z.div_mod_to_equations; lia).
  assert (H4 : 0 <= n4 <= 24) by (unfold n4; Z.div_mod_to_equations; lia).
  assert (H1 : 0 <= n1 <= 4) by (unfold n1; Z.div_mod_to_equations; lia).
  destruct (Z.eqb_spec n1 4) as [E1|E1]; simpl orb.
  { split; [lia|]. vm_compute. split; discriminate. }
  destruct (Z.eqb_spec n100 4) as [E100|E100].
  { split; [lia|]. vm_compute. split; discriminate. }
  pose proof (month_day_valid n' ((n1 =? 3) && (negb (n4 =? 24) || (n100 =? 3))) Hn')
    as Hv.
  unfold month_day_ok in Hv.
  destruct (month_day n' ((n1 =? 3) && (negb (n4 =? 24) || (n100 =? 3))))
    as [m d].
  unfold _days_in_month.
  rewrite is_leap_decode by lia.
  rewrite !andb_true_iff, !Z.leb_le in Hv. lia.
Qed.

Lemma range_cases (P : Z -> Prop) (lo : Z) (n : nat) :
  (forall k, (k < n)%nat -> P (lo + Z.of_nat k)) ->
  forall x, lo <= x < lo + Z.of_nat n -> P x.
Proof.
  intros H x Hx.
  replace x with (lo + Z.of_nat (Z.to_nat (x - lo))) by lia.
  apply H. lia.
Qed.

(** Splits a goal on an integer between [lo] and [lo + n - 1] into its
    [n] cases, each of which holds by computation. *)
Ltac by_cases x lo n :=
  pattern x; apply (range_cases _ lo n); [|lia];
  let k := fresh "k" in
  let Hk := fresh "Hk" in
  intros k Hk;
  repeat (destruct k as [|k]; [reflexivity | try (exfalso; lia)]).

Lemma gmtime_fields (s : Z) :
  let dt := gmtime s in
  1 <= month dt <= 12
  /\ 1 <= day dt <= _days_in_month (year dt) (month dt)
  /\ 0 <= hour dt <= 23 /\ 0 <= minute dt <= 59 /\ 0 <= second dt <= 59.
Proof.
  unfold gmtime.
  pose proof (ord2ymd_valid (s / 86400 + 719163)) as Hv.
  destruct (_ord2ymd (s / 86400 + 719163)) as [[y m] d].
  cbv beta iota zeta. cbn [year month day hour minute second].
  repeat split; try tauto; Z.div_mod_to_equations; lia.
Qed.

(** Dropping the seconds of an instant drops the seconds of its
    broken-down time. *)
Lemma gmtime_floor_minute (s : Z) :
  gmtime (60 * (s / 60))
  = let dt := gmtime s in
    mkdt (year dt) (month dt) (day dt) (hour dt) (minute dt) 0.
Proof.
  unfold gmtime.
  replace (60 * (s / 60) / 86400) with (s / 86400)
    by (Z.div_mod_to_equations; lia).
  destruct (_ord2ymd (s / 86400 + 719163)) as [[y m] d].
  cbv beta iota zeta. cbn [year month day hour minute].
  f_equal; Z.div_mod_to_equations; lia.
Qed.

(** *** Digits *)

Lemma digit_val_digit (k : Z) : 0 <= k <= 9 -> digit_val (digit k) = Some k.
Proof. intros H. by_cases k 0 10%nat. Qed.

Lemma isspace_digit (k : Z) : 0 <= k <= 9 -> Py.isspace (digit k) = false.
Proof. intros H. by_cases k 0 10%nat. Qed.

Lemma one_digit_digit (lo hi k : Z) (r : str) :
  0 <= k <= 9 -> lo <= k <= hi -> one_digit lo hi (digit k :: r) = [(k, r)].
Proof.
  intros Hk Hb. unfold one_digit. rewrite (digit_val_digit k Hk).
  unfold between.
  destruct (Z.leb_spec lo k); [|lia].
  destruct (Z.leb_spec k hi); [|lia]. reflexivity.
Qed.

Lemma then_digit_digit (p : matcher Z) (lo hi a k : Z) (s r : str) :
  p s = [(a, digit k :: r)] -> 0 <= k <= 9 -> lo <= k <= hi ->
  then_digit p lo hi s = [(10 * a + k, r)].
Proof.
  intros Hp Hk Hb. unfold then_digit. rewrite Hp. cbn [flat_map].
  rewrite (one_digit_digit lo hi k r Hk Hb). reflexivity.
Qed.

Lemma re_Y_pad4 (y : Z) (rest : str) :
  0 <= y <= 9999 -> re_Y (pad4 y ++ rest) = [(y, rest)].
Proof.
  intros Hy. unfold re_Y, two_digits, pad4. cbn [app].
  assert (H3 : 0 <= y / 1000 <= 9) by (Z.div_mod_to_equations; lia).
  assert (H2 : 0 <= y / 100 mod 10 <= 9) by (Z.div_mod_to_equations; lia).
  assert (H1 : 0 <= y / 10 mod 10 <= 9) by (Z.div_mod_to_equations; lia).
  assert (H0 : 0 <= y mod 10 <= 9) by (Z.div_mod_to_equations; lia).
  replace y with
    (10 * (10 * (10 * (y / 1000) + y / 100 mod 10) + y / 10 mod 10)
     + y mod 10) at 5
    by (Z.div_mod_to_equations; lia).
  eapply then_digit_digit; [|lia|lia].
  eapply then_digit_digit; [|lia|lia].
  eapply then_digit_digit; [|lia|lia].
  apply one_digit_digit; lia.
Qed.

Lemma re_d_pad2 (d : Z) (rest : str) :
  1 <= d <= 31 -> hd_error (re_d (pad2 d ++ rest)) = Some (d, rest).
Proof. intros H. by_cases d 1 31%nat. Qed.

Lemma re_I_pad2 (h : Z) (rest : str) :
  1 <= h <= 12 -> hd_error (re_I (pad2 h ++ rest)) = Some (h, rest).
Proof. intros H. by_cases h 1 12%nat. Qed.

Lemma re_M_pad2 (m : Z) (rest : str) :
  0 <= m <= 59 -> hd_error (re_M (pad2 m ++ rest)) = Some (m, rest).
Proof. intros H. by_cases m 0 60%nat. Qed.

Lemma re_b_month (m : Z) (rest : str) :
  1 <= m <= 12 ->
  hd_error (re_b (nth (Z.to_nat (m - 1)) month_abbr [] ++ rest))
  = Some (m, rest).
Proof. intros H. by_cases m 1 12%nat. Qed.

Lemma re_ws_one (c : ascii) (r : str) :
  Py.isspace c = false ->
  hd_error (re_ws (" "%char :: c :: r)) = Some (tt, c :: r).
Proof. intros H. simpl. rewrite H. reflexivity. Qed.

Lemma group_first {A} (p : matcher A) (set : found -> A -> found)
      (k : regex) (f : found) (s r : str) (v : A) (res : found * str) :
  hd_error (p s) = Some (v, r) ->
  hd_error (k (set f v) r) = Some res ->
  hd_error (group p set k f s) = Some res.
Proof.
  unfold group. destruct (p s) as [|[v' r'] l]; [discriminate|].
  intros [= -> ->] Hk. simpl.
  destruct (k (set f v) r); [discriminate|]. exact Hk.
Qed.

(** *** Formatting and parsing back *)

Lemma strftime_instagram (dt : datetime) :
  strftime dt instagram_format
  = nth (Z.to_nat (month dt - 1)) month_abbr []
    ++ " "%char :: pad2 (day dt)
    ++ ","%char :: " "%char :: Py.str_int (year dt)
    ++ " "%char :: pad2 (hour12 (hour dt))
    ++ ":"%char :: pad2 (minute dt)
    ++ " "%char :: (if hour dt <? 12 then "AM" : str else "PM" : str).
Proof.
  cbv [instagram_format list_ascii_of_string strftime Ascii.eqb Bool.eqb
       directive].
  rewrite app_nil_r. reflexivity.
Qed.

(** The year as [%Y] writes it: four digits from the year 1000 on,
    fewer before. *)
Lemma str_int_pad4 (y : Z) : 1000 <= y <= 9999 -> Py.str_int y = pad4 y.
Proof.
  intros Hy. apply str_eqb_eq.
  apply (range_forallb (fun y => Py.str_eqb (Py.str_int y) (pad4 y))
                       1000 (Z.to_nat 9000)); [vm_compute; reflexivity | lia].
Qed.

Lemma str_int_short (y : Z) :
  1 <= y <= 999 ->
  exists c r, Py.str_int y = c :: r /\ Py.isspace c = false
              /\ (List.length r <= 2)%nat.
Proof.
  intros Hy.
  assert (H : match Py.str_int y with
              | c :: r => negb (Py.isspace c) && (List.length r <=? 2)%nat
              | [] => false
              end = true).
  { apply (range_forallb
             (fun y => match Py.str_int y with
                       | c :: r =>
                           negb (Py.isspace c) && (List.length r <=? 2)%nat
                       | [] => false
                       end) 1 (Z.to_nat 999));
      [vm_compute; reflexivity | lia]. }
  destruct (Py.str_int y) as [|c r]; [discriminate|].
  apply andb_true_iff in H. destruct H as [Hc Hr].
  exists c, r. split; [reflexivity|].
  split; [apply negb_true_iff, Hc | apply Nat.leb_le, Hr].
Qed.

Lemma pattern_instagram :
  pattern instagram_format false
  = group re_b with_b
      (group re_ws keep
         (group re_d with_d
            (group (literal tt [","%char]) keep
               (group re_ws keep
                  (group re_Y with_Y
                     (group re_ws keep
                        (group re_I with_I
                           (group (literal tt [":"%char]) keep
                              (group re_M with_M
                                 (group re_ws keep
                                    (group re_p with_p matched))))))))))).
Proof. reflexivity. Qed.

Lemma hour12_range (h : Z) : 0 <= h <= 23 -> 1 <= hour12 h <= 12.
Proof.
  intros H. unfold hour12.
  destruct (Z.eqb_spec (h mod 12) 0); Z.div_mod_to_equations; lia.
Qed.

Lemma hour12_back (h : Z) :
  0 <= h <= 23 ->
  (if h <? 12
   then (if hour12 h =? 12 then 0 else hour12 h)
   else (if hour12 h =? 12 then hour12 h else hour12 h + 12))
  = h.
Proof. intros H. by_cases h 0 24%nat. Qed.

Lemma literal_char (c : ascii) (rest : str) :
  hd_error (literal tt [c] (c :: rest)) = Some (tt, rest).
Proof. simpl. rewrite Ascii.eqb_refl. reflexivity. Qed.

Lemma literal_full (c : ascii) (rest : str) :
  literal tt [c] (c :: rest) = [(tt, rest)].
Proof. simpl. rewrite Ascii.eqb_refl. reflexivity. Qed.

Lemma isspace_pad2_head (n : Z) (rest : str) :
  0 <= n <= 99 ->
  exists c r, pad2 n ++ rest = c :: r /\ Py.isspace c = false.
Proof.
  intros H. exists (digit (n / 10)), (digit (n mod 10) :: rest).
  split; [reflexivity|].
  apply isspace_digit. Z.div_mod_to_equations; lia.
Qed.

Lemma re_ws_before (c : ascii) (r s : str) :
  s = c :: r -> Py.isspace c = false ->
  hd_error (re_ws (" "%char :: s)) = Some (tt, s).
Proof. intros -> H. apply re_ws_one, H. Qed.

Lemma month_length_le_31 (m : Z) :
  1 <= m <= 12 -> (idx _DAYS_IN_MONTH m <=? 31) = true.
Proof. intros H. by_cases m 1 12%nat. Qed.

(** Parsing a formatted date gives the date back, the seconds apart. *)
Lemma strptime_strftime (dt : datetime) :
  valid_date (year dt) (month dt) (day dt) = true ->
  0 <= hour dt <= 23 -> 0 <= minute dt <= 59 ->
  1000 <= year dt ->
  strptime (strftime dt instagram_format) instagram_format
  = Some (mkdt (year dt) (month dt) (day dt) (hour dt) (minute dt) 0).
Proof.
  intros Hv Hh Hm Hy1000.
  pose proof Hv as Hv'. unfold valid_date, MINYEAR, MAXYEAR in Hv'.
  rewrite !andb_true_iff, !Z.leb_le in Hv'.
  destruct Hv' as [[[[[Hy1 Hy2] Hm1] Hm2] Hd1] Hd2].
  assert (Hd31 : day dt <= 31).
  { revert Hd2. unfold _days_in_month.
    destruct ((month dt =? 2) && _is_leap (year dt)); [lia|].
    pose proof (month_length_le_31 (month dt) (conj Hm1 Hm2)) as H31.
    apply Z.leb_le in H31. lia. }
  pose proof (hour12_range _ Hh) as H12.
  set (pm := negb (hour dt <? 12)).
  assert (Hhd :
    hd_error (pattern instagram_format false nothing_found
                      (strftime dt instagram_format))
    = Some (with_p (with_M (with_I (with_Y (with_d
              (with_b nothing_found (month dt)) (day dt)) (year dt))
              (hour12 (hour dt))) (minute dt)) pm, [])).
  { rewrite pattern_instagram, strftime_instagram.
    rewrite (str_int_pad4 (year dt)) by lia.
    eapply group_first; [apply re_b_month; lia|].
    destruct (isspace_pad2_head (day dt)
                (","%char :: " "%char :: pad4 (year dt)
                 ++ " "%char :: pad2 (hour12 (hour dt))
                 ++ ":"%char :: pad2 (minute dt)
                 ++ " "%char :: (if hour dt <? 12 then "AM" : str else "PM" : str)))
      as [c1 [r1 [E1 S1]]]; [lia|].
    eapply group_first; [eapply re_ws_before; [exact E1 | exact S1]|].
    eapply group_first; [apply re_d_pad2; lia|].
    eapply group_first; [apply literal_char|].
    eapply group_first.
    { eapply re_ws_before; [reflexivity|].
      apply isspace_digit. Z.div_mod_to_equations; lia. }
    eapply group_first; [rewrite re_Y_pad4 by lia; reflexivity|].
    destruct (isspace_pad2_head (hour12 (hour dt))
                (":"%char :: pad2 (minute dt)
                 ++ " "%char :: (if hour dt <? 12 then "AM" : str else "PM" : str)))
      as [c2 [r2 [E2 S2]]]; [lia|].
    eapply group_first; [eapply re_ws_before; [exact E2 | exact S2]|].
    eapply group_first; [apply re_I_pad2; lia|].
    eapply group_first; [apply literal_char|].
    eapply group_first; [apply re_M_pad2; lia|].
    unfold pm. destruct (hour dt <? 12).
    - eapply group_first; [eapply re_ws_before; reflexivity|].
      eapply group_first; reflexivity.
    - eapply group_first; [eapply re_ws_before; reflexivity|].
      eapply group_first; reflexivity. }
  unfold strptime.
  destruct (pattern instagram_format false nothing_found
                    (strftime dt instagram_format)) as [|[f r] l];
    [discriminate|].
  injection Hhd as -> ->.
  unfold build. cbn [with_p with_M with_I with_Y with_d with_b nothing_found
                     f_Y f_b f_d f_I f_M f_p default].
  rewrite Hv. f_equal. f_equal.
  pose proof (hour12_back _ Hh) as Hb. unfold pm.
  destruct (hour dt <? 12); exact Hb.
Qed.

(** *** A year of fewer than four digits is not read back *)

Lemma flat_map_nil {A B} (f : A -> list B) (l : list A) :
  (forall x, In x l -> f x = []) -> flat_map f l = [].
Proof.
  induction l as [|x l IH]; intros H; cbn [flat_map]; [reflexivity|].
  rewrite (H x (or_introl eq_refl)), IH; [reflexivity|].
  intros y Hy. apply H. right. exact Hy.
Qed.

Lemma group_single {A} (p : matcher A) (set : found -> A -> found)
      (k : regex) (f : found) (s r : str) (v : A) :
  p s = [(v, r)] -> group p set k f s = k (set f v) r.
Proof. unfold group. intros ->. cbn [flat_map]. apply app_nil_r. Qed.

Lemma group_none {A} (p : matcher A) (set : found -> A -> found)
      (k : regex) (f : found) (s : str) :
  (forall v r, In (v, r) (p s) -> k (set f v) r = []) ->
  group p set k f s = [].
Proof.
  unfold group. intros H. apply flat_map_nil. intros [v r] Hin.
  apply H, Hin.
Qed.

Lemma re_b_only (m : Z) (rest : str) :
  1 <= m <= 12 ->
  re_b (nth (Z.to_nat (m - 1)) month_abbr [] ++ rest) = [(m, rest)].
Proof. intros H. by_cases m 1 12%nat. Qed.

Lemma re_ws_only (c : ascii) (r : str) :
  Py.isspace c = false -> re_ws (" "%char :: c :: r) = [(tt, c :: r)].
Proof. intros H. simpl. rewrite H. reflexivity. Qed.

Lemma one_digit_space (lo hi : Z) (tail : str) :
  one_digit lo hi (" "%char :: tail) = [].
Proof. reflexivity. Qed.

Lemma one_digit_rest (lo hi : Z) (s : str) (v : Z) (r : str) :
  In (v, r) (one_digit lo hi s) ->
  exists c, s = c :: r /\ digit_val c <> None.
Proof.
  unfold one_digit. destruct s as [|c s]; [intros []|].
  destruct (digit_val c) eqn:Ec; [|intros []].
  destruct (between lo hi z); [|intros []].
  intros [H | []]. injection H as _ Hr. subst r.
  exists c. split; [reflexivity | congruence].
Qed.

Lemma then_digit_rest (p : matcher Z) (lo hi : Z) (s : str) (v : Z)
      (r : str) :
  In (v, r) (then_digit p lo hi s) ->
  exists a c, In (a, c :: r) (p s) /\ digit_val c <> None.
Proof.
  unfold then_digit. rewrite in_flat_map. intros [[a r1] [Hp Hin]].
  apply in_map_iff in Hin. destruct Hin as [[b r2] [Heq Hb]].
  injection Heq as _ Hr. subst r2.
  apply one_digit_rest in Hb. destruct Hb as [c [-> Hc]]. eauto.
Qed.

(** [\d\d\d\d] takes four digits. *)
Lemma re_Y_four (s : str) (v : Z) (r : str) :
  In (v, r) (re_Y s) ->
  exists a b c d,
    s = a :: b :: c :: d :: r
    /\ digit_val a <> None /\ digit_val b <> None
    /\ digit_val c <> None /\ digit_val d <> None.
Proof.
  unfold re_Y, two_digits. intros H.
  apply then_digit_rest in H. destruct H as [x3 [d [H Hd]]].
  apply then_digit_rest in H. destruct H as [x2 [c [H Hc]]].
  apply then_digit_rest in H. destruct H as [x1 [b [H Hb]]].
  apply one_digit_rest in H. destruct H as [a [-> Ha]].
  exists a, b, c, d. auto.
Qed.

Lemma re_Y_short (Y tail : str) :
  (List.length Y <= 3)%nat -> re_Y (Y ++ " "%char :: tail) = [].
Proof.
  intros Hl.
  destruct (re_Y (Y ++ " "%char :: tail)) as [|[v r] l] eqn:E;
    [reflexivity|].
  exfalso.
  assert (Hin : In (v, r) (re_Y (Y ++ " "%char :: tail)))
    by (rewrite E; left; reflexivity).
  apply re_Y_four in Hin.
  destruct Hin as [a [b [c [d [Hs [Ha [Hb [Hc Hd]]]]]]]].
  destruct Y as [|y1 [|y2 [|y3 [|y4 Y]]]]; cbn [app List.length] in Hs, Hl;
    [| | | |lia].
  - injection Hs as <-. apply Ha. reflexivity.
  - injection Hs as _ <-. apply Hb. reflexivity.
  - injection Hs as _ _ <-. apply Hc. reflexivity.
  - injection Hs as _ _ _ <-. apply Hd. reflexivity.
Qed.

Lemma re_d_comma (d : Z) (rest : str) (v : Z) (r : str) :
  1 <= d <= 31 ->
  In (v, r) (re_d (pad2 d ++ ","%char :: rest)) ->
  r = ","%char :: rest \/ literal tt [","%char] r = [].
Proof.
  intros Hd. revert v r. pattern d. apply (range_cases _ 1 31%nat); [|lia].
  intros k Hk v r Hin.
  do 31 (destruct k as [|k];
         [vm_compute in Hin;
          repeat (destruct Hin as [Hin|Hin];
                  [injection Hin as <- <-;
                   first [left; reflexivity | right; reflexivity]|]);
          contradiction|]).
  lia.
Qed.

Lemma strptime_short_year (dt : datetime) :
  valid_date (year dt) (month dt) (day dt) = true ->
  year dt < 1000 ->
  strptime (strftime dt instagram_format) instagram_format = None.
Proof.
  intros Hv Hy.
  pose proof Hv as Hv'. unfold valid_date, MINYEAR, MAXYEAR in Hv'.
  rewrite !andb_true_iff, !Z.leb_le in Hv'.
  destruct Hv' as [[[[[Hy1 Hy2] Hm1] Hm2] Hd1] Hd2].
  assert (Hd31 : day dt <= 31).
  { revert Hd2. unfold _days_in_month.
    destruct ((month dt =? 2) && _is_leap (year dt)); [lia|].
    pose proof (month_length_le_31 (month dt) (conj Hm1 Hm2)) as H31.
    apply Z.leb_le in H31. lia. }
  assert (Hp : pattern instagram_format false nothing_found
                       (strftime dt instagram_format) = []).
  { rewrite pattern_instagram, strftime_instagram.
    rewrite (group_single _ _ _ _ _ _ _
               (re_b_only (month dt) _ (conj Hm1 Hm2))).
    destruct (str_int_short (year dt)) as [c [r [E [Hc Hr]]]]; [lia|].
    rewrite E. unfold pad2 at 1. cbn [app].
    assert (Hdig : 0 <= day dt / 10 <= 9) by (Z.div_mod_to_equations; lia).
    rewrite (group_single re_ws keep _ _ _ _ tt
               (re_ws_only (digit (day dt / 10)) _
                  (isspace_digit (day dt / 10) Hdig))).
    apply group_none. intros v r0 Hin.
    apply (re_d_comma (day dt)) in Hin; [|lia].
    destruct Hin as [-> | Hlit].
    - rewrite (group_single (literal tt [","%char]) keep _ _ _ _ tt
                 (literal_full ","%char _)).
      rewrite (group_single re_ws keep _ _ _ _ tt (re_ws_only c _ Hc)).
      unfold group.
      change (c :: r ++ " "%char :: pad2 (hour12 (hour dt))
                ++ ":"%char :: pad2 (minute dt)
                ++ " "%char
                   :: (if hour dt <? 12 then "AM" : str else "PM" : str))
        with ((c :: r) ++ " "%char :: pad2 (hour12 (hour dt))
                ++ ":"%char :: pad2 (minute dt)
                ++ " "%char
                   :: (if hour dt <? 12 then "AM" : str else "PM" : str)).
      rewrite re_Y_short by (cbn [List.length]; lia). reflexivity.
    - unfold group. rewrite Hlit. reflexivity. }
  unfold strptime. rewrite Hp. reflexivity.
Qed.
End CalendarFacts.

(** ** Dates: from the parser to the feed *)

Section DateRoundTrip.
Import Datetime.

Variable utcoffset : Z -> Z.

Abbreviation _format_timestamp :=
  (InstagramJSONParser._format_timestamp utcoffset).
Abbreviation _parse_date := RSSGenerator._parse_date.

Lemma strftime_rfc822_nonempty (dt : datetime) :
  strftime dt rfc822_format <> [].
Proof.
  cbv [rfc822_format list_ascii_of_string strftime Ascii.eqb Bool.eqb
       directive].
  destruct (nth (Z.to_nat (weekday dt)) day_abbr []); discriminate.
Qed.

Lemma strftime_instagram_nonempty (dt : datetime) :
  Py.truthy (strftime dt instagram_format) = true.
Proof.
  rewrite strftime_instagram.
  destruct (nth (Z.to_nat (month dt - 1)) month_abbr []); reflexivity.
Qed.

Lemma parse_date_eq (s : str) :
  _parse_date s
  = if negb (Py.truthy s) then []
    else match strptime s instagram_format with
         | Some dt => strftime dt rfc822_format
         | None => []
         end.
Proof.
  unfold RSSGenerator._parse_date.
  destruct (negb (Py.truthy s)); [reflexivity|].
  change (list_ascii_of_string "%b %d, %Y %I:%M %p") with instagram_format.
  destruct (strptime s instagram_format); reflexivity.
Qed.

Lemma localtime_valid (t : Z) (dt : datetime) :
  fromtimestamp utcoffset t = Ok dt ->
  dt = gmtime (t + utcoffset t)
  /\ valid_date (year dt) (month dt) (day dt) = true
  /\ 0 <= hour dt <= 23 /\ 0 <= minute dt <= 59.
Proof.
  intros H. pose proof (fromtimestamp_result utcoffset t) as Hr.
  rewrite H in Hr. destruct Hr as [_ [-> Hy]]. unfold localtime in *.
  pose proof (gmtime_fields (t + utcoffset t)) as Hf. cbv zeta in Hf.
  split; [reflexivity|]. split; [|lia].
  unfold valid_date. rewrite !andb_true_iff, !Z.leb_le. lia.
Qed.

Lemma format_timestamp_ok (t : Z) (dt : datetime) :
  t <> 0 -> fromtimestamp utcoffset t = Ok dt ->
  _format_timestamp t = Ok (strftime dt instagram_format).
Proof.
  intros Ht Hc. unfold InstagramJSONParser._format_timestamp, Py.truthy_int.
  destruct (Z.eqb_spec t 0) as [E|_]; [contradiction|]. cbn [negb].
  rewrite Hc. reflexivity.
Qed.

(** C3, as the program has it.  For a timestamp that is not zero and
    can be converted, of a local year from 1000 on, the feed date of
    the date string the parser formats is the RFC-822 date, not empty,
    of the local wall-clock time of the timestamp with the seconds
    dropped, marked [+0000]: it denotes the instant of the timestamp
    shifted by the local offset and reduced to the minute, which is
    the instant of the timestamp reduced to the minute when local time
    is UTC.  For a local year before 1000 the year is written with
    fewer than four digits and the feed date is empty.  For a string
    the pattern does not match, as for [Unknown date], the feed date
    is empty. *)
Theorem C3_feed_date_of_formatted_date (t : Z) (dt : datetime) :
  t <> 0 ->
  fromtimestamp utcoffset t = Ok dt ->
  exists date,
    _format_timestamp t = Ok date
    /\ (1000 <= year dt ->
        _parse_date date
        = strftime (gmtime (60 * ((t + utcoffset t) / 60))) rfc822_format
        /\ _parse_date date <> []
        /\ (utcoffset t = 0 ->
            _parse_date date
            = strftime (gmtime (60 * (t / 60))) rfc822_format))
    /\ (year dt < 1000 -> _parse_date date = [])
    /\ (forall s, strptime s instagram_format = None -> _parse_date s = [])
    /\ _parse_date "Unknown date" = [].
Proof.
  intros Ht Hc. exists (strftime dt instagram_format).
  split; [apply format_timestamp_ok; assumption|].
  destruct (localtime_valid t dt Hc) as [Edt [Hv [Hh Hm]]].
  split; [|split; [|split]].
  - intros Hy.
    assert (Hmain : _parse_date (strftime dt instagram_format)
                    = strftime (gmtime (60 * ((t + utcoffset t) / 60)))
                               rfc822_format).
    { rewrite parse_date_eq, strftime_instagram_nonempty. cbn [negb].
      rewrite (strptime_strftime dt Hv Hh Hm Hy).
      rewrite gmtime_floor_minute, <- Edt. reflexivity. }
    split; [exact Hmain|]. split.
    + rewrite Hmain. apply strftime_rfc822_nonempty.
    + intros E0. rewrite Hmain, E0, Z.add_0_r. reflexivity.
  - intros Hy. rewrite parse_date_eq, strftime_instagram_nonempty.
    cbn [negb]. rewrite (strptime_short_year dt Hv Hy). reflexivity.
  - intros s Hs. rewrite parse_date_eq, Hs.
    destruct (negb (Py.truthy s)); reflexivity.
  - vm_compute. reflexivity.
Qed.
End DateRoundTrip.

(** The specification has the feed date denote the instant of the timestamp,
    reduced to the minute.  It fails where local time is not UTC: two
    hours ahead of it, the timestamp of 22 Aug 2025 08:18:25 UTC is
    formatted as [Aug 22, 2025 10:18 AM] and comes back as
    [Fri, 22 Aug 2025 10:18:00 +0000], two hours after the instant.
    It fails also before the year 1000, in any zone: the last minute
    of the year 999 is formatted as [Dec 31, 999 11:59 PM], and the
    feed date of this string is empty. *)
Lemma C3_counterexample :
  let utcoffset := fun _ : Z => 7200 in
  let t := 1755850705 in
  let utc := fun _ : Z => 0 in
  let t999 := -30610224001 in
  t <> 0
  /\ Datetime.fromtimestamp utcoffset t
     = Ok (Datetime.mkdt 2025 8 22 10 18 25)
  /\ InstagramJSONParser._format_timestamp utcoffset t
     = Ok ("Aug 22, 2025 10:18 AM" : str)
  /\ RSSGenerator._parse_date "Aug 22, 2025 10:18 AM"
     = ("Fri, 22 Aug 2025 10:18:00 +0000" : str)
  /\ Datetime.strftime (Datetime.gmtime (60 * (t / 60)))
                       Datetime.rfc822_format
     = ("Fri, 22 Aug 2025 08:18:00 +0000" : str)
  /\ t999 <> 0
  /\ Datetime.fromtimestamp utc t999
     = Ok (Datetime.mkdt 999 12 31 23 59 59)
  /\ InstagramJSONParser._format_timestamp utc t999
     = Ok ("Dec 31, 999 11:59 PM" : str)
  /\ RSSGenerator._parse_date "Dec 31, 999 11:59 PM" = [].
Proof.
  cbv zeta.
  split; [discriminate|].
  split; [vm_compute; reflexivity|].
  split; [vm_compute; reflexivity|].
  split; [vm_compute; reflexivity|].
  split; [vm_compute; reflexivity|].
  split; [discriminate|].
  split; [vm_compute; reflexivity|].
  split; [vm_compute; reflexivity|].
  vm_compute. reflexivity.
Qed.


(** ** The properties on the example data *)


Lemma C6_witness :
  InstagramJSONParser._parse_post ex_codec ex_utc ex_record
    = Ok (Some ex_post)
  /\ InstagramJSONParser.latitude ex_post = Some (105 # 2)
  /\ InstagramJSONParser.longitude ex_post = Some (67 # 5).
Proof.
  assert (Hp : InstagramJSONParser._parse_post ex_codec ex_utc ex_record
               = Ok (Some ex_post)) by (vm_compute; reflexivity).
  destruct (C6_first_exif_wins ex_codec ex_utc ex_record ex_post Hp)
    as [Hlat [Hlon _]].
  split; [exact Hp|]. split.
  - apply (Hlat [ex_exif (Some 0%Q) (Some (67 # 5))]
                (ex_exif (Some (105 # 2)) (Some (99 # 1)))
                [ex_exif (Some (1 # 1)) None]).
    + reflexivity.
    + intros x [<-|[]]. reflexivity.
    + reflexivity.
  - apply (Hlon []
                (ex_exif (Some 0%Q) (Some (67 # 5)))
                [ex_exif (Some (105 # 2)) (Some (99 # 1));
                 ex_exif (Some (1 # 1)) None]).
    + reflexivity.
    + intros x [].
    + reflexivity.
Defined.

Lemma C7_witness :
  InstagramParser.extract_title ex_div <> []
  /\ InstagramParser.extract_images ex_div = []
  /\ InstagramParser._parse_post_div ex_float ex_div = Some ex_html_post
  /\ InstagramParser.parsed ex_float [ex_div] = [ex_html_post].
Proof.
  assert (Ht : InstagramParser.extract_title ex_div <> [])
    by (vm_compute; discriminate).
  assert (Hi : InstagramParser.extract_images ex_div = [])
    by (vm_compute; reflexivity).
  destruct (proj2 (C7_dropped_iff_no_images_no_title ex_float) ex_div Ht Hi)
    as [p [Hp [_ [_ Hrest]]]].
  assert (Hq : InstagramParser._parse_post_div ex_float ex_div
               = Some ex_html_post) by (vm_compute; reflexivity).
  assert (p = ex_html_post) by congruence. subst p.
  split; [exact Ht|]. split; [exact Hi|]. split; [exact Hp|].
  rewrite (Hrest []). reflexivity.
Defined.

Lemma C10_witness :
  InstagramParser._parse_post_div ex_float ex_div = Some ex_html_post
  /\ InstagramParser.scanned_rows ex_div
     = [ex_row "Latitude" "48.1"] ++ ex_row "Latitude" " 52.5 "
       :: [ex_row "Latitude" "n/a"; ex_row "Longitude" "13.4"]
  /\ InstagramParser.latitude ex_html_post = Some (525 # 10).
Proof.
  assert (Hp : InstagramParser._parse_post_div ex_float ex_div
               = Some ex_html_post) by (vm_compute; reflexivity).
  assert (Hr : InstagramParser.scanned_rows ex_div
               = [ex_row "Latitude" "48.1"] ++ ex_row "Latitude" " 52.5 "
                 :: [ex_row "Latitude" "n/a"; ex_row "Longitude" "13.4"])
    by (vm_compute; reflexivity).
  split; [exact Hp|]. split; [exact Hr|].
  destruct (C10_last_row_wins ex_float ex_div ex_html_post Hp)
    as [Hlat _].
  apply (Hlat _ _ _ (525 # 10) Hr).
  - exists ("52.5" : str). split; [vm_compute; reflexivity|].
    split; [discriminate | vm_compute; reflexivity].
  - intros r' [<-|[<-|[]]] x [v [Hv [_ Hf]]];
      vm_compute in Hv; injection Hv as <-; vm_compute in Hf;
      discriminate.
Defined.


Lemma C2_witness :
  Py.len ex_title90 = 90
  /\ SiteGenerator.first_at ex_title90 ". " 30
  /\ SiteGenerator._truncate_title ex_title90 60
     = ("A long walk through the forest." : str).
Proof.
  assert (Hl : Py.len ex_title90 = 90) by reflexivity.
  assert (Hf : SiteGenerator.first_at ex_title90 ". " 30)
    by (apply find_first_at; reflexivity).
  split; [exact Hl|]. split; [exact Hf|].
  rewrite (proj2 (proj2 (C2_page_title_truncation ex_title90)) Hl Hf).
  reflexivity.
Defined.

Lemma C3_witness :
  1755850705 <> 0
  /\ Datetime.fromtimestamp ex_utc 1755850705
     = Ok (Datetime.mkdt 2025 8 22 8 18 25)
  /\ InstagramJSONParser._format_timestamp ex_utc 1755850705
     = Ok ("Aug 22, 2025 08:18 AM" : str)
  /\ RSSGenerator._parse_date "Aug 22, 2025 08:18 AM"
     = ("Fri, 22 Aug 2025 08:18:00 +0000" : str).
Proof.
  assert (H1 : 1755850705 <> 0) by discriminate.
  assert (H2 : Datetime.fromtimestamp ex_utc 1755850705
               = Ok (Datetime.mkdt 2025 8 22 8 18 25))
    by (vm_compute; reflexivity).
  assert (H3 : InstagramJSONParser._format_timestamp ex_utc 1755850705
               = Ok ("Aug 22, 2025 08:18 AM" : str))
    by (vm_compute; reflexivity).
  split; [exact H1|]. split; [exact H2|]. split; [exact H3|].
  destruct (C3_feed_date_of_formatted_date ex_utc 1755850705 _ H1 H2)
    as [date [Hd [Hy _]]].
  assert (date = ("Aug 22, 2025 08:18 AM" : str)) by congruence. subst date.
  destruct (Hy ltac:(vm_compute; discriminate)) as [_ [_ H0]].
  rewrite (H0 eq_refl). vm_compute. reflexivity.
Defined.


(** ** Further examples *)

Example extract_hashtags_example :
  InstagramJSONParser._extract_hashtags " #a#b c# d #A"
  = ("c# d" : str, ["a" : str; "b" : str]).
Proof. vm_compute. reflexivity. Qed.

Example sort_example :
  Py.sort fst true [(1, "a"); (3, "b"); (1, "c"); (3, "d"); (2, "e")]
  = [(3, "b"); (3, "d"); (2, "e"); (1, "a"); (1, "c")].
Proof. reflexivity. Qed.

Example strptime_example :
  Datetime.strptime "aug 2, 2025 8:18 pm" Datetime.instagram_format
  = Some (Datetime.mkdt 2025 8 2 20 18 0)
  /\ Datetime.strptime "Feb 30, 2025 8:18 pm" Datetime.instagram_format = None
  /\ Datetime.strptime "Aug 22, 2025 08:18 AM." Datetime.instagram_format
     = None.
Proof. repeat split; vm_compute; reflexivity. Qed.

Example feed_truncate_example :
  RSSGenerator._truncate_title ex_title 30
  = ("Wow. We spent the whole day..." : str).
Proof. vm_compute. reflexivity. Qed.

Example selection_example :
  GenerateSite.selected_posts
    (Some [2; 0; 2; -1; 7])
    [SiteGenerator.FromJSON ex_post; SiteGenerator.FromJSON ex_post;
     SiteGenerator.FromJSON ex_post]
  = Ok [2%nat; 0%nat; 2%nat].
Proof. vm_compute. reflexivity. Qed.

(** * Further properties of the code *)

(** ** Hashtags: what is found and what is kept *)

Section HashtagListFacts.
Import Re.

Lemma run_all (f : ascii -> bool) (s : str) :
  forallb f (run f s) = true.
Proof.
  induction s as [|c s IH]; simpl; [reflexivity|].
  destruct (f c) eqn:E; simpl; [rewrite E; exact IH | reflexivity].
Qed.

Lemma run_split (f : ascii -> bool) (s : str) :
  s = run f s ++ skipn (List.length (run f s)) s.
Proof.
  induction s as [|c s IH]; simpl; [reflexivity|].
  destruct (f c); simpl; [f_equal; exact IH | reflexivity].
Qed.

(** A match of [#(\w+)]: the word, what it is made of and what follows. *)
Lemma match_tag_shape (s w : str) :
  match_tag s = Some w ->
  w <> [] /\ forallb Py.isword w = true
  /\ exists b, s = "#"%char :: w ++ b /\ word_free_head b.
Proof.
  destruct s as [|c r]; simpl; [discriminate|].
  destruct (Ascii.eqb c "#") eqn:Ec; [|discriminate].
  apply Ascii.eqb_eq in Ec. subst c.
  destruct (run Py.isword r) as [|d w'] eqn:E; [discriminate|].
  intros [= <-]. split; [discriminate|]. split.
  - rewrite <- E. apply run_all.
  - exists (skipn (List.length (d :: w')) r). split.
    + f_equal. rewrite <- E. apply run_split.
    + unfold word_free_head. rewrite <- E. apply run_rest.
Qed.

Lemma findall_from_shape (s : str) (skip : nat) (w : str) :
  In w (findall_tag_from skip s) ->
  w <> [] /\ forallb Py.isword w = true
  /\ exists a b, s = a ++ "#"%char :: w ++ b /\ word_free_head b.
Proof.
  revert skip. induction s as [|c r IH]; intros skip; [intros []|].
  cbn [findall_tag_from].
  assert (Hrec : forall k, In w (findall_tag_from k r) ->
                           w <> [] /\ forallb Py.isword w = true
                           /\ exists a b, c :: r = a ++ "#"%char :: w ++ b
                                          /\ word_free_head b).
  { intros k Hk. destruct (IH k Hk) as [H1 [H2 [a [b [E Hb]]]]].
    split; [exact H1|]. split; [exact H2|].
    exists (c :: a), b. split; [simpl; f_equal; exact E | exact Hb]. }
  destruct skip as [|k]; [|apply Hrec].
  destruct (match_tag (c :: r)) as [w0|] eqn:Em; [|apply Hrec].
  intros [<-|Hin]; [|eapply Hrec, Hin].
  destruct (match_tag_shape _ _ Em) as [H1 [H2 [b [E Hb]]]].
  split; [exact H1|]. split; [exact H2|].
  exists [], b. split; [exact E | exact Hb].
Qed.

Lemma no_hash_no_match (s : str) :
  ~ In "#"%char s -> match_ws_tag s = None.
Proof.
  induction s as [|c r IH]; intros Hn; [reflexivity|].
  cbn [match_ws_tag]. unfold match_tag.
  destruct (Ascii.eqb c "#") eqn:Ec.
  - apply Ascii.eqb_eq in Ec. exfalso. apply Hn. left. auto.
  - simpl option_map. rewrite IH by (intros H; apply Hn; right; exact H).
    destruct (Py.isspace c); reflexivity.
Qed.

Lemma no_hash_sub (s : str) :
  ~ In "#"%char s -> sub_ws_tag_from 0 s = s.
Proof.
  induction s as [|c r IH]; intros Hn; [reflexivity|].
  cbn [sub_ws_tag_from]. rewrite (no_hash_no_match _ Hn).
  f_equal. apply IH. intros H. apply Hn. right. exact H.
Qed.

Lemma no_hash_findall (s : str) (skip : nat) :
  ~ In "#"%char s -> findall_tag_from skip s = [].
Proof.
  intros Hn.
  destruct (findall_tag_from skip s) as [|w l] eqn:E; [reflexivity|].
  exfalso.
  destruct (findall_from_shape s skip w) as [_ [_ [a [b [Es _]]]]].
  { rewrite E. left. reflexivity. }
  apply Hn. rewrite Es. apply in_elt.
Qed.

(** *** Trimming *)

Lemma lstrip_head (s : str) :
  match Py.lstrip s with
  | [] => True
  | c :: _ => Py.isspace c = false
  end.
Proof.
  induction s as [|c s IH]; simpl; [exact I|].
  destruct (Py.isspace c) eqn:E; [exact IH | exact E].
Qed.

Lemma lstrip_fixed (s : str) :
  match s with [] => True | c :: _ => Py.isspace c = false end ->
  Py.lstrip s = s.
Proof. destruct s as [|c s]; simpl; [reflexivity|]. intros ->. reflexivity. Qed.

Lemma lstrip_idem (s : str) : Py.lstrip (Py.lstrip s) = Py.lstrip s.
Proof. apply lstrip_fixed, lstrip_head. Qed.

Lemma rstrip_idem (s : str) : Py.rstrip (Py.rstrip s) = Py.rstrip s.
Proof.
  unfold Py.rstrip. rewrite rev_involutive, lstrip_idem. reflexivity.
Qed.

Lemma rstrip_keeps_head (s : str) :
  match s with [] => True | c :: _ => Py.isspace c = false end ->
  match Py.rstrip s with [] => True | c :: _ => Py.isspace c = false end.
Proof.
  intros H. destruct (rstrip_prefix s) as [b Hb].
  destruct (Py.rstrip s) as [|c r]; [exact I|].
  rewrite Hb in H. exact H.
Qed.

Lemma strip_idem (s : str) : Py.strip (Py.strip s) = Py.strip s.
Proof.
  unfold Py.strip.
  rewrite (lstrip_fixed (Py.rstrip (Py.lstrip s))).
  - apply rstrip_idem.
  - apply rstrip_keeps_head, lstrip_head.
Qed.

(** *** The list of hashtags *)

Lemma existsb_str_In (tag : str) (seen : list str) :
  existsb (Py.str_eqb tag) seen = true <-> In tag seen.
Proof.
  rewrite existsb_exists. split.
  - intros [x [Hx E]]. apply str_eqb_eq in E. subst x. exact Hx.
  - intros H. exists tag. split; [exact H | apply str_eqb_eq; reflexivity].
Qed.

Lemma unique_spec (tags seen : list str) :
  let kept := InstagramJSONParser.unique seen tags in
  NoDup (map Py.lower kept)
  /\ (forall u, In u kept -> ~ In (Py.lower u) seen)
  /\ (forall t, In t tags ->
                In (Py.lower t) seen \/ In (Py.lower t) (map Py.lower kept))
  /\ (forall u, In u kept ->
                exists l1 l2,
                  tags = l1 ++ u :: l2
                  /\ forall x, In x l1 -> Py.lower x <> Py.lower u).
Proof.
  revert seen. induction tags as [|tag rest IH]; intros seen; cbv zeta.
  - simpl. split; [constructor|]. split; [intros u []|].
    split; [intros t [] | intros u []].
  - cbn [InstagramJSONParser.unique].
    destruct (existsb (Py.str_eqb (Py.lower tag)) seen) eqn:E.
    + apply existsb_str_In in E.
      destruct (IH seen) as [H1 [H2 [H3 H4]]].
      split; [exact H1|]. split; [exact H2|]. split.
      * intros t [<-|Ht]; [left; exact E | apply H3, Ht].
      * intros u Hu. destruct (H4 u Hu) as [l1 [l2 [-> Hl]]].
        exists (tag :: l1), l2. split; [reflexivity|].
        intros x [<-|Hx]; [|apply Hl, Hx].
        intros Ex. apply (H2 u Hu). rewrite <- Ex. exact E.
    + assert (En : ~ In (Py.lower tag) seen).
      { intros H. apply existsb_str_In in H. congruence. }
      destruct (IH (Py.lower tag :: seen)) as [H1 [H2 [H3 H4]]].
      split; [|split; [|split]].
      * simpl. constructor; [|exact H1].
        intros Hin. apply in_map_iff in Hin. destruct Hin as [u [Eu Hu]].
        apply (H2 u Hu). left. symmetry. exact Eu.
      * intros u [<-|Hu]; [exact En|].
        intros Hin. apply (H2 u Hu). right. exact Hin.
      * intros t [<-|Ht]; [right; left; reflexivity|].
        destruct (H3 t Ht) as [[Et|Hs]|Hk].
        -- right. left. exact Et.
        -- left. exact Hs.
        -- right. right. exact Hk.
      * intros u [<-|Hu].
        -- exists [], rest. split; [reflexivity | intros x []].
        -- destruct (H4 u Hu) as [l1 [l2 [-> Hl]]].
           exists (tag :: l1), l2. split; [reflexivity|].
           intros x [<-|Hx]; [|apply Hl, Hx].
           intros Ex. apply (H2 u Hu). left. exact Ex.
Qed.

Lemma unique_same (tags seen : list str) :
  RSSGenerator.unique seen tags = InstagramJSONParser.unique seen tags.
Proof.
  revert seen. induction tags as [|tag rest IH]; intros seen; simpl;
    [reflexivity|].
  rewrite !IH. reflexivity.
Qed.

Lemma extract_hashtags_eq (text : str) :
  snd (InstagramJSONParser._extract_hashtags text)
  = InstagramJSONParser.unique [] (findall_tag text).
Proof.
  unfold InstagramJSONParser._extract_hashtags.
  destruct text; reflexivity.
Qed.

(** X1.  The hashtags of a text hold no two tags that are equal up to
    case; every tag found in the text is there up to case; and each one
    kept is the first of its spelling class among the tags found, in
    the spelling it has there. *)
Theorem X1_hashtags_unique_first_seen (text : str) :
  let tags := snd (InstagramJSONParser._extract_hashtags text) in
  NoDup (map Py.lower tags)
  /\ (forall t, In t (findall_tag text) ->
                In (Py.lower t) (map Py.lower tags))
  /\ (forall u, In u tags ->
                exists l1 l2,
                  findall_tag text = l1 ++ u :: l2
                  /\ forall x, In x l1 -> Py.lower x <> Py.lower u).
Proof.
  cbv zeta. rewrite extract_hashtags_eq.
  destruct (unique_spec (findall_tag text) []) as [H1 [_ [H3 H4]]].
  split; [exact H1|]. split; [|exact H4].
  intros t Ht. destruct (H3 t Ht) as [[]|H]. exact H.
Qed.

(** X2.  The feed generator and the parser extract the same hashtags
    from a text. *)
Theorem X2_extractions_agree (text : str) :
  RSSGenerator._extract_hashtags text
  = snd (InstagramJSONParser._extract_hashtags text).
Proof.
  rewrite extract_hashtags_eq. unfold RSSGenerator._extract_hashtags.
  destruct text as [|c text]; [reflexivity|].
  cbn [Py.truthy negb]. apply unique_same.
Qed.

(** X3.  Every hashtag is a non-empty run of word characters that
    stands in the text right after a [#] and goes on as far as word
    characters go. *)
Theorem X3_hashtag_is_word_after_hash (text w : str) :
  In w (snd (InstagramJSONParser._extract_hashtags text)) ->
  w <> [] /\ forallb Py.isword w = true
  /\ exists a b, text = a ++ "#"%char :: w ++ b /\ word_free_head b.
Proof.
  rewrite extract_hashtags_eq. intros Hw.
  destruct (unique_spec (findall_tag text) []) as [_ [_ [_ H4]]].
  destruct (H4 w Hw) as [l1 [l2 [E _]]].
  apply (findall_from_shape text 0 w).
  unfold findall_tag in E. rewrite E. apply in_elt.
Qed.

(** X4.  The cleaned text never starts or ends with white space, and a
    text without [#] is only trimmed and has no hashtag. *)
Theorem X4_cleaned_text_trimmed (text : str) :
  Py.strip (fst (InstagramJSONParser._extract_hashtags text))
  = fst (InstagramJSONParser._extract_hashtags text)
  /\ (~ In "#"%char text ->
      InstagramJSONParser._extract_hashtags text = (Py.strip text, [])).
Proof.
  unfold InstagramJSONParser._extract_hashtags.
  destruct text as [|c text]; cbn [Py.truthy negb fst].
  - split; reflexivity.
  - split; [apply strip_idem|].
    intros Hn. unfold sub_ws_tag, findall_tag.
    rewrite (no_hash_sub _ Hn), (no_hash_findall _ 0 Hn). reflexivity.
Qed.
End HashtagListFacts.

(** ** Titles: how long and of what shape *)

Section TruncateBounds.

Lemma rsplit1_head_prefix (s : str) (sep : ascii) :
  exists t, s = Py.rsplit1_head s sep ++ t.
Proof.
  unfold Py.rsplit1_head.
  pose proof (before_last_spec sep s) as H.
  destruct (Py.before_last sep s) as [h|].
  - destruct H as [t [E _]]. exists (sep :: t). exact E.
  - exists []. symmetry. apply app_nil_r.
Qed.

Lemma prefix_firstn {A} (l h t : list A) (n : nat) :
  firstn n l = h ++ t -> h = firstn (List.length h) l.
Proof.
  intros E.
  rewrite <- (firstn_skipn n l). rewrite E, <- app_assoc.
  rewrite firstn_app, Nat.sub_diag, firstn_all. simpl.
  symmetry. apply app_nil_r.
Qed.

Lemma len_app {A} (a b : list A) : Py.len (a ++ b) = Py.len a + Py.len b.
Proof. unfold Py.len. rewrite length_app. lia. Qed.

Lemma len_firstn {A} (l : list A) (n : nat) :
  Py.len (firstn n l) <= Z.of_nat n.
Proof. unfold Py.len. pose proof (firstn_le_length n l). lia. Qed.

(** The word-boundary cut shared by both policies. *)
Lemma word_cut (text : str) (n : nat) :
  let r := Py.rsplit1_head (firstn n text) " " ++ "..." in
  (forall h t, firstn n text = h ++ " "%char :: t -> ~ In " "%char t ->
               r = h ++ "...")
  /\ (~ In " "%char (firstn n text) -> r = firstn n text ++ "...")
  /\ Py.len r <= Z.of_nat n + 3
  /\ exists k, r = firstn k text ++ "...".
Proof.
  cbv zeta. split; [|split; [|split]].
  - intros h t E Ht. rewrite (rsplit1_head_last _ h t _ E Ht). reflexivity.
  - intros Hn. rewrite (rsplit1_head_none _ _ Hn). reflexivity.
  - destruct (rsplit1_head_prefix (firstn n text) " ") as [t Ht].
    pose proof (len_firstn text n) as Hl. rewrite Ht, len_app in Hl.
    rewrite len_app. change (Py.len (list_ascii_of_string "...")) with 3.
    unfold Py.len in *. lia.
  - destruct (rsplit1_head_prefix (firstn n text) " ") as [t Ht].
    exists (List.length (Py.rsplit1_head (firstn n text) " ")).
    f_equal. eapply prefix_firstn. exact Ht.
Qed.

(** X5.  The feed title of a text no longer than the limit is the
    text.  A longer text is cut before the last space of its first
    [max_length] characters, or after these when they hold no space,
    and [...] is added: the title is a prefix of the text followed by
    [...], and at most [max_length + 3] characters long. *)
Theorem X5_feed_title (text : str) (max_length : Z) :
  0 <= max_length ->
  let r := RSSGenerator._truncate_title text max_length in
  let n := Z.to_nat max_length in
  (Py.len text <= max_length -> r = text)
  /\ (max_length < Py.len text ->
      (forall h t, firstn n text = h ++ " "%char :: t -> ~ In " "%char t ->
                   r = h ++ "...")
      /\ (~ In " "%char (firstn n text) -> r = firstn n text ++ "...")
      /\ Py.len r <= max_length + 3
      /\ exists k, r = firstn k text ++ "...").
Proof.
  intros Hm. cbv zeta. unfold RSSGenerator._truncate_title. split.
  - intros Hl. destruct (Z.leb_spec (Py.len text) max_length);
      [reflexivity | lia].
  - intros Hl. destruct (Z.leb_spec (Py.len text) max_length); [lia|].
    assert (E : Py.slice_to text max_length
                = firstn (Z.to_nat max_length) text).
    { rewrite <- (Z2Nat.id max_length) at 1 by lia. apply slice_to_nat. }
    rewrite E.
    pose proof (word_cut text (Z.to_nat max_length)) as Hw. cbv zeta in Hw.
    rewrite Z2Nat.id in Hw by lia. exact Hw.
Qed.

Lemma slice_to_pos {A} (s : list A) (n : Z) :
  0 <= n -> Py.slice_to s n = firstn (Z.to_nat n) s.
Proof.
  intros Hn. rewrite <- (Z2Nat.id n) at 1 by lia. apply slice_to_nat.
Qed.

Lemma sentence_cut_shape (text : str) (max_length : Z) (ds : list str)
      (cut : str) :
  SiteGenerator.sentence_cut text max_length ds = Some cut ->
  exists k, (16 <= k)%nat /\ Z.of_nat k <= max_length + 1
            /\ cut = firstn k text.
Proof.
  induction ds as [|d ds IH]; simpl; [discriminate|].
  destruct ((15 <=? Py.find text d) && (Py.find text d <=? max_length))
    eqn:E; [|exact IH].
  apply andb_true_iff in E. destruct E as [E1 E2].
  apply Z.leb_le in E1, E2. intros [= <-].
  exists (Z.to_nat (Py.find text d + 1)).
  split; [lia|]. split; [lia|]. apply slice_to_pos. lia.
Qed.

Lemma firstn_nonempty {A} (l : list A) (k : nat) :
  l <> [] -> (1 <= k)%nat -> firstn k l <> [].
Proof.
  destruct l as [|x l]; [congruence|].
  destruct k as [|k]; [lia|]. discriminate.
Qed.

(** X6.  The page title, for any limit that is not negative: a text no
    longer than the limit is returned as it is; the title is always a
    prefix of the text, or one followed by [...]; it is at most
    [max_length + 3] characters long; and it is empty only when the text
    is. *)
Theorem X6_page_title_shape (text : str) (max_length : Z) :
  0 <= max_length ->
  let r := SiteGenerator._truncate_title text max_length in
  (Py.len text <= max_length -> r = text)
  /\ (exists k, r = firstn k text \/ r = firstn k text ++ "...")
  /\ Py.len r <= max_length + 3
  /\ (text <> [] -> r <> []).
Proof.
  intros Hm. cbv zeta. unfold SiteGenerator._truncate_title.
  destruct (Z.leb_spec (Py.len text) max_length) as [Hl|Hl].
  { split; [reflexivity|]. split; [|split; [lia | auto]].
    exists (List.length text). left. symmetry. apply firstn_all. }
  split; [lia|].
  destruct (SiteGenerator.sentence_cut
              text max_length [". " : str; "! " : str; "? " : str])
    as [cut|] eqn:Ec.
  { destruct (sentence_cut_shape _ _ _ _ Ec) as [k [Hk1 [Hk2 ->]]].
    split; [exists k; left; reflexivity|].
    split; [pose proof (len_firstn text k); lia|].
    intros Ht. apply firstn_nonempty; [exact Ht | lia]. }
  destruct ((15 <=? Py.find text ", ") && (Py.find text ", " <=? max_length))
    eqn:E.
  { apply andb_true_iff in E. destruct E as [E1 E2].
    apply Z.leb_le in E1, E2.
    rewrite slice_to_pos by lia.
    split; [eexists; left; reflexivity|].
    split; [pose proof (len_firstn text (Z.to_nat (Py.find text ", "))); lia|].
    intros Ht. apply firstn_nonempty; [exact Ht | lia]. }
  destruct (Z.gtb_spec (Py.len text) max_length); [|lia].
  rewrite slice_to_pos by lia.
  pose proof (word_cut text (Z.to_nat max_length)) as Hw. cbv zeta in Hw.
  destruct Hw as [_ [_ [Hlen [k Hk]]]].
  split; [exists k; right; exact Hk|].
  split; [lia|].
  intros _ En. apply app_eq_nil in En. destruct En as [_ En]. discriminate.
Qed.
End TruncateBounds.

(** ** The date of a post *)

(** Splits a goal on an integer between [lo] and [lo + n - 1] into its
    cases, each of which holds by computation. *)
Ltac cases_between x lo n :=
  pattern x; apply (range_cases _ lo n); [|lia];
  let k := fresh "k" in
  let Hk := fresh "Hk" in
  intros k Hk;
  repeat (destruct k as [|k]; [reflexivity | try (exfalso; lia)]).

Section FormatTimestampFacts.
Import Datetime.

Variable utcoffset : Z -> Z.

Lemma month_abbr_length (m : Z) :
  1 <= m <= 12 -> List.length (nth (Z.to_nat (m - 1)) month_abbr []) = 3%nat.
Proof. intros H. cases_between m 1 12%nat. Qed.

(** The year of a date, as [%Y] writes it: one to four digits. *)
Definition year_text (s : str) : bool :=
  match s with
  | [] => false
  | _ :: r =>
      forallb (fun a => negb (Py.isspace a) && negb (Ascii.eqb "," a)) s
      && (List.length r <=? 3)%nat
  end.

Lemma str_int_year (y : Z) :
  1 <= y <= 9999 -> year_text (Py.str_int y) = true.
Proof.
  intros Hy.
  apply (range_forallb (fun y => year_text (Py.str_int y))
                       1 (Z.to_nat 9999)); [vm_compute; reflexivity | lia].
Qed.

Lemma str_int_year_length (y : Z) :
  1 <= y <= 9999 ->
  1 <= Py.len (Py.str_int y) <= 4
  /\ (1000 <= y -> Py.len (Py.str_int y) = 4).
Proof.
  intros Hy. split.
  - pose proof (str_int_year y Hy) as H. unfold year_text in H.
    destruct (Py.str_int y) as [|c r]; [discriminate|].
    apply andb_true_iff in H. destruct H as [_ H].
    apply Nat.leb_le in H. unfold Py.len. cbn [List.length]. lia.
  - intros H. rewrite str_int_pad4 by lia. reflexivity.
Qed.

Lemma strftime_instagram_length (dt : datetime) :
  1 <= month dt <= 12 ->
  Py.len (strftime dt instagram_format)
  = 17 + Py.len (Py.str_int (year dt)).
Proof.
  intros Hm. rewrite strftime_instagram. unfold Py.len.
  rewrite length_app, (month_abbr_length _ Hm).
  unfold pad2. cbn [app List.length]. rewrite length_app.
  destruct (hour dt <? 12); cbn [List.length list_ascii_of_string]; lia.
Qed.

(** X7.  Formatting a timestamp fails, with [OverflowError], exactly when
    the timestamp lies outside the range of [time_t].  The date is the
    sentinel [Unknown date] exactly when the timestamp is zero or its
    conversion fails with [ValueError] or [OSError].  The date of a
    timestamp that is not zero and can be converted is a text of 17
    characters and the digits of the year: 18 to 21 characters, and 21
    from the year 1000 on. *)
Theorem X7_unknown_date_iff (t : Z) :
  (forall e,
      InstagramJSONParser._format_timestamp utcoffset t = Raise e
      <-> e = OverflowError /\ ~ in_time_t t)
  /\ (InstagramJSONParser._format_timestamp utcoffset t
      = Ok ("Unknown date" : str)
      <-> t = 0
          \/ fromtimestamp utcoffset t = Raise ValueError
          \/ fromtimestamp utcoffset t = Raise OSError)
  /\ (forall dt,
         t <> 0 -> fromtimestamp utcoffset t = Ok dt ->
         exists s,
           InstagramJSONParser._format_timestamp utcoffset t = Ok s
           /\ Py.len s = 17 + Py.len (Py.str_int (year dt))
           /\ 18 <= Py.len s <= 21
           /\ (1000 <= year dt -> Py.len s = 21)).
Proof.
  split; [intros e; apply format_timestamp_raises|].
  assert (Hlen : forall dt,
             fromtimestamp utcoffset t = Ok dt ->
             Py.len (strftime dt instagram_format)
             = 17 + Py.len (Py.str_int (year dt))
             /\ 18 <= Py.len (strftime dt instagram_format) <= 21
             /\ (1000 <= year dt ->
                 Py.len (strftime dt instagram_format) = 21)).
  { intros dt Ef.
    destruct (localtime_valid utcoffset t dt Ef) as [_ [Hv _]].
    unfold valid_date, MINYEAR, MAXYEAR in Hv.
    rewrite !andb_true_iff, !Z.leb_le in Hv.
    assert (Hm : 1 <= month dt <= 12) by lia.
    destruct (str_int_year_length (year dt)) as [H1 H2]; [lia|].
    rewrite (strftime_instagram_length dt Hm).
    split; [reflexivity|]. split; [lia|].
    intros Hy. rewrite (H2 Hy). reflexivity. }
  split.
  - unfold InstagramJSONParser._format_timestamp, Py.truthy_int.
    destruct (Z.eqb_spec t 0) as [E|E]; cbn [negb]; [split; auto|].
    change (list_ascii_of_string "%b %d, %Y %I:%M %p") with instagram_format.
    destruct (fromtimestamp utcoffset t) as [dt|e] eqn:Ef.
    + destruct (Hlen dt eq_refl) as [_ [Hl _]]. split.
      * intros Es.
        apply (f_equal (fun r => match r with
                                 | Ok s => Py.len s
                                 | Raise _ => 0
                                 end)) in Es.
        cbv beta iota in Es. rewrite Es in Hl. vm_compute in Hl.
        destruct Hl as [Hl _]. exfalso. apply Hl. reflexivity.
      * intros [H|[H|H]]; [contradiction | discriminate | discriminate].
    + destruct e; split; auto; try discriminate;
        intros [H|[H|H]]; try contradiction; discriminate.
  - intros dt Ht Ef. exists (strftime dt instagram_format).
    split; [|apply Hlen, Ef].
    unfold InstagramJSONParser._format_timestamp, Py.truthy_int.
    destruct (Z.eqb_spec t 0) as [E|_]; [contradiction|]. cbn [negb].
    rewrite Ef. reflexivity.
Qed.
End FormatTimestampFacts.

(** ** The posts of the structured-data normalizer *)

Section JSONPostFacts.
Import InstagramJSONParser.

Variable latin1_utf8 : str -> option str.
Variable utcoffset : Z -> Z.

Abbreviation _parse_post := (_parse_post latin1_utf8 utcoffset).
Abbreviation media_step := (media_step latin1_utf8).
Abbreviation parse_posts := (parse_posts latin1_utf8 utcoffset).

Lemma media_fold_title (ms : list Media) (t : str) (imgs : list str)
      (loc : option Q * option Q) :
  fst (fst (fold_left media_step ms (t, imgs, loc)))
  = hd [] (filter Py.truthy
             (t :: map (fun m => _fix_encoding latin1_utf8
                                               (get (media_title m) []))
                       ms)).
Proof.
  revert t imgs loc.
  induction ms as [|m ms IH]; intros t imgs loc.
  - simpl. destruct t; reflexivity.
  - cbn [fold_left InstagramJSONParser.media_step].
    rewrite IH. destruct t as [|c t]; reflexivity.
Qed.

Lemma nonempty_uris_truthy (ms : list Media) :
  Forall (fun u : str => u <> []) (nonempty_uris ms).
Proof.
  apply Forall_forall. intros u Hu.
  apply filter_In in Hu. destruct Hu as [_ Hu].
  destruct u; [discriminate | discriminate].
Qed.

(** The fields of the post of a record. *)
Lemma parse_post_fields (r : PostData) (p : InstagramPost) :
  _parse_post r = Ok (Some p) ->
  images p = nonempty_uris (media_items r)
  /\ images p <> []
  /\ tagged_users p = []
  /\ timestamp p = resolved_timestamp r
  /\ _format_timestamp utcoffset (timestamp p) = Ok (date p)
  /\ title p = fst (_extract_hashtags (resolved_title latin1_utf8 r))
  /\ hashtags p = snd (_extract_hashtags (resolved_title latin1_utf8 r)).
Proof.
  unfold InstagramJSONParser._parse_post, resolved_timestamp,
    resolved_title, candidate_titles, media_items.
  destruct (get (media r) []) as [|m0 ms] eqn:Em; [discriminate|].
  cbv zeta.
  change (negb (Py.truthy (m0 :: ms))) with false. cbv iota.
  change (Py.truthy (m0 :: ms)) with true.
  rewrite !timestamp_resolved.
  set (ts := if get (creation_timestamp r) 0 =? 0
             then get (media_creation_timestamp m0) 0
             else get (creation_timestamp r) 0).
  destruct (_format_timestamp utcoffset ts) as [d|e] eqn:Ef; [|discriminate].
  pose proof (media_fold_title (m0 :: ms)
                (_fix_encoding latin1_utf8 (get (post_title r) []))
                [] (None, None)) as Ht.
  destruct (media_fold latin1_utf8 (m0 :: ms)
              (_fix_encoding latin1_utf8 (get (post_title r) []))
              [] (None, None)) as [t' Hf].
  rewrite Hf in Ht |- *. cbn [fst] in Ht. subst t'.
  simpl app.
  destruct (fold_left exif_step (exif_entries (m0 :: ms)) (None, None))
    as [lat lon].
  destruct (nonempty_uris (m0 :: ms)) as [|u us] eqn:Eu; [discriminate|].
  cbn [Py.truthy negb].
  match goal with
  | |- context [_extract_hashtags ?x] =>
      destruct (_extract_hashtags x) as [clean tags] eqn:Ex
  end.
  intros [= <-].
  cbn [images tagged_users timestamp date title hashtags fst snd].
  repeat split; try discriminate. exact Ef.
Qed.

Lemma first_nonempty_at (l1 l2 : list str) (x : str) :
  (forall y, In y l1 -> y = []) -> x <> [] ->
  hd [] (filter Py.truthy (l1 ++ x :: l2)) = x.
Proof.
  intros H1 Hx. induction l1 as [|y l1 IH]; simpl.
  - destruct x; [congruence | reflexivity].
  - rewrite (H1 y (or_introl eq_refl)). simpl.
    apply IH. intros z Hz. apply H1. right. exact Hz.
Qed.

Lemma first_nonempty_none (l : list str) :
  (forall y, In y l -> y = []) -> hd [] (filter Py.truthy l) = [].
Proof.
  intros H. induction l as [|y l IH]; simpl; [reflexivity|].
  rewrite (H y (or_introl eq_refl)). simpl.
  apply IH. intros z Hz. apply H. right. exact Hz.
Qed.

Lemma cleaned_trimmed (text : str) :
  Py.strip (fst (_extract_hashtags text)) = fst (_extract_hashtags text).
Proof.
  unfold InstagramJSONParser._extract_hashtags.
  destruct text as [|c text]; cbn [Py.truthy negb fst];
    [reflexivity | apply strip_idem].
Qed.

(** X8.  Every post [parse_posts] returns has at least one image and no
    image that is the empty string, no tagged user, hashtags that
    differ even when case is ignored, a title without white space at
    either end, and as date the formatted timestamp. *)
Theorem X8_json_post_invariants (data : list PostData)
        (posts : list InstagramPost) :
  parse_posts (Some data) = Ok posts ->
  Forall (fun p =>
            images p <> []
            /\ Forall (fun u : str => u <> []) (images p)
            /\ tagged_users p = []
            /\ NoDup (map Py.lower (hashtags p))
            /\ Py.strip (title p) = title p
            /\ _format_timestamp utcoffset (timestamp p) = Ok (date p))
         posts.
Proof.
  intros H. apply parse_posts_sorted in H. subst posts.
  apply Forall_forall. intros p Hp.
  apply (Permutation_in _ (Permutation_sym (sort_reverse_perm timestamp _)))
    in Hp.
  apply record_posts_In in Hp. destruct Hp as [r [_ Hr]].
  destruct (parse_post_fields r p Hr) as [Hi [Hne [Htu [_ [Hd [Ht Hh]]]]]].
  split; [exact Hne|].
  split; [rewrite Hi; apply nonempty_uris_truthy|].
  split; [exact Htu|].
  split.
  { rewrite Hh, extract_hashtags_eq.
    apply (unique_spec (Re.findall_tag (resolved_title latin1_utf8 r)) []). }
  split; [rewrite Ht; apply cleaned_trimmed | exact Hd].
Qed.

(** X9.  The timestamp of a post is the one of its record when that is
    present and not zero, else the one of the first media item, else
    zero.  Its title and hashtags are extracted from the first title
    that is not empty among the repaired titles of the record and of
    its media items, in this order; when all are empty the post has an
    empty title and no hashtag. *)
Theorem X9_timestamp_and_title_resolution (r : PostData) (p : InstagramPost) :
  _parse_post r = Ok (Some p) ->
  timestamp p = resolved_timestamp r
  /\ (forall l1 x l2,
         candidate_titles latin1_utf8 r = l1 ++ x :: l2 ->
         (forall y, In y l1 -> y = []) -> x <> [] ->
         title p = fst (_extract_hashtags x)
         /\ hashtags p = snd (_extract_hashtags x))
  /\ ((forall y, In y (candidate_titles latin1_utf8 r) -> y = []) ->
      title p = [] /\ hashtags p = []).
Proof.
  intros Hp.
  destruct (parse_post_fields r p Hp) as [_ [_ [_ [Hts [_ [Ht Hh]]]]]].
  split; [exact Hts|]. unfold resolved_title in Ht, Hh. split.
  - intros l1 x l2 E H1 Hx.
    rewrite E, (first_nonempty_at l1 l2 x H1 Hx) in Ht, Hh. auto.
  - intros Hall. rewrite (first_nonempty_none _ Hall) in Ht, Hh. auto.
Qed.
End JSONPostFacts.

(** ** The posts of the markup normalizer *)

Section MarkupPostFacts.
Import InstagramParser.

Variable float : str -> option Q.

Lemma sources_nonempty (img_tags : list BS4.node) :
  Forall (fun u : str => u <> []) (sources img_tags).
Proof.
  induction img_tags as [|img rest IH]; cbn [sources]; [constructor|].
  destruct (BS4.get img _) as [[|c src]|]; cbn [Py.truthy]; try exact IH.
  constructor; [discriminate | exact IH].
Qed.

Lemma extract_images_nonempty (post_div : BS4.node) :
  Forall (fun u : str => u <> []) (extract_images post_div).
Proof.
  unfold extract_images.
  destruct (BS4.find post_div "div" (Some ("_3-95 _a6-p" : str)));
    [apply sources_nonempty | constructor].
Qed.

Lemma parsed_markup_In (post_divs : list BS4.node) (p : InstagramPost) :
  In p (parsed float post_divs) ->
  exists d, In d post_divs /\ _parse_post_div float d = Some p.
Proof.
  induction post_divs as [|d ds IH]; simpl; [intros []|].
  destruct (_parse_post_div float d) as [q|] eqn:E.
  - intros [<-|H]; [eauto | destruct (IH H) as [d' [? ?]]; eauto].
  - intros H. destruct (IH H) as [d' [? ?]]; eauto.
Qed.

Lemma parsed_markup_length (post_divs : list BS4.node) :
  (List.length (parsed float post_divs) <= List.length post_divs)%nat.
Proof.
  induction post_divs as [|d ds IH]; simpl; [lia|].
  destruct (_parse_post_div float d); simpl; lia.
Qed.

(** X10.  A post of the markup normalizer carries the title and the
    date of its block as they stand there, has no hashtag and no tagged
    user, holds no image that is the empty string, and has an image or
    a title; the normalizer returns at most one post per block. *)
Theorem X10_markup_post_invariants (soup : BS4.node)
        (posts : list InstagramPost) :
  parse_posts float (Some soup) = Ok posts ->
  let blocks :=
    BS4.find_all soup "div"
      (Some ("pam _3-95 _2ph- _a6-g uiBoxWhite noborder" : str)) in
  (List.length posts <= List.length blocks)%nat
  /\ Forall (fun p =>
               (exists d, In d blocks
                          /\ title p = extract_title d
                          /\ date p = extract_date d
                          /\ images p = extract_images d)
               /\ hashtags p = []
               /\ tagged_users p = []
               /\ Forall (fun u : str => u <> []) (images p)
               /\ (images p <> [] \/ title p <> []))
            posts.
Proof.
  intros [= <-]. cbv zeta. split; [apply parsed_markup_length|].
  apply Forall_forall. intros p Hp.
  destruct (parsed_markup_In _ _ Hp) as [d [Hd Hq]].
  unfold InstagramParser._parse_post_div in Hq.
  destruct (extract_location float d) as [lat lon].
  pose proof (extract_images_nonempty d) as Hne.
  destruct (extract_images d) as [|i imgs] eqn:Ei;
    destruct (extract_title d) as [|c t] eqn:Et;
    cbn [Py.truthy negb andb] in Hq; try discriminate;
    injection Hq as <-; cbn [title date images hashtags tagged_users];
    (split; [exists d; rewrite ?Ei, ?Et; auto|]);
    (split; [reflexivity|]); (split; [reflexivity|]);
    (split; [exact Hne|]).
  - right. discriminate.
  - left. discriminate.
  - left. discriminate.
Qed.
End MarkupPostFacts.

(** ** Copying the images *)

Section CopyFacts.
Import SiteGenerator.

Variables path fs : Type.
Variable joinpath : path -> str -> path.
Variable name : path -> str.
Variable path_exists : fs -> path -> bool.
Variable copy2 : fs -> path -> path -> fs.
Variables export_dir images_dir : path.

Abbreviation copy_images :=
  (copy_images joinpath name path_exists copy2 export_dir images_dir).
Abbreviation _copy_post_images :=
  (_copy_post_images joinpath name path_exists copy2 export_dir images_dir).
Abbreviation copy_all :=
  (copy_all joinpath name path_exists copy2 export_dir images_dir).
Abbreviation generate_site :=
  (generate_site joinpath name path_exists copy2 export_dir images_dir).
Abbreviation site_path := (site_path joinpath name export_dir).
Abbreviation full := (get_full_image_path joinpath export_dir).




(** *** When every source file is there *)

Hypothesis copy2_keeps : forall files src dst p,
    path_exists files p = true -> path_exists (copy2 files src dst) p = true.



End CopyFacts.

(** ** The selection *)

Section SelectionFacts.
Import GenerateSite.

Lemma sorted_set_In (indices : list Z) (i : Z) :
  In i (sorted_set indices) <-> In i indices.
Proof.
  unfold sorted_set. split; intros H.
  - apply (nodup_In Z.eq_dec).
    eapply Permutation_in; [apply Permutation_sym, sorted_asc_perm|exact H].
  - eapply Permutation_in; [apply sorted_asc_perm|].
    apply nodup_In. exact H.
Qed.

Lemma sorted_nodup_strict (l : list Z) :
  StronglySorted Z.le l -> NoDup l -> StronglySorted Z.lt l.
Proof.
  induction 1 as [|x l Hs IH Hx]; intros Hn; [constructor|].
  inversion Hn as [|? ? Hnx Hnl]; subst.
  constructor; [apply IH, Hnl|].
  apply Forall_forall. intros y Hy.
  rewrite Forall_forall in Hx. specialize (Hx y Hy).
  assert (x <> y) by (intros ->; contradiction). lia.
Qed.

Lemma sorted_set_strict (indices : list Z) :
  StronglySorted Z.lt (sorted_set indices).
Proof.
  apply sorted_nodup_strict.
  - apply (sorted_asc_sorted (fun i : Z => i)).
  - eapply Permutation_NoDup; [apply sorted_asc_perm|]. apply NoDup_nodup.
Qed.

(** What [pick] returns: an error exactly when an index lies below
    [- n], else the positions the indices below [n] stand for. *)
Lemma pick_spec (n : Z) (l : list Z) :
  0 <= n ->
  match pick n l with
  | Raise e => e = IndexError /\ exists i, In i l /\ i < - n
  | Ok refs =>
      (forall i, In i l -> - n <= i)
      /\ refs = map (fun i => Z.to_nat (if i <? 0 then n + i else i))
                    (filter (fun i => i <? n) l)
  end.
Proof.
  intros Hn. induction l as [|i l IH]; simpl.
  - split; [intros i [] | reflexivity].
  - destruct (Z.ltb_spec i n) as [Hi|Hi].
    + destruct (Z.ltb_spec i (- n)) as [Hl|Hl].
      * split; [reflexivity|]. exists i. auto.
      * destruct (pick n l) as [refs|e].
        -- destruct IH as [Hall ->]. split; [|reflexivity].
           intros j [<-|Hj]; [lia | apply Hall, Hj].
        -- destruct IH as [-> [j [Hj Hlt]]]. split; [reflexivity|].
           exists j. auto.
    + destruct (pick n l) as [refs|e].
      * destruct IH as [Hall ->]. split; [|reflexivity].
        intros j [<-|Hj]; [lia | apply Hall, Hj].
      * destruct IH as [-> [j [Hj Hlt]]]. split; [reflexivity|].
        exists j. auto.
Qed.

Lemma seq_strict (n s : nat) : StronglySorted lt (seq s n).
Proof.
  revert s. induction n as [|n IH]; intros s; simpl; constructor;
    [apply IH|].
  apply Forall_forall. intros x Hx. apply in_seq in Hx. lia.
Qed.

Lemma strict_map_filter (n : Z) (l : list Z) :
  StronglySorted Z.lt l -> (forall i, In i l -> 0 <= i) ->
  StronglySorted lt
    (map (fun i => Z.to_nat (if i <? 0 then n + i else i))
         (filter (fun i => i <? n) l)).
Proof.
  induction 1 as [|x l Hs IH Hx]; intros Hpos; simpl; [constructor|].
  assert (Hl : forall i, In i l -> 0 <= i)
    by (intros i Hi; apply Hpos; right; exact Hi).
  destruct (x <? n); [|apply IH, Hl].
  simpl. constructor; [apply IH, Hl|].
  apply Forall_forall. intros r Hr.
  apply in_map_iff in Hr. destruct Hr as [y [<- Hy]].
  apply filter_In in Hy. destruct Hy as [Hy _].
  rewrite Forall_forall in Hx. specialize (Hx y Hy).
  pose proof (Hpos x (or_introl eq_refl)). pose proof (Hl y Hy).
  destruct (Z.ltb_spec x 0); [lia|]. destruct (Z.ltb_spec y 0); lia.
Qed.

Lemma sorted_set_truthy (indices : list Z) :
  indices <> [] -> Py.truthy (sorted_set indices) = true.
Proof.
  intros Hne. destruct indices as [|i l]; [congruence|].
  destruct (sorted_set (i :: l)) as [|x s] eqn:E; [|reflexivity].
  exfalso. assert (H : In i (sorted_set (i :: l)))
    by (apply sorted_set_In; left; reflexivity).
  rewrite E in H. exact H.
Qed.

(** X13.  With indices that are not negative, the posts selected for
    the feed are those whose position is listed and is below the number
    of posts, each one once and in the order of the post list, whatever
    the order and the repetitions in the file; the empty list selects
    every post. *)
Theorem X13_selection_in_post_order (indices : list Z)
        (posts : list SiteGenerator.Post) :
  (forall i, In i indices -> 0 <= i) ->
  exists refs,
    selected_posts (Some indices) posts = Ok refs
    /\ StronglySorted lt refs
    /\ forall r, In r refs <->
                 (r < List.length posts)%nat
                 /\ (indices = [] \/ In (Z.of_nat r) indices).
Proof.
  intros Hpos. unfold selected_posts.
  destruct indices as [|i0 l] eqn:Ei.
  { exists (seq 0 (List.length posts)). split; [reflexivity|].
    split; [apply seq_strict|].
    intros r. rewrite in_seq. split; [intros; split; [lia | auto] | lia]. }
  rewrite <- Ei in *.
  rewrite sorted_set_truthy by (rewrite Ei; discriminate).
  assert (Hn : 0 <= Py.len posts) by (unfold Py.len; lia).
  pose proof (pick_spec (Py.len posts) (sorted_set indices) Hn) as Hp.
  destruct (pick (Py.len posts) (sorted_set indices)) as [refs|e].
  - destruct Hp as [_ ->]. eexists. split; [reflexivity|]. split.
    + apply strict_map_filter; [apply sorted_set_strict|].
      intros i Hi. apply Hpos, (proj1 (sorted_set_In _ _)), Hi.
    + intros r. rewrite in_map_iff. split.
      * intros [i [<- Hi]]. apply filter_In in Hi. destruct Hi as [Hi Hlt].
        apply (proj1 (sorted_set_In _ _)) in Hi. apply Z.ltb_lt in Hlt.
        pose proof (Hpos i Hi). unfold Py.len in Hlt.
        destruct (Z.ltb_spec i 0); [lia|].
        split; [lia|]. right. rewrite Z2Nat.id by lia. exact Hi.
      * intros [Hr [E|Hin]]; [rewrite Ei in E; discriminate|].
        exists (Z.of_nat r). split.
        -- destruct (Z.ltb_spec (Z.of_nat r) 0); lia.
        -- apply filter_In. split; [apply (proj2 (sorted_set_In _ _)), Hin|].
           apply Z.ltb_lt. unfold Py.len. lia.
  - exfalso. destruct Hp as [_ [i [Hi Hlt]]].
    apply (proj1 (sorted_set_In _ _)) in Hi. specialize (Hpos i Hi). lia.
Qed.

(** X14.  The selection fails, with [IndexError], exactly when the file
    lists an index below minus the number of posts.  Otherwise a
    negative index selects a post counted from the end: the posts
    selected by a list that is not empty are those whose position, or
    whose position minus the number of posts, is listed. *)
Theorem X14_selection_negative_indices (indices : list Z)
        (posts : list SiteGenerator.Post) :
  let n := Py.len posts in
  ((exists e, selected_posts (Some indices) posts = Raise e) <->
   exists i, In i indices /\ i < - n)
  /\ (forall e, selected_posts (Some indices) posts = Raise e ->
                e = IndexError)
  /\ (forall refs,
         selected_posts (Some indices) posts = Ok refs ->
         indices <> [] ->
         forall r, In r refs <->
                   (r < List.length posts)%nat
                   /\ (In (Z.of_nat r) indices
                       \/ In (Z.of_nat r - n) indices)).
Proof.
  cbv zeta. unfold selected_posts.
  assert (Hn : 0 <= Py.len posts) by (unfold Py.len; lia).
  pose proof (pick_spec (Py.len posts) (sorted_set indices) Hn) as Hp.
  destruct (Py.truthy (sorted_set indices)) eqn:Et.
  - destruct (pick (Py.len posts) (sorted_set indices)) as [refs|e].
    + destruct Hp as [Hall ->]. split; [|split].
      * split; [intros [e He]; discriminate|].
        intros [i [Hi Hlt]]. apply (proj2 (sorted_set_In _ _)) in Hi.
        specialize (Hall i Hi). lia.
      * intros e He. discriminate.
      * intros refs [= <-] _ r. rewrite in_map_iff. split.
        -- intros [i [<- Hi]]. apply filter_In in Hi.
           destruct Hi as [Hi Hlt]. apply Z.ltb_lt in Hlt.
           pose proof (Hall i Hi) as Hge.
           apply (proj1 (sorted_set_In _ _)) in Hi.
           unfold Py.len in *.
           destruct (Z.ltb_spec i 0).
           ++ split; [lia|]. right.
              replace (Z.of_nat (Z.to_nat (Z.of_nat (List.length posts) + i))
                       - Z.of_nat (List.length posts)) with i by lia.
              exact Hi.
           ++ split; [lia|]. left. rewrite Z2Nat.id by lia. exact Hi.
        -- intros [Hr [Hin|Hin]].
           ++ exists (Z.of_nat r). split.
              ** destruct (Z.ltb_spec (Z.of_nat r) 0); lia.
              ** apply filter_In. split; [apply (proj2 (sorted_set_In _ _)), Hin|].
                 apply Z.ltb_lt. unfold Py.len. lia.
           ++ exists (Z.of_nat r - Py.len posts). unfold Py.len in *. split.
              ** destruct (Z.ltb_spec
                             (Z.of_nat r - Z.of_nat (List.length posts)) 0);
                   lia.
              ** apply filter_In. split; [apply (proj2 (sorted_set_In _ _)), Hin|].
                 apply Z.ltb_lt. lia.
    + destruct Hp as [-> [i [Hi Hlt]]]. apply (proj1 (sorted_set_In _ _)) in Hi.
      split; [|split].
      * split; [intros _; exists i; auto | intros _; eexists; reflexivity].
      * intros e [= <-]. reflexivity.
      * intros refs H. discriminate.
  - assert (Hnil : indices = []).
    { destruct indices as [|i l]; [reflexivity|].
      rewrite sorted_set_truthy in Et by discriminate. discriminate. }
    subst indices. split; [|split].
    + split; [intros [e He]; discriminate | intros [i [[] _]]].
    + intros e He. discriminate.
    + intros refs _ Hne. congruence.
Qed.
End SelectionFacts.

(** ** The items of the feed and the pages of the site *)

Section FeedFacts.
Import RSSFeed.

Lemma to_int_nonnil (z : Z) :
  Z.to_int z <> Decimal.Pos Decimal.Nil
  /\ Z.to_int z <> Decimal.Neg Decimal.Nil.
Proof.
  destruct z as [|p|p]; simpl; split; try discriminate;
    intros [= H]; apply (Unsigned.to_uint_nonnil p H).
Qed.

Lemma str_int_inj (a b : Z) : Py.str_int a = Py.str_int b -> a = b.
Proof.
  unfold Py.str_int. intros H.
  apply (f_equal string_of_list_ascii) in H.
  rewrite !string_of_list_ascii_of_string in H.
  apply (f_equal NilZero.int_of_string) in H.
  destruct (to_int_nonnil a) as [Ha1 Ha2].
  destruct (to_int_nonnil b) as [Hb1 Hb2].
  rewrite !NilZero.isi in H by assumption.
  injection H as H. apply DecimalZ.to_int_inj, H.
Qed.

Lemma str_int_nonempty (a : Z) : Py.str_int a <> [].
Proof.
  unfold Py.str_int. intros H.
  apply (f_equal string_of_list_ascii) in H.
  rewrite string_of_list_ascii_of_string in H. simpl in H.
  apply (f_equal NilZero.int_of_string) in H.
  destruct (to_int_nonnil a) as [Ha1 Ha2].
  rewrite NilZero.isi in H by assumption. discriminate H.
Qed.

Variable base_url : str.

Abbreviation _add_item := (_add_item base_url).
Abbreviation generate_feed := (generate_feed base_url).

Lemma link_inj (p q : SiteGenerator.Post) (i j : Z) :
  link (_add_item p i) = link (_add_item q j) -> i = j.
Proof.
  unfold RSSFeed._add_item. cbn [link]. intros H.
  apply app_inv_head in H. apply app_inv_head in H.
  apply app_inv_tail in H. apply str_int_inj in H. lia.
Qed.

Lemma items_from_nth (posts : list SiteGenerator.Post) (idx : Z) (k : nat) :
  nth_error (items_from base_url idx posts) k
  = option_map (fun post => _add_item post (idx + Z.of_nat k))
               (nth_error posts k).
Proof.
  revert idx k. induction posts as [|post rest IH]; intros idx k.
  - destruct k; reflexivity.
  - destruct k as [|k]; cbn [items_from nth_error option_map].
    + rewrite Z.add_0_r. reflexivity.
    + rewrite IH.
      replace (idx + Z.of_nat (S k)) with (idx + 1 + Z.of_nat k) by lia.
      reflexivity.
Qed.

Lemma items_from_length (posts : list SiteGenerator.Post) (idx : Z) :
  List.length (items_from base_url idx posts) = List.length posts.
Proof.
  revert idx. induction posts as [|post rest IH]; intros idx;
    cbn [items_from List.length]; [reflexivity | rewrite IH; reflexivity].
Qed.

Lemma items_from_links (posts : list SiteGenerator.Post) (idx : Z) :
  NoDup (map link (items_from base_url idx posts))
  /\ forall l, In l (map link (items_from base_url idx posts)) ->
               exists q j, idx <= j /\ l = link (_add_item q j).
Proof.
  revert idx. induction posts as [|post rest IH]; intros idx;
    cbn [items_from map].
  - split; [constructor | intros l []].
  - destruct (IH (idx + 1)) as [Hn Hl]. split.
    + constructor; [|exact Hn].
      intros Hin. destruct (Hl _ Hin) as [q [j [Hj E]]].
      pose proof (link_inj post q idx j E). lia.
    + intros l [<-|Hin].
      * exists post, idx. split; [lia | reflexivity].
      * destruct (Hl _ Hin) as [q [j [Hj E]]].
        exists q, j. split; [lia | exact E].
Qed.

Lemma join_nonempty (sep : str) (parts : list str) :
  parts <> [] -> Forall (fun s : str => s <> []) parts ->
  Py.join sep parts <> [].
Proof.
  destruct parts as [|p rest]; [congruence|].
  intros _ Hf. inversion Hf as [|? ? Hp _]; subst.
  destruct p as [|c p]; [congruence|].
  simpl. destruct rest; discriminate.
Qed.

Lemma description_nonempty (post : SiteGenerator.Post) (idx : Z) :
  _create_description post idx <> [].
Proof.
  unfold _create_description. cbv zeta.
  set (parts :=
         (if Py.truthy (SiteGenerator.date post) then _ else _)).
  assert (Hf : Forall (fun s : str => s <> []) parts).
  { unfold parts.
    destruct (SiteGenerator.title post) as [|c t];
      destruct (SiteGenerator.images post) as [|i imgs];
      destruct (SiteGenerator.date post) as [|d ds];
      cbn [Py.truthy app]; repeat constructor; try discriminate.
    - intros H. apply app_eq_nil in H. destruct H as [H _].
      apply (str_int_nonempty _ H).
    - intros H. apply app_eq_nil in H. destruct H as [H _].
      apply (str_int_nonempty _ H).
    - intros H. apply app_eq_nil in H. destruct H as [H _].
      apply (str_int_nonempty _ H).
    - intros H. apply app_eq_nil in H. destruct H as [H _].
      apply (str_int_nonempty _ H). }
  destruct parts as [|p rest] eqn:E; cbn [Py.truthy].
  - discriminate.
  - apply join_nonempty; [discriminate | exact Hf].
Qed.

Lemma feed_title_bounds (text : str) :
  text <> [] ->
  RSSGenerator._truncate_title text 100 <> []
  /\ Py.len (RSSGenerator._truncate_title text 100) <= 103.
Proof.
  intros Ht. unfold RSSGenerator._truncate_title.
  destruct (Z.leb_spec (Py.len text) 100) as [Hl|Hl].
  - split; [exact Ht | lia].
  - change 100 with (Z.of_nat 100). rewrite slice_to_nat.
    pose proof (word_cut text 100) as Hw. cbv zeta in Hw.
    destruct Hw as [_ [_ [Hlen _]]].
    change (Z.of_nat 100) with 100 in Hlen. split; [|exact Hlen].
    intros E. apply app_eq_nil in E. destruct E as [_ E]. discriminate.
Qed.

(** X15.  The feed has one item per post it is given, in their order.
    The item at position [k] links to [<base>/posts/post-<k+1>.html] and
    has this link as its guid, so that no two items share a link; it
    carries the hashtags of its post as categories, a title that is
    not empty and at most 103 characters long, a description that is
    not empty, and a publication date exactly when the date of the post
    can be parsed. *)
Theorem X15_feed_items (posts : list SiteGenerator.Post) :
  let items := generate_feed posts in
  List.length items = List.length posts
  /\ NoDup (map link items)
  /\ Forall (fun item => guid item = link item
                         /\ item_title item <> []
                         /\ Py.len (item_title item) <= 103
                         /\ description item <> [])
            items
  /\ forall k post,
      nth_error posts k = Some post ->
      exists item,
        nth_error items k = Some item
        /\ link item
           = base_url ++ ("/posts/" : str)
             ++ SiteGenerator.page_file (Z.of_nat k)
        /\ category item = SiteGenerator.hashtags post
        /\ (pubDate item = None <->
            RSSGenerator._parse_date (SiteGenerator.date post) = []).
Proof.
  cbv zeta. unfold RSSFeed.generate_feed.
  split; [apply items_from_length|].
  split; [apply items_from_links|].
  split.
  - apply Forall_forall. intros item Hin.
    apply In_nth_error in Hin. destruct Hin as [k Hk].
    rewrite items_from_nth in Hk.
    destruct (nth_error posts k) as [post|]; [|discriminate].
    injection Hk as <-.
    unfold RSSFeed._add_item. cbn [guid link item_title description].
    split; [reflexivity|].
    assert (Hne : (if Py.truthy (SiteGenerator.title post)
                   then SiteGenerator.title post
                   else ("Instagram Post " : str)
                        ++ Py.str_int (0 + Z.of_nat k + 1)) <> []).
    { destruct (SiteGenerator.title post); cbn [Py.truthy]; discriminate. }
    destruct (feed_title_bounds _ Hne) as [H1 H2].
    split; [exact H1|]. split; [exact H2|].
    apply description_nonempty.
  - intros k post Hk. rewrite items_from_nth, Hk. cbn [option_map].
    eexists. split; [reflexivity|].
    unfold RSSFeed._add_item. cbn [link category pubDate].
    split; [|split; [reflexivity|]].
    + unfold SiteGenerator.page_file, SiteGenerator.post_id.
      rewrite Z.add_0_l.
      change (list_ascii_of_string "/posts/post-")
        with ((list_ascii_of_string "/posts/")
                ++ list_ascii_of_string "post-").
      rewrite <- !app_assoc. reflexivity.
    + destruct (RSSGenerator._parse_date (SiteGenerator.date post));
        cbn [Py.truthy]; split; congruence.
Qed.
End FeedFacts.

(** ** The feed of a selection *)

Section FeedOfSelection.
Import RSSFeed.
Variables path fs : Type.
Variable joinpath : path -> str -> path.
Variable name : path -> str.
Variable path_exists : fs -> path -> bool.
Variable copy2 : fs -> path -> path -> fs.
Variables export_dir images_dir : path.
Variable base_url : str.

Abbreviation main :=
  (GenerateSite.main joinpath name path_exists copy2 export_dir images_dir).

Lemma hashtags_set_images (post : SiteGenerator.Post) (paths : list str) :
  SiteGenerator.hashtags (SiteGenerator.set_images post paths)
  = SiteGenerator.hashtags post.
Proof. destruct post; reflexivity. Qed.

Lemma deref_nth (posts : list SiteGenerator.Post) (refs : list nat) :
  Forall (fun r => (r < List.length posts)%nat) refs ->
  forall k,
    nth_error (flat_map (fun r => match nth_error posts r with
                                  | Some post => [post]
                                  | None => []
                                  end) refs) k
    = match nth_error refs k with
      | Some r => nth_error posts r
      | None => None
      end.
Proof.
  induction 1 as [|r refs Hr _ IH]; intros k.
  - destruct k; reflexivity.
  - cbn [flat_map].
    destruct (nth_error posts r) as [post|] eqn:E.
    + destruct k as [|k]; cbn [app nth_error]; [symmetry; exact E | apply IH].
    + apply nth_error_None in E. lia.
Qed.

Lemma selected_posts_bound (selection_file : option (list Z))
      (posts : list SiteGenerator.Post) (refs : list nat) :
  GenerateSite.selected_posts selection_file posts = Ok refs ->
  Forall (fun r => (r < List.length posts)%nat) refs.
Proof.
  assert (Hseq : Forall (fun r => (r < List.length posts)%nat)
                        (seq 0 (List.length posts))).
  { apply Forall_forall. intros r Hr. apply in_seq in Hr. lia. }
  unfold GenerateSite.selected_posts.
  destruct selection_file as [indices|]; [|intros [= <-]; exact Hseq].
  cbv zeta.
  destruct (Py.truthy (GenerateSite.sorted_set indices));
    [|intros [= <-]; exact Hseq].
  assert (Hn : 0 <= Py.len posts) by (unfold Py.len; lia).
  pose proof (pick_spec (Py.len posts) (GenerateSite.sorted_set indices) Hn)
    as Hp.
  destruct (GenerateSite.pick (Py.len posts) (GenerateSite.sorted_set indices))
    as [refs'|e]; [|discriminate].
  intros [= <-]. destruct Hp as [Hall ->].
  apply Forall_forall. intros r Hr.
  apply in_map_iff in Hr. destruct Hr as [i [<- Hi]].
  apply filter_In in Hi. destruct Hi as [Hi Hlt].
  apply Z.ltb_lt in Hlt. specialize (Hall i Hi).
  unfold Py.len in *. destruct (Z.ltb_spec i 0); lia.
Qed.

Lemma link_page (base : str) (post : SiteGenerator.Post) (idx : Z) :
  link (_add_item base post idx)
  = base ++ ("/posts/" : str) ++ SiteGenerator.page_file idx.
Proof.
  unfold _add_item. cbn [link].
  unfold SiteGenerator.page_file, SiteGenerator.post_id.
  change (list_ascii_of_string "/posts/post-")
    with ((list_ascii_of_string "/posts/") ++ list_ascii_of_string "post-").
  rewrite <- !app_assoc. reflexivity.
Qed.

Lemma page_file_inj (i j : Z) :
  SiteGenerator.page_file i = SiteGenerator.page_file j -> i = j.
Proof.
  unfold SiteGenerator.page_file, SiteGenerator.post_id. intros H.
  apply app_inv_tail in H. apply app_inv_head in H.
  apply str_int_inj in H. lia.
Qed.

(** X16.  When [main] builds the site, the feed has one item per
    selected position, in their order.  The item at place [k] of the
    feed is made of the post at the [k]-th selected position [r], as the
    copy step left it, and carries the hashtags of that post; its link
    names the page [post-<k+1>.html], which is the page of that post
    exactly when [r = k]. *)
Theorem X16_feed_of_selection (files : fs)
        (posts : list SiteGenerator.Post)
        (selection_file : option (list Z)) (site : SiteGenerator.Site fs) :
  main files posts selection_file = Ok site ->
  exists refs,
    GenerateSite.selected_posts selection_file posts = Ok refs
    /\ List.length (feed_of_site base_url site) = List.length refs
    /\ forall k r,
        nth_error refs k = Some r ->
        exists post post' item,
          nth_error posts r = Some post
          /\ nth_error (SiteGenerator.site_posts site) r = Some post'
          /\ nth_error (feed_of_site base_url site) k = Some item
          /\ item = _add_item (init base_url) post' (Z.of_nat k)
          /\ category item = SiteGenerator.hashtags post
          /\ (link item
              = init base_url ++ ("/posts/" : str)
                ++ SiteGenerator.page_file (Z.of_nat r)
              <-> r = k).
Proof.
  unfold GenerateSite.main. intros Hm.
  destruct (negb (Py.truthy posts)); [discriminate|].
  destruct (GenerateSite.selected_posts selection_file posts)
    as [refs|e] eqn:Es; [|discriminate].
  injection Hm as <-. exists refs. split; [reflexivity|].
  pose proof (selected_posts_bound _ _ _ Es) as Hb.
  pose proof (copied_back _ _ joinpath name path_exists copy2
                          export_dir images_dir _ _ _
                (copy_all_copied _ _ joinpath name path_exists copy2
                                 export_dir images_dir posts files)) as Hc.
  unfold feed_of_site, SiteGenerator.generate_site.
  destruct (SiteGenerator.copy_all joinpath name path_exists copy2
                                   export_dir images_dir files posts)
    as [files' posts'] eqn:Ec.
  cbn [snd] in Hc.
  cbn [SiteGenerator.site_feed SiteGenerator.site_posts].
  pose proof (Forall2_length Hc) as Hlen.
  assert (Hb' : Forall (fun r => (r < List.length posts')%nat) refs)
    by (rewrite <- Hlen; exact Hb).
  pose proof (deref_nth posts' refs Hb') as Hd.
  split.
  - unfold generate_feed. rewrite items_from_length.
    clear - Hb'. induction Hb' as [|r refs Hr _ IH]; [reflexivity|].
    cbn [flat_map]. rewrite length_app, IH.
    destruct (nth_error posts' r) eqn:E; [reflexivity|].
    apply nth_error_None in E. lia.
  - intros k r Hk.
    assert (Hr : (r < List.length posts)%nat).
    { rewrite Forall_forall in Hb. apply Hb. eapply nth_error_In, Hk. }
    destruct (nth_error posts r) as [post|] eqn:Ep;
      [|apply nth_error_None in Ep; lia].
    destruct (nth_error posts' r) as [post'|] eqn:Ep';
      [|apply nth_error_None in Ep'; lia].
    exists post, post', (_add_item (init base_url) post' (Z.of_nat k)).
    split; [reflexivity|]. split; [reflexivity|].
    split.
    { unfold generate_feed. rewrite items_from_nth, Hd, Hk, Ep'.
      cbn [option_map]. rewrite Z.add_0_l. reflexivity. }
    split; [reflexivity|]. split.
    + cbn [category _add_item].
      assert (Hset : SiteGenerator.set_images
                       post' (SiteGenerator.images post) = post).
      { clear - Hc Ep Ep'. revert r Ep Ep'.
        induction Hc as [|p p' l l' Hp _ IH]; intros r Ep Ep'.
        - destruct r; discriminate.
        - destruct r as [|r]; cbn [nth_error] in Ep, Ep'.
          + injection Ep as <-. injection Ep' as <-. exact Hp.
          + eapply IH; eassumption. }
      rewrite <- Hset.
      symmetry. apply hashtags_set_images.
    + rewrite link_page. split.
      * intros H. apply app_inv_head in H. apply app_inv_head in H.
        apply page_file_inj in H. lia.
      * intros ->. reflexivity.
Qed.
End FeedOfSelection.

(** ** The selection tool *)

Section SelectionToolFacts.
Import SelectPosts.

Lemma mem_In (i : Z) (l : list Z) : mem i l = true <-> In i l.
Proof.
  unfold mem. rewrite existsb_exists. split.
  - intros [x [Hx E]]. apply Z.eqb_eq in E. subst. exact Hx.
  - intros H. exists i. split; [exact H | apply Z.eqb_refl].
Qed.

Lemma add_In (i j : Z) (l : list Z) : In i (add j l) <-> i = j \/ In i l.
Proof.
  unfold add. destruct (mem j l) eqn:E.
  - apply mem_In in E. split; [auto | intros [->|H]; assumption].
  - rewrite in_app_iff. simpl. split; intros H.
    + destruct H as [H|[H|[]]]; auto.
    + destruct H as [H|H]; auto.
Qed.

Lemma insert_front_least (x : Z) (l : list Z) :
  Forall (fun y => x < y) l -> Py.insert_front (fun i : Z => i) x l = x :: l.
Proof.
  intros H. destruct l as [|y l]; [reflexivity|].
  inversion H as [|? ? Hy _]; subst. simpl.
  destruct (Z.ltb_spec y x); [lia | reflexivity].
Qed.

Lemma sorted_set_fixed (l : list Z) :
  StronglySorted Z.lt l -> GenerateSite.sorted_set l = l.
Proof.
  intros Hs. unfold GenerateSite.sorted_set.
  assert (Hn : NoDup l).
  { induction Hs as [|x l Hs IH Hx]; constructor; [|exact IH].
    intros Hin. rewrite Forall_forall in Hx. specialize (Hx x Hin). lia. }
  rewrite (nodup_fixed_point Z.eq_dec Hn).
  induction Hs as [|x l Hs IH Hx]; [reflexivity|].
  inversion Hn as [|? ? _ Hn']; subst.
  cbn [Py.sorted_asc fold_right].
  change (fold_right (Py.insert_front (fun i : Z => i)) [] l)
    with (Py.sorted_asc (fun i : Z => i) l).
  rewrite (IH Hn'). apply insert_front_least, Hx.
Qed.

(** A selection that is returned holds what was selected before, and
    beyond it only positions the loop came to. *)
Lemma review_extends (posts rest : list SiteGenerator.Post)
      (inputs : list str) (selected selected' : list Z) (idx : Z) :
  review posts selected idx rest inputs = Returned selected' ->
  (forall i, In i selected -> In i selected')
  /\ (forall i, In i selected' ->
                In i selected \/ idx <= i < idx + Py.len rest).
Proof.
  revert inputs selected idx.
  induction rest as [|post rest IH]; intros inputs selected idx H.
  - injection H as <-. split; auto.
  - cbn [review] in H.
    assert (Hlen : Py.len (post :: rest) = Py.len rest + 1)
      by (unfold Py.len; cbn [List.length]; lia).
    rewrite Hlen.
    assert (Hstep : forall sel inputs',
               (forall i, In i sel -> In i selected \/ i = idx) ->
               (forall i, In i selected -> In i sel) ->
               review posts sel (idx + 1) rest inputs' = Returned selected' ->
               (forall i, In i selected -> In i selected')
               /\ (forall i, In i selected' ->
                             In i selected
                             \/ idx <= i < idx + (Py.len rest + 1))).
    { intros sel inputs' H1 H2 Hr. apply IH in Hr. destruct Hr as [Ha Hb].
      split; [intros i Hi; apply Ha, H2, Hi|].
      intros i Hi. destruct (Hb i Hi) as [Hs|Hs].
      - destruct (H1 i Hs) as [Hs' | ->]; [left; exact Hs'|].
        right. unfold Py.len. lia.
      - right. lia. }
    destruct (mem idx selected).
    + apply (Hstep selected inputs); auto.
    + destruct (ask posts selected inputs) as [[| | | | |e] inputs'];
        try discriminate.
      * apply (Hstep (add idx selected) inputs'); [| |exact H].
        -- intros i Hi. apply add_In in Hi. destruct Hi; auto.
        -- intros i Hi. apply add_In. auto.
      * apply (Hstep selected inputs'); auto.
      * injection H as <-. split; auto.
Qed.

(** X17.  When the interactive selection returns, the file holds the
    selection in increasing order, each index once.  The selection
    keeps every index the file held before, and every index it adds is
    the position of a post. *)
Theorem X17_interactive_selection_extends
        (selection_file file' : option (list Z))
        (posts : list SiteGenerator.Post) (inputs : list str)
        (selected : list Z) :
  interactive_selection selection_file posts inputs
  = (Returned selected, file') ->
  file' = Some (save_selection selected)
  /\ StronglySorted Z.lt (save_selection selected)
  /\ (forall i, In i (save_selection selected) <-> In i selected)
  /\ (forall i, In i (load_selection selection_file) -> In i selected)
  /\ (forall i, In i selected ->
                In i (load_selection selection_file)
                \/ 0 <= i < Py.len posts).
Proof.
  unfold interactive_selection. cbv zeta. intros H.
  injection H as Hr Hf. rewrite Hr in Hf. cbn [file_after] in Hf.
  split; [symmetry; exact Hf|].
  split; [apply sorted_set_strict|].
  split; [intros i; apply sorted_set_In|].
  apply review_extends in Hr. destruct Hr as [Ha Hb].
  split; [exact Ha|]. intros i Hi. destruct (Hb i Hi); [auto | right; lia].
Qed.

Lemma ask_yes (posts : list SiteGenerator.Post) (selected : list Z)
      (line : str) (inputs : list str) :
  one_of ["y" : str; "yes" : str] (Py.lower (Py.strip line)) = true ->
  ask posts selected (line :: inputs) = (Select, inputs).
Proof. intros H. cbn [ask]. cbv zeta. rewrite H. reflexivity. Qed.

Lemma ask_no (posts : list SiteGenerator.Post) (selected : list Z)
      (line : str) (inputs : list str) :
  one_of ["y" : str; "yes" : str] (Py.lower (Py.strip line)) = false ->
  one_of ["n" : str; "no" : str; "s" : str; "skip" : str]
         (Py.lower (Py.strip line)) = true ->
  ask posts selected (line :: inputs) = (Skip, inputs).
Proof.
  intros Hy Hn. cbn [ask]. cbv zeta. rewrite Hy.
  unfold one_of in *. cbn [existsb] in *.
  destruct (Py.str_eqb (Py.lower (Py.strip line)) "n");
    [reflexivity|].
  destruct (Py.str_eqb (Py.lower (Py.strip line)) "no");
    [reflexivity|].
  destruct (Py.str_eqb (Py.lower (Py.strip line)) "s");
    [reflexivity|].
  destruct (Py.str_eqb (Py.lower (Py.strip line)) "skip");
    [reflexivity | discriminate].
Qed.

Lemma filter_seq_shift (f : nat -> bool) (s n : nat) :
  filter f (seq (S s) n) = map S (filter (fun k => f (S k)) (seq s n)).
Proof.
  revert s. induction n as [|n IH]; intros s; [reflexivity|].
  cbn [seq filter]. rewrite IH. destruct (f (S s)); reflexivity.
Qed.

Lemma shifted_positions (f : nat -> bool) (idx : Z) (n : nat) :
  map (fun k => idx + Z.of_nat k) (filter f (seq 1 n))
  = map (fun k => idx + 1 + Z.of_nat k)
        (filter (fun k => f (S k)) (seq 0 n)).
Proof.
  rewrite filter_seq_shift, map_map. apply map_ext. intros k. lia.
Qed.

Lemma review_answers (posts : list SiteGenerator.Post)
      (yes : str -> bool) :
  (forall line, yes line
                = one_of ["y" : str; "yes" : str] (Py.lower (Py.strip line))) ->
  forall (rest : list SiteGenerator.Post) (answers : list str)
         (selected : list Z) (idx : Z),
    List.length answers = List.length rest ->
    Forall (fun line =>
              yes line = true
              \/ one_of ["n" : str; "no" : str; "s" : str; "skip" : str]
                        (Py.lower (Py.strip line)) = true) answers ->
    (forall i, In i selected -> i < idx) ->
    review posts selected idx rest answers
    = Returned
        (selected
         ++ map (fun k => idx + Z.of_nat k)
                (filter (fun k => yes (nth k answers []))
                        (seq 0 (List.length rest)))).
Proof.
  intros Hyes. induction rest as [|post rest IH];
    intros answers selected idx Hlen Hall Hlt.
  - cbn [review List.length seq filter map]. rewrite app_nil_r. reflexivity.
  - destruct answers as [|line answers]; [discriminate|].
    injection Hlen as Hlen. inversion Hall as [|? ? Hline Hall']; subst.
    cbn [review].
    assert (Hm : mem idx selected = false).
    { destruct (mem idx selected) eqn:E; [|reflexivity].
      apply mem_In, Hlt in E. lia. }
    rewrite Hm. cbn [List.length seq filter nth].
    destruct (yes line) eqn:Ey; cbn [map]; rewrite shifted_positions.
    + rewrite ask_yes by (rewrite <- Hyes; exact Ey).
      rewrite (IH answers (add idx selected) (idx + 1) Hlen Hall').
      * unfold add. rewrite Hm.
        rewrite <- app_assoc, Z.add_0_r. reflexivity.
      * intros i Hi. apply add_In in Hi. destruct Hi as [-> | Hi];
          [lia | specialize (Hlt i Hi); lia].
    + destruct Hline as [Hline|Hline]; [discriminate|].
      rewrite ask_no by (try rewrite <- Hyes; assumption).
      rewrite (IH answers selected (idx + 1) Hlen Hall').
      * reflexivity.
      * intros i Hi. specialize (Hlt i Hi). lia.
Qed.

Lemma positions_strict (f : nat -> bool) (n s : nat) :
  StronglySorted Z.lt (map Z.of_nat (filter f (seq s n))).
Proof.
  revert s. induction n as [|n IH]; intros s; cbn [seq filter];
    [constructor|].
  destruct (f s); [|apply IH].
  cbn [map]. constructor; [apply IH|].
  apply Forall_forall. intros z Hz. apply in_map_iff in Hz.
  destruct Hz as [k [<- Hk]]. apply filter_In in Hk. destruct Hk as [Hk _].
  apply in_seq in Hk. lia.
Qed.

(** X18.  With no selection file and one answer per post, each of them
    yes ([y], [yes]) or no ([n], [no], [s], [skip]) in any case and with
    any white space around it, the interactive selection returns and
    saves the positions of the posts answered with yes, in increasing
    order. *)
Theorem X18_interactive_selection_answers
        (posts : list SiteGenerator.Post) (answers : list str) :
  let yes := fun line =>
    one_of ["y" : str; "yes" : str] (Py.lower (Py.strip line)) in
  let no := fun line =>
    one_of ["n" : str; "no" : str; "s" : str; "skip" : str]
           (Py.lower (Py.strip line)) in
  List.length answers = List.length posts ->
  Forall (fun line => yes line = true \/ no line = true) answers ->
  let chosen :=
    map Z.of_nat (filter (fun k => yes (nth k answers []))
                         (seq 0 (List.length posts))) in
  interactive_selection None posts answers = (Returned chosen, Some chosen).
Proof.
  cbv zeta. intros Hlen Hall.
  unfold interactive_selection. cbv zeta. cbn [load_selection].
  rewrite (review_answers posts _ (fun line => eq_refl) posts answers [] 0
                          Hlen Hall)
    by (intros i []).
  cbn [app file_after]. unfold save_selection.
  rewrite sorted_set_fixed by apply positions_strict.
  reflexivity.
Qed.

(** *** The options of the bulk selection *)

Lemma add_all_In (i : Z) (indices selected : list Z) :
  In i (add_all indices selected) <-> In i selected \/ In i indices.
Proof.
  unfold add_all. revert selected.
  induction indices as [|j indices IH]; intros selected; cbn [fold_left].
  - split; [auto | intros [H|[]]; exact H].
  - rewrite IH, add_In. simpl. split; intros H.
    + destruct H as [[-> | H] | H]; auto.
    + destruct H as [H | [-> | H]]; auto.
Qed.

Lemma years_append_listed (years : list (str * list Z)) (y0 y : str)
      (i0 i : Z) :
  listed (years_append y0 i0 years) y i
  <-> listed years y i \/ (y = y0 /\ i = i0).
Proof.
  unfold listed. induction years as [|[y1 l1] years IH];
    cbn [years_append years_get].
  - destruct (Py.str_eqb y0 y) eqn:E.
    + apply str_eqb_eq in E. subst. split.
      * intros [l [[= <-] [-> | []]]]. right. auto.
      * intros [[l [H _]] | [_ ->]]; [discriminate|].
        eexists. split; [reflexivity | left; reflexivity].
    + split.
      * intros [l [H _]]. discriminate.
      * intros [[l [H _]] | [-> _]]; [discriminate|].
        assert (Py.str_eqb y0 y0 = true) by (apply str_eqb_eq; reflexivity).
        congruence.
  - destruct (Py.str_eqb y1 y0) eqn:E0; cbn [years_get].
    + apply str_eqb_eq in E0. subst y1.
      destruct (Py.str_eqb y0 y) eqn:E.
      * apply str_eqb_eq in E. subst y. split.
        -- intros [l [[= <-] Hi]]. apply in_app_iff in Hi.
           destruct Hi as [Hi | [-> | []]]; [left | right; auto].
           eexists. split; [reflexivity | exact Hi].
        -- intros [[l [[= <-] Hi]] | [_ ->]];
             (eexists; split; [reflexivity|]); apply in_app_iff;
             [left; exact Hi | right; left; reflexivity].
      * split.
        -- intros H. left. exact H.
        -- intros [H | [-> _]]; [exact H|].
           assert (Py.str_eqb y0 y0 = true)
             by (apply str_eqb_eq; reflexivity).
           congruence.
    + destruct (Py.str_eqb y1 y) eqn:E.
      * apply str_eqb_eq in E. subst y1. split.
        -- intros H. left. exact H.
        -- intros [H | [-> _]]; [exact H|].
           assert (Py.str_eqb y0 y0 = true)
             by (apply str_eqb_eq; reflexivity).
           congruence.
      * exact IH.
Qed.

Lemma years_index_listed (posts : list SiteGenerator.Post) :
  forall (years years' : list (str * list Z)) (idx : Z),
    years_index years idx posts = Ok years' ->
    forall y i,
      listed years' y i
      <-> listed years y i
          \/ exists k post,
               nth_error posts k = Some post
               /\ i = idx + Z.of_nat k
               /\ year_of (SiteGenerator.date post) "Unknown" = Ok y.
Proof.
  induction posts as [|post posts IH]; intros years years' idx H y i.
  - injection H as <-. split; [auto|].
    intros [H | [k [p [Hk _]]]]; [exact H|]. destruct k; discriminate.
  - cbn [years_index] in H.
    destruct (year_of (SiteGenerator.date post) "Unknown") as [y0|e] eqn:Ey;
      [|discriminate].
    rewrite (IH _ _ _ H), years_append_listed. split.
    + intros [[Hl | [-> ->]] | [k [p [Hk [-> Hy]]]]].
      * left. exact Hl.
      * right. exists 0%nat, post. split; [reflexivity|].
        split; [lia | exact Ey].
      * right. exists (S k), p. split; [exact Hk|]. split; [lia | exact Hy].
    + intros [Hl | [k [p [Hk [-> Hy]]]]]; [auto|].
      destruct k as [|k]; cbn [nth_error] in Hk.
      * injection Hk as <-. left. right. split; [congruence | lia].
      * right. exists k, p. split; [exact Hk|]. split; [lia | exact Hy].
Qed.

Lemma add_years_In (years : list (str * list Z)) (fields : list str)
      (selected : list Z) (i : Z) :
  In i (add_years years fields selected)
  <-> In i selected
      \/ exists field, In field fields /\ listed years (Py.strip field) i.
Proof.
  revert selected. induction fields as [|field fields IH]; intros selected;
    cbn [add_years].
  - split; [auto | intros [H | [f [[] _]]]; exact H].
  - cbv zeta.
    destruct (years_get (Py.strip field) years) as [l|] eqn:E; rewrite IH.
    + rewrite add_all_In. split.
      * intros [[H | H] | [f [Hf Hl]]]; [auto | |].
        -- right. exists field. split; [left; reflexivity|].
           exists l. auto.
        -- right. exists f. split; [right; exact Hf | exact Hl].
      * intros [H | [f [[<- | Hf] Hl]]]; [auto | |].
        -- destruct Hl as [l' [Hg Hi]]. rewrite E in Hg.
           injection Hg as <-. auto.
        -- right. exists f. auto.
    + split.
      * intros [H | [f [Hf Hl]]]; [auto|].
        right. exists f. split; [right; exact Hf | exact Hl].
      * intros [H | [f [[<- | Hf] Hl]]]; [auto | |].
        -- destruct Hl as [l' [Hg _]]. rewrite E in Hg. discriminate.
        -- right. exists f. auto.
Qed.

Lemma add_where_In (test : SiteGenerator.Post -> result bool)
      (posts : list SiteGenerator.Post) :
  forall (idx : Z) (selected selected' : list Z),
    add_where test idx posts selected = Ok selected' ->
    forall i,
      In i selected'
      <-> In i selected
          \/ exists k post,
               nth_error posts k = Some post
               /\ i = idx + Z.of_nat k /\ test post = Ok true.
Proof.
  induction posts as [|post posts IH]; intros idx selected selected' H i.
  - injection H as <-. split; [auto|].
    intros [H | [k [p [Hk _]]]]; [exact H|]. destruct k; discriminate.
  - cbn [add_where] in H.
    destruct (test post) as [b|e] eqn:Et; [|discriminate].
    rewrite (IH _ _ _ H). split.
    + intros [Hs | [k [p [Hk [-> Hp]]]]].
      * destruct b; [|auto]. apply add_In in Hs.
        destruct Hs as [-> | Hs]; [|auto].
        right. exists 0%nat, post. split; [reflexivity|].
        split; [lia | exact Et].
      * right. exists (S k), p. split; [exact Hk|]. split; [lia | exact Hp].
    + intros [Hs | [k [p [Hk [-> Hp]]]]].
      * left. destruct b; [apply add_In; auto | exact Hs].
      * destruct k as [|k]; cbn [nth_error] in Hk.
        -- injection Hk as <-. left. rewrite Hp in Et. injection Et as <-.
           apply add_In. left. lia.
        -- right. exists k, p. split; [exact Hk|].
           split; [lia | exact Hp].
Qed.

(** *** What the tool leaves in the file *)

Lemma known_saved (selection_file : option (list Z))
      (posts : list SiteGenerator.Post) (selected : list Z) :
  known selection_file posts selected ->
  known selection_file posts (save_selection selected).
Proof.
  intros H i Hi. apply H, (proj1 (sorted_set_In _ _)), Hi.
Qed.

Lemma known_positions (selection_file : option (list Z))
      (posts : list SiteGenerator.Post) :
  known selection_file posts (all_positions posts).
Proof.
  intros i Hi. unfold all_positions in Hi. apply in_map_iff in Hi.
  destruct Hi as [k [<- Hk]]. apply in_seq in Hk. right. unfold Py.len. lia.
Qed.

Lemma nth_error_position {A} (l : list A) (k : nat) (x : A) :
  nth_error l k = Some x -> 0 <= 0 + Z.of_nat k < Py.len l.
Proof.
  intros H. assert (k < List.length l)%nat
    by (apply nth_error_Some; congruence).
  unfold Py.len. lia.
Qed.

Lemma known_years (selection_file : option (list Z))
      (posts : list SiteGenerator.Post) (years : list (str * list Z))
      (fields : list str) (selected : list Z) :
  years_index [] 0 posts = Ok years ->
  known selection_file posts selected ->
  known selection_file posts (add_years years fields selected).
Proof.
  intros Hy Hk i Hi. apply add_years_In in Hi.
  destruct Hi as [Hi | [field [_ Hl]]]; [apply Hk, Hi|].
  apply (years_index_listed _ _ _ _ Hy) in Hl.
  destruct Hl as [[l [Hl _]] | [k [post [Hn [-> _]]]]]; [discriminate|].
  right. eapply nth_error_position, Hn.
Qed.

Lemma known_where (selection_file : option (list Z))
      (posts : list SiteGenerator.Post)
      (test : SiteGenerator.Post -> result bool)
      (selected selected' : list Z) :
  add_where test 0 posts selected = Ok selected' ->
  known selection_file posts selected ->
  known selection_file posts selected'.
Proof.
  intros Ha Hk i Hi. apply (add_where_In _ _ _ _ _ Ha) in Hi.
  destruct Hi as [Hi | [k [post [Hn [-> _]]]]]; [apply Hk, Hi|].
  right. eapply nth_error_position, Hn.
Qed.

Lemma interactive_file (file0 selection_file : option (list Z))
      (posts : list SiteGenerator.Post) (inputs : list str) :
  known file0 posts (load_selection selection_file) ->
  let r := interactive_selection selection_file posts inputs in
  (snd r = selection_file
   \/ exists selected,
        snd r = Some (save_selection selected)
        /\ known file0 posts selected)
  /\ (forall selected,
         fst r = Returned selected ->
         snd r = Some (save_selection selected)
         /\ known file0 posts selected).
Proof.
  intros Hk. unfold interactive_selection. cbv zeta. cbn [fst snd].
  destruct (review posts (load_selection selection_file) 0 posts inputs)
    as [selected| | |] eqn:Er; cbn [file_after];
    try (split; [left; reflexivity | intros s Hs; discriminate]).
  apply review_extends in Er. destruct Er as [_ Hb].
  assert (Hs : known file0 posts selected).
  { intros i Hi. destruct (Hb i Hi) as [H|H]; [apply Hk, H | right; lia]. }
  split.
  - right. exists selected. auto.
  - intros s [= <-]. auto.
Qed.

Lemma bulk_loop_file (selection_file : option (list Z))
      (posts : list SiteGenerator.Post) :
  forall (n : nat) (inputs : list str) (selected : list Z),
    (List.length inputs <= n)%nat ->
    known selection_file posts selected ->
    let r := bulk_loop selection_file posts selected inputs in
    (snd r = selection_file
     \/ exists selected',
          snd r = Some (save_selection selected')
          /\ known selection_file posts selected')
    /\ (forall selected',
           fst r = Returned selected' ->
           snd r = Some (save_selection selected')
           /\ known selection_file posts selected').
Proof.
  cbv zeta.
  induction n as [|n IH]; intros inputs selected Hlen Hk.
  { destruct inputs; [|cbn [List.length] in Hlen; lia].
    split; [left; reflexivity | intros s Hs; discriminate]. }
  destruct inputs as [|line inputs].
  { split; [left; reflexivity | intros s Hs; discriminate]. }
  cbn [List.length] in Hlen. cbn [bulk_loop]. cbv zeta.
  destruct (Py.str_eqb (Py.strip line) "1").
  { apply IH; [lia | apply known_positions]. }
  destruct (Py.str_eqb (Py.strip line) "2").
  { destruct (years_index [] 0 posts) as [years|e] eqn:Ey;
      [|split; [left; reflexivity | intros s Hs; discriminate]].
    destruct inputs as [|line2 inputs];
      [split; [left; reflexivity | intros s Hs; discriminate]|].
    cbn [List.length] in Hlen.
    apply IH; [lia | apply known_years; assumption]. }
  destruct (Py.str_eqb (Py.strip line) "3").
  { destruct (add_where has_hashtags 0 posts selected) as [sel|e] eqn:Ea;
      [|split; [left; reflexivity | intros s Hs; discriminate]].
    apply IH; [lia | eapply known_where; eassumption]. }
  destruct (Py.str_eqb (Py.strip line) "4").
  { destruct (add_where has_location 0 posts selected) as [sel|e] eqn:Ea;
      [|split; [left; reflexivity | intros s Hs; discriminate]].
    apply IH; [lia | eapply known_where; eassumption]. }
  destruct (Py.str_eqb (Py.strip line) "5").
  { destruct inputs as [|line1 inputs];
      [split; [left; reflexivity | intros s Hs; discriminate]|].
    destruct inputs as [|line2 inputs];
      [split; [left; reflexivity | intros s Hs; discriminate]|].
    cbn [List.length] in Hlen.
    destruct (add_where (in_years (Py.strip line1) (Py.strip line2)) 0
                        posts selected) as [sel|e] eqn:Ea;
      [|split; [left; reflexivity | intros s Hs; discriminate]].
    apply IH; [lia | eapply known_where; eassumption]. }
  destruct (Py.str_eqb (Py.strip line) "6").
  { destruct inputs as [|line1 inputs];
      [split; [left; reflexivity | intros s Hs; discriminate]|].
    cbn [List.length] in Hlen.
    destruct (Py.str_eqb (Py.lower (Py.strip line1)) "y").
    - apply IH; [lia | intros i []].
    - apply IH; [lia | exact Hk]. }
  destruct (Py.str_eqb (Py.strip line) "7").
  { destruct (view_selected posts selected) as [u|e];
      [|split; [left; reflexivity | intros s Hs; discriminate]].
    apply IH; [lia | exact Hk]. }
  destruct (Py.str_eqb (Py.strip line) "8").
  { pose proof (interactive_file selection_file
                                 (Some (save_selection selected))
                                 posts inputs (known_saved _ _ _ Hk)) as Hi.
    cbv zeta in Hi. destruct Hi as [[Hi | Hi] Hr].
    - split; [|exact Hr]. right. exists selected. auto.
    - split; [right; exact Hi | exact Hr]. }
  destruct (Py.str_eqb (Py.strip line) "9").
  { cbn [fst snd]. split.
    - right. exists selected. auto.
    - intros s [= <-]. auto. }
  destruct (Py.str_eqb (Py.strip line) "0").
  { split; [left; reflexivity | intros s Hs; discriminate]. }
  apply IH; [lia | exact Hk].
Qed.

Lemma main_file (selection_file : option (list Z))
      (posts : list SiteGenerator.Post) (inputs : list str) :
  let r := SelectPosts.main selection_file posts inputs in
  (snd r = selection_file
   \/ exists selected',
        snd r = Some (save_selection selected')
        /\ known selection_file posts selected')
  /\ (forall selected',
         fst r = Returned selected' ->
         snd r = Some (save_selection selected')
         /\ known selection_file posts selected').
Proof.
  cbv zeta.
  assert (Hload : known selection_file posts (load_selection selection_file))
    by (intros i Hi; left; exact Hi).
  unfold SelectPosts.main.
  destruct (negb (Py.truthy posts)).
  { split; [left; reflexivity | intros s Hs; discriminate]. }
  destruct inputs as [|line inputs].
  { split; [left; reflexivity | intros s Hs; discriminate]. }
  cbv zeta.
  destruct (Py.str_eqb (Py.strip line) "1").
  { unfold bulk_selection.
    apply (bulk_loop_file selection_file posts (List.length inputs));
      [apply Nat.le_refl | exact Hload]. }
  destruct (Py.str_eqb (Py.strip line) "2").
  { apply interactive_file. exact Hload. }
  split; [left; reflexivity | intros s Hs; discriminate].
Qed.

(** X19.  Whatever is typed, the selection tool leaves the file as it
    was or writes an array of indices in increasing order, each once,
    every one of which was in the file before or is the position of a
    post.  When it returns a selection, the file holds this selection. *)
Theorem X19_selection_file_is_kept_or_saved
        (selection_file : option (list Z))
        (posts : list SiteGenerator.Post) (inputs : list str) :
  let r := SelectPosts.main selection_file posts inputs in
  (snd r = selection_file
   \/ exists saved,
        snd r = Some saved
        /\ StronglySorted Z.lt saved
        /\ forall i, In i saved ->
                     In i (load_selection selection_file)
                     \/ 0 <= i < Py.len posts)
  /\ (forall selected,
         fst r = Returned selected ->
         snd r = Some (save_selection selected)
         /\ forall i, In i selected <-> In i (save_selection selected)).
Proof.
  cbv zeta.
  destruct (main_file selection_file posts inputs)
    as [[Hf | [sel [Hf Hk]]] Hr]; split.
  - left. exact Hf.
  - intros s Hs. destruct (Hr s Hs) as [Hs' _]. split; [exact Hs'|].
    intros i. symmetry. apply sorted_set_In.
  - right. exists (save_selection sel). split; [exact Hf|].
    split; [apply sorted_set_strict | apply known_saved, Hk].
  - intros s Hs. destruct (Hr s Hs) as [Hs' _]. split; [exact Hs'|].
    intros i. symmetry. apply sorted_set_In.
Qed.

Lemma pick_in_range (n : Z) (l : list Z) :
  (forall i, In i l -> 0 <= i < n) ->
  GenerateSite.pick n l = Ok (map Z.to_nat l).
Proof.
  induction l as [|i l IH]; intros H; [reflexivity|].
  cbn [GenerateSite.pick map].
  assert (Hi : 0 <= i < n) by (apply H; left; reflexivity).
  rewrite IH by (intros j Hj; apply H; right; exact Hj).
  destruct (Z.ltb_spec i n); [|lia].
  destruct (Z.ltb_spec i (- n)); [lia|].
  destruct (Z.ltb_spec i 0); [lia | reflexivity].
Qed.

Lemma selected_in_range (indices : list Z)
      (posts : list SiteGenerator.Post) :
  (forall i, In i indices -> 0 <= i < Py.len posts) ->
  GenerateSite.selected_posts (Some indices) posts
  = Ok (if Py.truthy indices
        then map Z.to_nat (GenerateSite.sorted_set indices)
        else seq 0 (List.length posts)).
Proof.
  intros H. unfold GenerateSite.selected_posts. cbv zeta.
  destruct indices as [|i l]; [reflexivity|].
  rewrite sorted_set_truthy by discriminate. cbn [Py.truthy].
  apply pick_in_range. intros j Hj.
  apply H, (proj1 (sorted_set_In _ _)), Hj.
Qed.

(** X20.  When the file held only positions of posts, or did not
    exist, the file the selection tool leaves is read by the site
    generator without error: the feed is made of the posts at the
    positions in the file, in increasing order, and of every post when
    the array in the file is empty. *)
Theorem X20_saved_selection_is_read
        (selection_file : option (list Z))
        (posts : list SiteGenerator.Post) (inputs : list str)
        (saved : list Z) :
  (forall i, In i (load_selection selection_file) -> 0 <= i < Py.len posts) ->
  snd (SelectPosts.main selection_file posts inputs) = Some saved ->
  GenerateSite.selected_posts (Some saved) posts
  = Ok (if Py.truthy saved
        then map Z.to_nat (GenerateSite.sorted_set saved)
        else seq 0 (List.length posts)).
Proof.
  intros Hfile Hs. apply selected_in_range.
  destruct (main_file selection_file posts inputs)
    as [[Hf | [sel [Hf Hk]]] _]; rewrite Hs in Hf.
  - rewrite <- Hf in Hfile. exact Hfile.
  - injection Hf as ->. intros i Hi.
    apply (proj1 (sorted_set_In _ _)) in Hi.
    destruct (Hk i Hi) as [H|H]; [apply Hfile, H | exact H].
Qed.
End SelectionToolFacts.

(** ** The year of a post *)

Section YearFacts.
Import Datetime SelectPosts.

Variable utcoffset : Z -> Z.

Lemma contains_In (s : str) (c : ascii) : Py.contains s c = true <-> In c s.
Proof.
  unfold Py.contains. rewrite existsb_exists. split.
  - intros [x [Hx E]]. apply Ascii.eqb_eq in E. subst. exact Hx.
  - intros H. exists c. split; [exact H | apply Ascii.eqb_refl].
Qed.

(** The first field of a split, and what is split after it. *)
Lemma split_first (sep : ascii) (s : str) :
  exists field fields,
    Py.split_char sep s = field :: fields
    /\ ~ In sep field
    /\ ((s = field /\ fields = [])
        \/ exists s', s = field ++ sep :: s'
                      /\ fields = Py.split_char sep s').
Proof.
  induction s as [|c s [field [fields [E [Hn H]]]]]; cbn [Py.split_char].
  - exists [], []. split; [reflexivity|]. split; [intros []|]. left. auto.
  - destruct (Ascii.eqb_spec c sep) as [->|Hc].
    + exists [], (Py.split_char sep s). split; [reflexivity|].
      split; [intros []|]. right. exists s. auto.
    + rewrite E. exists (c :: field), fields. split; [reflexivity|].
      split; [intros [H'|H']; [congruence | contradiction]|].
      destruct H as [[-> ->] | [s' [-> ->]]].
      * left. auto.
      * right. exists s'. auto.
Qed.

Lemma split_char_field (sep : ascii) (pre rest : str) :
  ~ In sep pre ->
  Py.split_char sep (pre ++ sep :: rest) = pre :: Py.split_char sep rest.
Proof.
  induction pre as [|c pre IH]; intros Hn; cbn [app Py.split_char].
  - rewrite Ascii.eqb_refl. reflexivity.
  - destruct (Ascii.eqb_spec c sep) as [->|Hc].
    + exfalso. apply Hn. left. reflexivity.
    + rewrite IH by (intros H; apply Hn; right; exact H). reflexivity.
Qed.

Lemma split_char_none (sep : ascii) (s : str) :
  ~ In sep s -> Py.split_char sep s = [s].
Proof.
  induction s as [|c s IH]; intros Hn; cbn [Py.split_char]; [reflexivity|].
  destruct (Ascii.eqb_spec c sep) as [->|Hc].
  - exfalso. apply Hn. left. reflexivity.
  - rewrite IH by (intros H; apply Hn; right; exact H). reflexivity.
Qed.

Lemma split_from_nil (s word : str) :
  Py.split_from word s = []
  <-> word = [] /\ forallb Py.isspace s = true.
Proof.
  revert word. induction s as [|c s IH]; intros word;
    cbn [Py.split_from forallb].
  - destruct word; cbn [Py.truthy]; split;
      [auto | auto | discriminate | intros [H _]; discriminate].
  - destruct (Py.isspace c); cbn [andb].
    + destruct word as [|w word]; cbn [Py.truthy app].
      * rewrite IH. split; intros [_ H]; auto.
      * split; [discriminate | intros [H _]; discriminate].
    + rewrite IH. split.
      * intros [H _]. destruct word; discriminate.
      * intros [_ H]. discriminate.
Qed.

Lemma split_from_word (w word s : str) :
  forallb (fun c => negb (Py.isspace c)) w = true ->
  Py.split_from word (w ++ s) = Py.split_from (word ++ w) s.
Proof.
  revert word. induction w as [|c w IH]; intros word H; cbn [app].
  - rewrite app_nil_r. reflexivity.
  - cbn [forallb] in H. apply andb_true_iff in H. destruct H as [Hc Hw].
    cbn [Py.split_from]. apply negb_true_iff in Hc. rewrite Hc.
    rewrite IH by exact Hw. rewrite <- app_assoc. reflexivity.
Qed.

Lemma lstrip_nil (s : str) :
  Py.lstrip s = [] <-> forallb Py.isspace s = true.
Proof.
  induction s as [|c s IH]; cbn [Py.lstrip forallb]; [split; auto|].
  destruct (Py.isspace c); cbn [andb]; [exact IH|].
  split; discriminate.
Qed.

Lemma strip_nil (s : str) :
  Py.strip s = [] <-> forallb Py.isspace s = true.
Proof.
  unfold Py.strip, Py.rstrip. split.
  - intros H. apply (f_equal (@rev ascii)) in H.
    rewrite rev_involutive in H. cbn [rev] in H.
    apply lstrip_nil in H.
    pose proof (lstrip_head s) as Hh.
    destruct (Py.lstrip s) as [|c r] eqn:E; [apply lstrip_nil, E|].
    exfalso. rewrite forallb_forall in H.
    specialize (H c). rewrite Hh in H.
    assert (false = true); [|discriminate].
    apply H. apply -> in_rev. left. reflexivity.
  - intros H. apply lstrip_nil in H. rewrite H. reflexivity.
Qed.

Lemma rstrip_last (s : str) (c : ascii) :
  Py.isspace c = false -> Py.rstrip (s ++ [c]) = s ++ [c].
Proof.
  intros Hc. unfold Py.rstrip. rewrite rev_app_distr. cbn [rev app].
  cbn [Py.lstrip]. rewrite Hc.
  change (c :: rev s) with ([c] ++ rev s).
  rewrite rev_app_distr, rev_involutive. reflexivity.
Qed.

(** The year of a date [<pre>, <year> <tail>]. *)
Lemma year_of_parts (pre year tail default : str) (y0 c : ascii) :
  ~ In ","%char pre ->
  ~ In ","%char (" "%char :: (y0 :: year) ++ " "%char :: tail ++ [c]) ->
  forallb (fun a => negb (Py.isspace a)) (y0 :: year) = true ->
  Py.isspace c = false ->
  year_of (pre ++ ","%char :: " "%char :: (y0 :: year)
                ++ " "%char :: tail ++ [c]) default
  = Ok (y0 :: year).
Proof.
  intros Hpre Hrest Hyear Hc. unfold year_of.
  assert (Hin : Py.contains (pre ++ ","%char :: " "%char :: (y0 :: year)
                                 ++ " "%char :: tail ++ [c]) "," = true).
  { apply contains_In, in_app_iff. right. left. reflexivity. }
  rewrite Hin, (split_char_field _ _ _ Hpre), (split_char_none _ _ Hrest).
  cbn [nth_error].
  assert (Hs : Py.strip (" "%char :: (y0 :: year) ++ " "%char :: tail ++ [c])
               = (y0 :: year) ++ " "%char :: tail ++ [c]).
  { unfold Py.strip.
    assert (Hy0 : Py.isspace y0 = false).
    { cbn [forallb] in Hyear. apply andb_true_iff in Hyear.
      apply negb_true_iff, Hyear. }
    assert (Hl : Py.lstrip (" "%char :: (y0 :: year)
                               ++ " "%char :: tail ++ [c])
                 = (y0 :: year) ++ " "%char :: tail ++ [c]).
    { cbn [Py.lstrip app].
      change (Py.isspace " ") with true. cbv iota. rewrite Hy0.
      reflexivity. }
    rewrite Hl.
    replace ((y0 :: year) ++ " "%char :: tail ++ [c])
      with (((y0 :: year) ++ " "%char :: tail) ++ [c])
      by (rewrite <- app_assoc; reflexivity).
    apply rstrip_last, Hc. }
  rewrite Hs. unfold Py.split_ws.
  rewrite (split_from_word _ _ _ Hyear). cbn [app Py.split_from].
  change (Py.isspace " ") with true. cbv iota. cbn [Py.truthy app].
  reflexivity.
Qed.

Lemma month_abbr_no_comma (m : Z) :
  1 <= m <= 12 ->
  existsb (Ascii.eqb ",") (nth (Z.to_nat (m - 1)) month_abbr []) = false.
Proof. intros H. cases_between m 1 12%nat. Qed.

Lemma digit_no_comma (k : Z) :
  0 <= k <= 9 -> Ascii.eqb "," (digit k) = false.
Proof. intros H. cases_between k 0 10%nat. Qed.

Lemma not_In_existsb (c : ascii) (s : str) :
  existsb (Ascii.eqb c) s = false -> ~ In c s.
Proof.
  intros H Hin. apply contains_In in Hin. unfold Py.contains in Hin.
  congruence.
Qed.

Lemma year_text_chars (s : str) :
  forallb (fun a => negb (Py.isspace a) && negb (Ascii.eqb "," a)) s = true ->
  forallb (fun a => negb (Py.isspace a)) s = true
  /\ existsb (Ascii.eqb ",") s = false.
Proof.
  induction s as [|c s IH]; cbn [forallb existsb]; [auto|].
  rewrite !andb_true_iff, orb_false_iff, !negb_true_iff.
  intros [[H1 H2] H3]. destruct (IH H3). auto.
Qed.

Lemma date_of_result (a b : str) : Ok a = Ok b -> a = b.
Proof. intros H. injection H as H. exact H. Qed.

(** X21.  The year the selection tool reads in the date the parser of
    the JSON export gave a post is the year of its local date, as the
    date has it: in decimal, without leading zeros.  For a post without
    date, of a timestamp that is zero or cannot be converted, it is the
    default of the option. *)
Theorem X21_year_of_formatted_date (t : Z) (date default : str) :
  InstagramJSONParser._format_timestamp utcoffset t = Ok date ->
  year_of date default
  = Ok match fromtimestamp utcoffset t with
       | Ok dt => if t =? 0 then default else Py.str_int (year dt)
       | Raise _ => default
       end.
Proof.
  unfold InstagramJSONParser._format_timestamp, Py.truthy_int.
  destruct (Z.eqb_spec t 0) as [E|E]; cbn [negb].
  { intros H. apply date_of_result in H. subst date.
    destruct (fromtimestamp utcoffset t); reflexivity. }
  destruct (fromtimestamp utcoffset t) as [dt|e] eqn:Ef.
  2: { destruct e; intros H; try discriminate;
       apply date_of_result in H; subst date; reflexivity. }
  intros H. apply date_of_result in H. subst date.
  destruct (localtime_valid utcoffset t dt Ef) as [_ [Hv [Hh Hmi]]].
  pose proof Hv as Hv'. unfold valid_date, MINYEAR, MAXYEAR in Hv'.
  rewrite !andb_true_iff, !Z.leb_le in Hv'.
  destruct Hv' as [[[[[Hy1 Hy2] Hm1] Hm2] Hd1] Hd2].
  assert (Hd31 : day dt <= 31).
  { revert Hd2. unfold _days_in_month.
    destruct ((month dt =? 2) && _is_leap (year dt)); [lia|].
    pose proof (month_length_le_31 (month dt) (conj Hm1 Hm2)) as H31.
    apply Z.leb_le in H31. lia. }
  pose proof (hour12_range _ Hh) as H12.
  change (list_ascii_of_string "%b %d, %Y %I:%M %p") with instagram_format.
  rewrite strftime_instagram.
  pose proof (str_int_year (year dt) (conj Hy1 Hy2)) as Hyt.
  destruct (Py.str_int (year dt)) as [|y0 yr]; [discriminate|].
  unfold year_text in Hyt. apply andb_true_iff in Hyt.
  destruct Hyt as [Hyt _]. apply year_text_chars in Hyt.
  destruct Hyt as [Hys Hyc].
  set (mon := nth (Z.to_nat (month dt - 1)) month_abbr []).
  set (x := if hour dt <? 12 then "A"%char else "P"%char).
  assert (Hshape :
    mon ++ " "%char :: pad2 (day dt)
        ++ ","%char :: " "%char :: (y0 :: yr)
        ++ " "%char :: pad2 (hour12 (hour dt))
        ++ ":"%char :: pad2 (minute dt)
        ++ " "%char :: (if hour dt <? 12 then "AM" : str else "PM" : str)
    = (mon ++ " "%char :: pad2 (day dt))
        ++ ","%char :: " "%char
        :: (y0 :: yr)
        ++ " "%char
        :: (pad2 (hour12 (hour dt)) ++ ":"%char :: pad2 (minute dt)
            ++ [" "%char; x])
        ++ ["M"%char]).
  { unfold x, pad2. cbn [app]. rewrite <- app_assoc. cbn [app].
    destruct (hour dt <? 12); reflexivity. }
  rewrite Hshape. clear Hshape.
  assert (Hdig : forall k, 0 <= k <= 9 ->
                           Ascii.eqb "," (digit k) = false
                           /\ Py.isspace (digit k) = false).
  { intros k Hk. split; [apply digit_no_comma | apply isspace_digit]; exact Hk. }
  assert (R1 : 0 <= day dt / 10 <= 9) by (Z.div_mod_to_equations; lia).
  assert (R2 : 0 <= day dt mod 10 <= 9) by (Z.div_mod_to_equations; lia).
  assert (R7 : 0 <= hour12 (hour dt) / 10 <= 9)
    by (Z.div_mod_to_equations; lia).
  assert (R8 : 0 <= hour12 (hour dt) mod 10 <= 9)
    by (Z.div_mod_to_equations; lia).
  assert (R9 : 0 <= minute dt / 10 <= 9) by (Z.div_mod_to_equations; lia).
  assert (R10 : 0 <= minute dt mod 10 <= 9) by (Z.div_mod_to_equations; lia).
  apply year_of_parts.
  - apply not_In_existsb. rewrite existsb_app.
    unfold mon. rewrite (month_abbr_no_comma _ (conj Hm1 Hm2)).
    unfold pad2. cbn [existsb orb].
    rewrite (proj1 (Hdig _ R1)), (proj1 (Hdig _ R2)). reflexivity.
  - apply not_In_existsb. cbn [existsb].
    rewrite existsb_app, Hyc. unfold pad2. cbn [app existsb].
    rewrite (proj1 (Hdig _ R7)), (proj1 (Hdig _ R8)),
      (proj1 (Hdig _ R9)), (proj1 (Hdig _ R10)).
    unfold x. destruct (hour dt <? 12); reflexivity.
  - exact Hys.
  - reflexivity.
Qed.

(** X22.  Reading the year of a date fails, with [IndexError], exactly
    when the date holds a comma and what stands between its first comma
    and the next one, or the end, is empty or white space. *)
Theorem X22_year_of_fails (date default : str) (e : exn) :
  year_of date default = Raise e
  <-> e = IndexError
      /\ exists pre field rest,
           date = pre ++ ","%char :: field ++ rest
           /\ ~ In ","%char pre
           /\ forallb Py.isspace field = true
           /\ (rest = [] \/ exists rest', rest = ","%char :: rest').
Proof.
  unfold year_of. split.
  - intros H.
    destruct (Py.contains date ",") eqn:Ec; [|discriminate].
    apply contains_In in Ec.
    destruct (split_first "," date) as [pre [fields [E [Hn Hs]]]].
    destruct Hs as [[-> _] | [s' [-> ->]]]; [contradiction|].
    rewrite E in H. cbn [nth_error] in H.
    destruct (split_first "," s') as [field [fields [E' [Hn' Hs']]]].
    rewrite E' in H. cbn [nth_error] in H.
    destruct (Py.split_ws (Py.strip field)) as [|y ys] eqn:Ew;
      [|discriminate].
    injection H as <-. split; [reflexivity|].
    apply split_from_nil in Ew. destruct Ew as [_ Ew].
    assert (Hsp : forallb Py.isspace field = true).
    { apply strip_nil.
      pose proof (lstrip_head field) as Hh.
      pose proof (rstrip_keeps_head _ Hh) as Hk.
      fold (Py.strip field) in Hk.
      destruct (Py.strip field) as [|c r]; [reflexivity|].
      cbn [forallb] in Ew. rewrite Hk in Ew. discriminate. }
    destruct Hs' as [[-> ->] | [s'' [-> ->]]].
    + exists pre, field, []. rewrite app_nil_r. auto.
    + exists pre, field, (","%char :: s''). split; [reflexivity|].
      split; [exact Hn|]. split; [exact Hsp|]. right. eauto.
  - intros [-> [pre [field [rest [-> [Hn [Hsp Hr]]]]]]].
    assert (Hin : Py.contains (pre ++ ","%char :: field ++ rest) "," = true).
    { apply contains_In, in_app_iff. right. left. reflexivity. }
    rewrite Hin, (split_char_field _ _ _ Hn).
    assert (Hf : ~ In ","%char field).
    { intros H. rewrite forallb_forall in Hsp. specialize (Hsp _ H).
      discriminate. }
    destruct Hr as [-> | [rest' ->]].
    + rewrite app_nil_r, (split_char_none _ _ Hf). cbn [nth_error].
      rewrite (proj2 (strip_nil field) Hsp). reflexivity.
    + rewrite (split_char_field _ _ _ Hf). cbn [nth_error].
      rewrite (proj2 (strip_nil field) Hsp). reflexivity.
Qed.
End YearFacts.

(** ** The options of the bulk selection *)

(** Decides the comparisons of a choice that is known with the
    commands of the menu. *)
Ltac decide_choice :=
  repeat match goal with
         | |- context [Py.str_eqb (list_ascii_of_string ?a)
                                  (list_ascii_of_string ?b)] =>
             let v := eval vm_compute in
                        (Py.str_eqb (list_ascii_of_string a)
                                    (list_ascii_of_string b)) in
             change (Py.str_eqb (list_ascii_of_string a)
                                (list_ascii_of_string b)) with v;
             cbv match
         end.

Section BulkFacts.
Import SelectPosts.

Lemma bulk_option_2 (selection_file : option (list Z))
      (posts : list SiteGenerator.Post) (selected : list Z)
      (line : str) (inputs : list str) :
  Py.strip line = ("2" : str) ->
  bulk_loop selection_file posts selected (line :: inputs)
  = match years_index [] 0 posts with
    | Raise e => (Raised e, selection_file)
    | Ok years =>
        match inputs with
        | [] => (EOFError, selection_file)
        | line :: inputs =>
            bulk_loop selection_file posts
                      (add_years years
                                 (Py.split_char "," (Py.strip line)) selected)
                      inputs
        end
    end.
Proof.
  intros H. cbn [bulk_loop]. cbv zeta. rewrite H. decide_choice.
  reflexivity.
Qed.

Lemma bulk_option_5 (selection_file : option (list Z))
      (posts : list SiteGenerator.Post) (selected : list Z)
      (line : str) (inputs : list str) :
  Py.strip line = ("5" : str) ->
  bulk_loop selection_file posts selected (line :: inputs)
  = match inputs with
    | [] => (EOFError, selection_file)
    | line1 :: inputs =>
        match inputs with
        | [] => (EOFError, selection_file)
        | line2 :: inputs =>
            match add_where (in_years (Py.strip line1) (Py.strip line2)) 0
                            posts selected with
            | Ok selected => bulk_loop selection_file posts selected inputs
            | Raise e => (Raised e, selection_file)
            end
        end
    end.
Proof.
  intros H. cbn [bulk_loop]. cbv zeta. rewrite H. decide_choice.
  reflexivity.
Qed.

Lemma bulk_option_7 (selection_file : option (list Z))
      (posts : list SiteGenerator.Post) (selected : list Z)
      (line : str) (inputs : list str) :
  Py.strip line = ("7" : str) ->
  bulk_loop selection_file posts selected (line :: inputs)
  = match view_selected posts selected with
    | Ok _ => bulk_loop selection_file posts selected inputs
    | Raise e => (Raised e, selection_file)
    end.
Proof.
  intros H. cbn [bulk_loop]. cbv zeta. rewrite H. decide_choice.
  reflexivity.
Qed.

Lemma bulk_option_9 (selection_file : option (list Z))
      (posts : list SiteGenerator.Post) (selected : list Z)
      (line : str) (inputs : list str) :
  Py.strip line = ("9" : str) ->
  bulk_loop selection_file posts selected (line :: inputs)
  = (Returned selected, Some (save_selection selected)).
Proof.
  intros H. cbn [bulk_loop]. cbv zeta. rewrite H. decide_choice.
  reflexivity.
Qed.

Lemma year_of_raise (date default : str) (e : exn) :
  year_of date default = Raise e -> e = IndexError.
Proof.
  unfold year_of.
  destruct (Py.contains date ","); [|discriminate].
  destruct (nth_error (Py.split_char "," date) 1) as [field|];
    [|intros [= <-]; reflexivity].
  destruct (Py.split_ws (Py.strip field)); [|discriminate].
  intros [= <-]. reflexivity.
Qed.

Lemma years_index_result (posts : list SiteGenerator.Post) :
  forall (years : list (str * list Z)) (idx : Z),
    match years_index years idx posts with
    | Ok _ =>
        forall post, In post posts ->
                     exists y, year_of (SiteGenerator.date post) "Unknown"
                               = Ok y
    | Raise e =>
        e = IndexError
        /\ exists post,
             In post posts
             /\ year_of (SiteGenerator.date post) "Unknown" = Raise IndexError
    end.
Proof.
  induction posts as [|post posts IH]; intros years idx; cbn [years_index].
  - intros post [].
  - destruct (year_of (SiteGenerator.date post) "Unknown") as [y|e] eqn:Ey.
    + specialize (IH (years_append y idx years) (idx + 1)).
      destruct (years_index (years_append y idx years) (idx + 1) posts)
        as [years'|e].
      * intros p [<- | Hp]; [eauto | apply IH, Hp].
      * destruct IH as [-> [p [Hp Hr]]]. split; [reflexivity|].
        exists p. split; [right; exact Hp | exact Hr].
    + pose proof (year_of_raise _ _ _ Ey) as ->. split; [reflexivity|].
      exists post. split; [left; reflexivity | exact Ey].
Qed.

Lemma add_where_result (test : SiteGenerator.Post -> result bool)
      (posts : list SiteGenerator.Post) :
  forall (idx : Z) (selected : list Z),
    match add_where test idx posts selected with
    | Ok _ => forall post, In post posts -> exists b, test post = Ok b
    | Raise e => exists post, In post posts /\ test post = Raise e
    end.
Proof.
  induction posts as [|post posts IH]; intros idx selected;
    cbn [add_where].
  - intros post [].
  - destruct (test post) as [b|e] eqn:Et.
    + specialize (IH (idx + 1) (if b then add idx selected else selected)).
      destruct (add_where test (idx + 1) posts
                          (if b then add idx selected else selected))
        as [sel|e].
      * intros p [<- | Hp]; [eauto | apply IH, Hp].
      * destruct IH as [p [Hp Hr]]. exists p. split; [right; exact Hp|].
        exact Hr.
    + exists post. split; [left; reflexivity | exact Et].
Qed.

(** X23.  Option 2 of the bulk selection, followed by option 9: when
    the year of some post cannot be read the tool fails with
    [IndexError] and leaves the file as it was.  Otherwise it saves
    what the file held and, beyond it, the positions of the posts whose
    year is one of those entered, separated by commas and with any
    white space around them. *)
Theorem X23_select_by_year (selection_file : option (list Z))
        (posts : list SiteGenerator.Post)
        (line1 line2 line3 : str) (rest : list str) :
  Py.strip line1 = ("2" : str) ->
  Py.strip line3 = ("9" : str) ->
  let r := bulk_selection selection_file posts
                          (line1 :: line2 :: line3 :: rest) in
  ((exists post,
       In post posts
       /\ year_of (SiteGenerator.date post) "Unknown" = Raise IndexError) ->
   r = (Raised IndexError, selection_file))
  /\ ((forall post, In post posts ->
                    year_of (SiteGenerator.date post) "Unknown"
                    <> Raise IndexError) ->
      exists selected,
        r = (Returned selected, Some (save_selection selected))
        /\ forall i,
            In i selected
            <-> In i (load_selection selection_file)
                \/ exists k post field,
                     nth_error posts k = Some post
                     /\ i = Z.of_nat k
                     /\ In field (Py.split_char "," (Py.strip line2))
                     /\ year_of (SiteGenerator.date post) "Unknown"
                        = Ok (Py.strip field)).
Proof.
  intros H1 H3. cbv zeta. unfold bulk_selection.
  rewrite (bulk_option_2 _ _ _ _ _ H1).
  pose proof (years_index_result posts [] 0) as Hres.
  destruct (years_index [] 0 posts) as [years|e] eqn:Ey.
  - split.
    + intros [post [Hp Hr]]. destruct (Hres post Hp) as [y Hy]. congruence.
    + intros _. rewrite (bulk_option_9 _ _ _ _ _ H3).
      eexists. split; [reflexivity|].
      intros i. rewrite add_years_In. split.
      * intros [Hi | [field [Hf Hl]]]; [auto|].
        apply (years_index_listed _ _ _ _ Ey) in Hl.
        destruct Hl as [[l [Hl _]] | [k [post [Hk [-> Hy]]]]];
          [discriminate|].
        right. exists k, post, field. rewrite Z.add_0_l. auto.
      * intros [Hi | [k [post [field [Hk [-> [Hf Hy]]]]]]]; [auto|].
        right. exists field. split; [exact Hf|].
        apply (years_index_listed _ _ _ _ Ey). right.
        exists k, post. rewrite Z.add_0_l. auto.
  - destruct Hres as [-> [post [Hp Hr]]]. split.
    + intros _. reflexivity.
    + intros H. exfalso. apply (H post Hp), Hr.
Qed.

Lemma str_leb_empty (a : str) : Py.str_leb a [] = true <-> a = [].
Proof. destruct a; cbn [Py.str_leb]; split; congruence. Qed.

(** X24.  Option 5 of the bulk selection, followed by option 9, when
    the year of every post can be read: the tool saves what the file
    held and, beyond it, the positions of the posts whose year lies
    between the two years entered, in the order of strings.  A post
    whose date holds no comma has the empty year: the option selects it
    exactly when the first year entered is empty. *)
Theorem X24_select_by_range (selection_file : option (list Z))
        (posts : list SiteGenerator.Post)
        (line1 line2 line3 line4 : str) (rest : list str) :
  Py.strip line1 = ("5" : str) ->
  Py.strip line4 = ("9" : str) ->
  (forall post, In post posts ->
                year_of (SiteGenerator.date post) "" <> Raise IndexError) ->
  let start_year := Py.strip line2 in
  let end_year := Py.strip line3 in
  exists selected,
    bulk_selection selection_file posts
                   (line1 :: line2 :: line3 :: line4 :: rest)
    = (Returned selected, Some (save_selection selected))
    /\ (forall i,
           In i selected
           <-> In i (load_selection selection_file)
               \/ exists k post year,
                    nth_error posts k = Some post
                    /\ i = Z.of_nat k
                    /\ year_of (SiteGenerator.date post) "" = Ok year
                    /\ Py.str_leb start_year year = true
                    /\ Py.str_leb year end_year = true)
    /\ (forall k post,
           nth_error posts k = Some post ->
           Py.contains (SiteGenerator.date post) "," = false ->
           (In (Z.of_nat k) selected
            <-> In (Z.of_nat k) (load_selection selection_file)
                \/ start_year = [])).
Proof.
  intros H1 H4 Hyears. cbv zeta. unfold bulk_selection.
  rewrite (bulk_option_5 _ _ _ _ _ H1).
  pose proof (add_where_result
                (in_years (Py.strip line2) (Py.strip line3)) posts 0
                (load_selection selection_file)) as Hres.
  destruct (add_where (in_years (Py.strip line2) (Py.strip line3)) 0 posts
                      (load_selection selection_file))
    as [selected|e] eqn:Ea.
  - rewrite (bulk_option_9 _ _ _ _ _ H4).
    exists selected. split; [reflexivity|].
    assert (Hsel : forall i,
               In i selected
               <-> In i (load_selection selection_file)
                   \/ exists k post year,
                        nth_error posts k = Some post
                        /\ i = Z.of_nat k
                        /\ year_of (SiteGenerator.date post) "" = Ok year
                        /\ Py.str_leb (Py.strip line2) year = true
                        /\ Py.str_leb year (Py.strip line3) = true).
    { intros i. rewrite (add_where_In _ _ _ _ _ Ea). split.
      - intros [Hi | [k [post [Hk [-> Ht]]]]]; [auto|].
        right. unfold in_years in Ht.
        destruct (year_of (SiteGenerator.date post) "") as [year|e] eqn:Ey;
          [|discriminate].
        injection Ht as Ht. apply andb_true_iff in Ht.
        exists k, post, year. rewrite Z.add_0_l. tauto.
      - intros [Hi | [k [post [year [Hk [-> [Hy [Ha Hb]]]]]]]]; [auto|].
        right. exists k, post. split; [exact Hk|].
        split; [lia|]. unfold in_years. rewrite Hy, Ha, Hb. reflexivity. }
    split; [exact Hsel|].
    intros k post Hk Hc. rewrite Hsel. split.
    + intros [Hi | [k' [post' [year [Hk' [E [Hy [Ha _]]]]]]]]; [auto|].
      apply Nat2Z.inj in E. subst k'. rewrite Hk in Hk'.
      injection Hk' as <-. unfold year_of in Hy. rewrite Hc in Hy.
      injection Hy as <-. right. apply str_leb_empty, Ha.
    + intros [Hi | Hs]; [auto|].
      right. exists k, post, []. split; [exact Hk|].
      split; [reflexivity|]. unfold year_of. rewrite Hc.
      split; [reflexivity|]. rewrite Hs. split; reflexivity.
  - exfalso. destruct Hres as [post [Hp Hr]].
    unfold in_years in Hr.
    destruct (year_of (SiteGenerator.date post) "") as [year|e'] eqn:Ey;
      [discriminate|].
    pose proof (year_of_raise _ _ _ Ey) as ->.
    apply (Hyears post Hp), Ey.
Qed.

Lemma view_each_result (posts : list SiteGenerator.Post)
      (indices : list Z) :
  match view_each posts indices with
  | Ok _ => forall i, In i indices -> - Py.len posts <= i < Py.len posts
  | Raise e =>
      e = IndexError
      /\ exists i, In i indices /\ (i < - Py.len posts \/ Py.len posts <= i)
  end.
Proof.
  induction indices as [|idx indices IH]; cbn [view_each].
  - intros i [].
  - unfold getitem.
    destruct (Z.ltb_spec idx (- Py.len posts)) as [Hlo|Hlo]; cbn [orb].
    { split; [reflexivity|]. exists idx. split; [left; reflexivity | lia]. }
    destruct (Z.leb_spec (Py.len posts) idx) as [Hhi|Hhi].
    { split; [reflexivity|]. exists idx. split; [left; reflexivity | lia]. }
    destruct (nth_error posts
                (Z.to_nat (if idx <? 0 then Py.len posts + idx else idx)))
      as [post|] eqn:En.
    + destruct (view_each posts indices) as [u|e].
      * intros i [<- | Hi]; [lia | apply IH, Hi].
      * destruct IH as [-> [i [Hi Hb]]]. split; [reflexivity|].
        exists i. split; [right; exact Hi | exact Hb].
    + exfalso. apply nth_error_None in En. unfold Py.len in *.
      destruct (Z.ltb_spec idx 0); lia.
Qed.

(** X25.  Option 7 of the bulk selection looks up the twenty lowest
    indices of the selection: when one of them is not the index of a
    post, the tool fails with [IndexError] and leaves the file as it
    was; otherwise the option changes nothing. *)
Theorem X25_view_selection (selection_file : option (list Z))
        (posts : list SiteGenerator.Post) (line : str) (rest : list str) :
  Py.strip line = ("7" : str) ->
  let n := Py.len posts in
  let shown :=
    firstn 20 (GenerateSite.sorted_set (load_selection selection_file)) in
  ((exists i, In i shown /\ (i < - n \/ n <= i)) ->
   bulk_selection selection_file posts (line :: rest)
   = (Raised IndexError, selection_file))
  /\ ((forall i, In i shown -> - n <= i < n) ->
      bulk_selection selection_file posts (line :: rest)
      = bulk_selection selection_file posts rest).
Proof.
  intros H7. cbv zeta. unfold bulk_selection.
  rewrite (bulk_option_7 _ _ _ _ _ H7).
  unfold view_selected.
  change (Py.slice_to (GenerateSite.sorted_set
                         (load_selection selection_file)) 20)
    with (firstn 20 (GenerateSite.sorted_set
                       (load_selection selection_file))).
  destruct (load_selection selection_file) as [|i0 l] eqn:El;
    cbn [Py.truthy negb].
  { split; [|reflexivity].
    intros [i [Hi _]]. exfalso.
    change (GenerateSite.sorted_set []) with (@nil Z) in Hi.
    destruct Hi. }
  pose proof (view_each_result
                posts (firstn 20 (GenerateSite.sorted_set (i0 :: l))))
    as Hres.
  destruct (view_each posts (firstn 20 (GenerateSite.sorted_set (i0 :: l))))
    as [u|e].
  - split; [|reflexivity].
    intros [i [Hi Hb]]. specialize (Hres i Hi). lia.
  - destruct Hres as [-> [i [Hi Hb]]]. split; [reflexivity|].
    intros H. specialize (H i Hi). lia.
Qed.
End BulkFacts.

(** ** The base URL of the feed *)

Section BaseURLFacts.
Import RSSFeed.

Lemma lstrip_char_split (c : ascii) (s : str) :
  exists k, s = repeat c k ++ Py.lstrip_char c s
            /\ match Py.lstrip_char c s with
               | [] => True
               | a :: _ => a <> c
               end.
Proof.
  induction s as [|a s [k [E H]]]; cbn [Py.lstrip_char].
  - exists 0%nat. split; [reflexivity | exact I].
  - destruct (Ascii.eqb_spec a c) as [->|Ha].
    + exists (S k). split; [cbn [repeat app]; f_equal; exact E | exact H].
    + exists 0%nat. split; [reflexivity | exact Ha].
Qed.

Lemma rev_repeat {A} (x : A) (k : nat) : rev (repeat x k) = repeat x k.
Proof.
  induction k as [|k IH]; [reflexivity|].
  cbn [repeat rev]. rewrite IH. symmetry. apply repeat_cons.
Qed.

(** X26.  The base URL the feed generator keeps is the given one
    without the slashes at its end: it does not end with a slash, and a
    URL that does not end with a slash is kept as it is. *)
Theorem X26_base_url_without_trailing_slashes (base_url : str) :
  (exists k, base_url = init base_url ++ repeat "/"%char k)
  /\ (forall s, init base_url <> s ++ ["/"%char])
  /\ ((forall s, base_url <> s ++ ["/"%char]) -> init base_url = base_url)
  /\ init (init base_url) = init base_url.
Proof.
  unfold init, Py.rstrip_char.
  destruct (lstrip_char_split "/" (rev base_url)) as [k [E H]].
  assert (Hno : forall s, rev (Py.lstrip_char "/" (rev base_url))
                          <> s ++ ["/"%char]).
  { intros s Hs. apply (f_equal (@rev ascii)) in Hs.
    rewrite rev_involutive, rev_app_distr in Hs. cbn [rev app] in Hs.
    rewrite Hs in H. apply H. reflexivity. }
  assert (Hfix : forall u : str,
             (forall s, u <> s ++ ["/"%char]) ->
             rev (Py.lstrip_char "/" (rev u)) = u).
  { intros u Hu. destruct (lstrip_char_split "/" (rev u)) as [j [Ej _]].
    destruct j as [|j].
    - cbn [repeat app] in Ej. rewrite <- Ej. apply rev_involutive.
    - exfalso. apply (f_equal (@rev ascii)) in Ej.
      rewrite rev_involutive, rev_app_distr, rev_repeat in Ej.
      cbn [repeat] in Ej. rewrite repeat_cons, app_assoc in Ej.
      apply (Hu _ Ej). }
  split; [|split; [exact Hno | split; [apply Hfix | apply Hfix, Hno]]].
  exists k. apply (f_equal (@rev ascii)) in E.
  rewrite rev_involutive, rev_app_distr, rev_repeat in E. exact E.
Qed.
End BaseURLFacts.

(** ** The statistics of the selection *)

Section StatisticsFacts.
Import SelectPosts.

Lemma count_years_result (posts : list SiteGenerator.Post) :
  match count_years posts with
  | Ok _ =>
      forall post, In post posts ->
                   year_of (SiteGenerator.date post) "Unknown"
                   <> Raise IndexError
  | Raise e =>
      e = IndexError
      /\ exists post,
           In post posts
           /\ year_of (SiteGenerator.date post) "Unknown" = Raise IndexError
  end.
Proof.
  induction posts as [|post posts IH]; cbn [count_years].
  - intros post [].
  - destruct (year_of (SiteGenerator.date post) "Unknown") as [y|e] eqn:Ey.
    + destruct (count_years posts) as [u|e].
      * intros p [<- | Hp]; [congruence | apply IH, Hp].
      * destruct IH as [-> [p [Hp Hr]]]. split; [reflexivity|].
        exists p. split; [right; exact Hp | exact Hr].
    + pose proof (year_of_raise _ _ _ Ey) as ->. split; [reflexivity|].
      exists post. split; [left; reflexivity | exact Ey].
Qed.

Lemma deref_map_In (posts : list SiteGenerator.Post) (l : list Z)
      (f : Z -> nat) (post : SiteGenerator.Post) :
  In post (flat_map (fun r => match nth_error posts r with
                              | Some post => [post]
                              | None => []
                              end) (map f l))
  <-> exists i, In i l /\ nth_error posts (f i) = Some post.
Proof.
  rewrite in_flat_map. split.
  - intros [r [Hr Hp]]. apply in_map_iff in Hr. destruct Hr as [i [<- Hi]].
    exists i. split; [exact Hi|].
    destruct (nth_error posts (f i)) as [q|]; [|contradiction].
    destruct Hp as [<- | []]. reflexivity.
  - intros [i [Hi Hn]]. exists (f i). split; [apply in_map, Hi|].
    rewrite Hn. left. reflexivity.
Qed.

(** X27.  The statistics fail, and then with [IndexError], exactly when
    the selection holds an index below minus the number of posts, or an
    index below the number of posts that stands for a post whose year
    cannot be read; an index that is the number of posts or more is
    passed over. *)
Theorem X27_statistics_fail (posts : list SiteGenerator.Post)
        (selected : list Z) :
  let n := Py.len posts in
  (forall e, show_statistics posts selected = Raise e -> e = IndexError)
  /\ (show_statistics posts selected = Raise IndexError
      <-> (exists i, In i selected /\ i < - n)
          \/ (exists i post,
                 In i selected /\ - n <= i < n
                 /\ nth_error posts
                      (Z.to_nat (if i <? 0 then n + i else i)) = Some post
                 /\ year_of (SiteGenerator.date post) "Unknown"
                    = Raise IndexError)).
Proof.
  cbv zeta. unfold show_statistics.
  assert (Hn : 0 <= Py.len posts) by (unfold Py.len; lia).
  pose proof (pick_spec (Py.len posts) selected Hn) as Hp.
  destruct selected as [|i0 l] eqn:Es; cbn [Py.truthy].
  { split; [intros e H; discriminate|]. split; [discriminate|].
    intros [[i [[] _]] | [i [post [[] _]]]]. }
  rewrite <- Es in *. clear Es i0 l.
  destruct (GenerateSite.pick (Py.len posts) selected) as [refs|e].
  - destruct Hp as [Hall ->].
    pose proof (count_years_result
                  (flat_map (fun r => match nth_error posts r with
                                      | Some post => [post]
                                      | None => []
                                      end)
                            (map (fun i => Z.to_nat (if i <? 0
                                                     then Py.len posts + i
                                                     else i))
                                 (filter (fun i => i <? Py.len posts)
                                         selected)))) as Hc.
    destruct (count_years _) as [u|e].
    + split; [intros e H; discriminate|]. split; [discriminate|].
      intros [[i [Hi Hlt]] | [i [post [Hi [Hr [Hnth Hy]]]]]].
      * specialize (Hall i Hi). lia.
      * exfalso. apply (Hc post); [|exact Hy].
        apply deref_map_In. exists i. split; [|exact Hnth].
        apply filter_In. split; [exact Hi | apply Z.ltb_lt; lia].
    + destruct Hc as [-> [post [Hin Hy]]].
      split; [intros e [= <-]; reflexivity|].
      split; [|reflexivity]. intros _. right.
      apply deref_map_In in Hin. destruct Hin as [i [Hi Hnth]].
      apply filter_In in Hi. destruct Hi as [Hi Hlt]. apply Z.ltb_lt in Hlt.
      exists i, post. split; [exact Hi|].
      split; [split; [apply Hall, Hi | exact Hlt]|].
      split; [exact Hnth | exact Hy].
  - destruct Hp as [-> [i [Hi Hlt]]].
    split; [intros e [= <-]; reflexivity|].
    split; [|reflexivity]. intros _. left. exists i. auto.
Qed.
End StatisticsFacts.

(** * Examples of the further properties *)

Lemma X3_witness :
  In ("Berlin" : str)
     (snd (InstagramJSONParser._extract_hashtags "Sunset #Berlin #berlin"))
  /\ forallb Py.isword ("Berlin" : str) = true
  /\ exists a b,
       ("Sunset #Berlin #berlin" : str)
       = a ++ "#"%char :: ("Berlin" : str) ++ b
       /\ Re.word_free_head b.
Proof.
  assert (H : In ("Berlin" : str)
                 (snd (InstagramJSONParser._extract_hashtags
                         "Sunset #Berlin #berlin")))
    by (vm_compute; left; reflexivity).
  destruct (X3_hashtag_is_word_after_hash _ _ H) as [_ [Hw He]].
  split; [exact H|]. split; [exact Hw | exact He].
Defined.

Lemma X5_witness :
  0 <= 20
  /\ 20 < Py.len ex_title
  /\ Py.len (RSSGenerator._truncate_title ex_title 20) <= 20 + 3
  /\ exists k,
       RSSGenerator._truncate_title ex_title 20
       = firstn k ex_title ++ "...".
Proof.
  assert (H0 : 0 <= 20) by lia.
  assert (H1 : 20 < Py.len ex_title) by (vm_compute; reflexivity).
  destruct (X5_feed_title ex_title 20 H0) as [_ H].
  destruct (H H1) as [_ [_ [Hl Hk]]].
  split; [exact H0|]. split; [exact H1|]. split; [exact Hl | exact Hk].
Defined.

Lemma X6_witness :
  0 <= 60
  /\ (exists k,
         SiteGenerator._truncate_title ex_title90 60 = firstn k ex_title90
         \/ SiteGenerator._truncate_title ex_title90 60
            = firstn k ex_title90 ++ "...")
  /\ Py.len (SiteGenerator._truncate_title ex_title90 60) <= 60 + 3.
Proof.
  assert (H0 : 0 <= 60) by lia.
  destruct (X6_page_title_shape ex_title90 60 H0) as [_ [Hk [Hl _]]].
  split; [exact H0|]. split; [exact Hk | exact Hl].
Defined.

Lemma X8_witness :
  InstagramJSONParser.parse_posts ex_codec ex_utc (Some [ex_record])
  = Ok [ex_post]
  /\ Forall (fun p =>
               InstagramJSONParser.images p <> []
               /\ Forall (fun u : str => u <> [])
                         (InstagramJSONParser.images p)
               /\ InstagramJSONParser.tagged_users p = []
               /\ NoDup (map Py.lower (InstagramJSONParser.hashtags p))
               /\ Py.strip (InstagramJSONParser.title p)
                  = InstagramJSONParser.title p
               /\ InstagramJSONParser._format_timestamp
                    ex_utc (InstagramJSONParser.timestamp p)
                  = Ok (InstagramJSONParser.date p))
            [ex_post].
Proof.
  assert (H : InstagramJSONParser.parse_posts ex_codec ex_utc
                                              (Some [ex_record])
              = Ok [ex_post]) by (vm_compute; reflexivity).
  split; [exact H|].
  exact (X8_json_post_invariants ex_codec ex_utc [ex_record] [ex_post] H).
Defined.

Lemma X9_witness :
  InstagramJSONParser._parse_post ex_codec ex_utc ex_record
  = Ok (Some ex_post)
  /\ InstagramJSONParser.timestamp ex_post
     = InstagramJSONParser.resolved_timestamp ex_record.
Proof.
  assert (H : InstagramJSONParser._parse_post ex_codec ex_utc ex_record
              = Ok (Some ex_post)) by (vm_compute; reflexivity).
  split; [exact H|].
  exact (proj1 (X9_timestamp_and_title_resolution
                  ex_codec ex_utc ex_record ex_post H)).
Defined.

Lemma X10_witness :
  InstagramParser.parse_posts ex_float
                              (Some (BS4.Tag "body" [] [] [ex_div]))
  = Ok [ex_html_post]
  /\ Forall (fun p =>
               InstagramParser.hashtags p = []
               /\ InstagramParser.tagged_users p = []
               /\ (InstagramParser.images p <> []
                   \/ InstagramParser.title p <> []))
            [ex_html_post].
Proof.
  assert (H : InstagramParser.parse_posts
                ex_float (Some (BS4.Tag "body" [] [] [ex_div]))
              = Ok [ex_html_post]) by (vm_compute; reflexivity).
  split; [exact H|].
  destruct (X10_markup_post_invariants ex_float _ _ H) as [_ Hf].
  apply Forall_inv in Hf. destruct Hf as [_ [Hh [Ht [_ Hn]]]].
  constructor; [|constructor]. split; [exact Hh|]. split; [exact Ht | exact Hn].
Defined.


Lemma X13_witness :
  exists refs,
    GenerateSite.selected_posts (Some [1; 0; 1; 5]) ex_posts = Ok refs
    /\ StronglySorted lt refs
    /\ (In 1%nat refs <->
        (1 < List.length ex_posts)%nat
        /\ ([1; 0; 1; 5] = [] \/ In (Z.of_nat 1) [1; 0; 1; 5])).
Proof.
  assert (H : forall i, In i [1; 0; 1; 5] -> 0 <= i)
    by (intros i [<- | [<- | [<- | [<- | []]]]]; lia).
  destruct (X13_selection_in_post_order [1; 0; 1; 5] ex_posts H)
    as [refs [Hr [Hs Hi]]].
  exists refs. split; [exact Hr|]. split; [exact Hs | exact (Hi 1%nat)].
Defined.

Lemma X16_witness :
  exists site refs,
    GenerateSite.main ListFS.joinpath ListFS.name ListFS.path_exists
                      ListFS.copy2 ("insta-export" : str)
                      ("site/images" : str) ex_files ex_posts (Some [1])
    = Ok site
    /\ GenerateSite.selected_posts (Some [1]) ex_posts = Ok refs
    /\ List.length (RSSFeed.feed_of_site "http://localhost:8000/" site)
       = List.length refs.
Proof.
  assert (Hm : exists site,
             GenerateSite.main ListFS.joinpath ListFS.name
                               ListFS.path_exists ListFS.copy2
                               ("insta-export" : str) ("site/images" : str)
                               ex_files ex_posts (Some [1])
             = Ok site) by (eexists; reflexivity).
  destruct Hm as [site Hm].
  destruct (X16_feed_of_selection
              str (list str) ListFS.joinpath ListFS.name ListFS.path_exists
              ListFS.copy2 ("insta-export" : str) ("site/images" : str)
              "http://localhost:8000/" ex_files ex_posts (Some [1]) site Hm)
    as [refs [Hr [Hl _]]].
  exists site, refs. split; [exact Hm|]. split; [exact Hr | exact Hl].
Defined.

Lemma X17_witness :
  SelectPosts.interactive_selection (Some [5]) ex_posts
                                    ["y" : str; "n" : str]
  = (SelectPosts.Returned [5; 0], Some [0; 5])
  /\ StronglySorted Z.lt (SelectPosts.save_selection [5; 0])
  /\ (In 5 (SelectPosts.load_selection (Some [5])) -> In 5 [5; 0]).
Proof.
  assert (H : SelectPosts.interactive_selection (Some [5]) ex_posts
                                                ["y" : str; "n" : str]
              = (SelectPosts.Returned [5; 0], Some [0; 5]))
    by (vm_compute; reflexivity).
  destruct (X17_interactive_selection_extends _ _ _ _ _ H)
    as [_ [Hs [_ [Hk _]]]].
  split; [exact H|]. split; [exact Hs | exact (Hk 5)].
Defined.

Lemma X18_witness :
  List.length [" Y " : str; "skip" : str] = List.length ex_posts
  /\ SelectPosts.interactive_selection None ex_posts
                                       [" Y " : str; "skip" : str]
     = (SelectPosts.Returned [0], Some [0]).
Proof.
  assert (Hl : List.length [" Y " : str; "skip" : str]
               = List.length ex_posts) by reflexivity.
  split; [exact Hl|].
  rewrite (X18_interactive_selection_answers
             ex_posts [" Y " : str; "skip" : str] Hl).
  - vm_compute. reflexivity.
  - constructor; [left; vm_compute; reflexivity|].
    constructor; [right; vm_compute; reflexivity | constructor].
Defined.

Lemma X20_witness :
  snd (SelectPosts.main None ex_posts ["2" : str; "n" : str; "yes" : str])
  = Some [1]
  /\ GenerateSite.selected_posts (Some [1]) ex_posts = Ok [1%nat].
Proof.
  assert (H : snd (SelectPosts.main None ex_posts
                                    ["2" : str; "n" : str; "yes" : str])
              = Some [1]) by (vm_compute; reflexivity).
  split; [exact H|].
  rewrite (X20_saved_selection_is_read
             None ex_posts ["2" : str; "n" : str; "yes" : str] [1]).
  - vm_compute. reflexivity.
  - intros i [].
  - exact H.
Defined.

Lemma X21_witness :
  InstagramJSONParser._format_timestamp ex_utc 1755850705
  = Ok ("Aug 22, 2025 08:18 AM" : str)
  /\ SelectPosts.year_of "Aug 22, 2025 08:18 AM" "Unknown"
     = Ok ("2025" : str).
Proof.
  assert (H : InstagramJSONParser._format_timestamp ex_utc 1755850705
              = Ok ("Aug 22, 2025 08:18 AM" : str))
    by (vm_compute; reflexivity).
  split; [exact H|].
  rewrite (X21_year_of_formatted_date ex_utc 1755850705 _ "Unknown" H).
  vm_compute. reflexivity.
Defined.

Lemma X23_witness :
  Py.strip " 2" = ("2" : str)
  /\ Py.strip "9" = ("9" : str)
  /\ exists selected,
       SelectPosts.bulk_selection
         None ex_posts [" 2" : str; "2024, 2025" : str; "9" : str]
       = (SelectPosts.Returned selected,
          Some (SelectPosts.save_selection selected))
       /\ In 0 selected.
Proof.
  assert (H1 : Py.strip " 2" = ("2" : str)) by (vm_compute; reflexivity).
  assert (H3 : Py.strip "9" = ("9" : str)) by (vm_compute; reflexivity).
  split; [exact H1|]. split; [exact H3|].
  destruct (X23_select_by_year None ex_posts " 2" "2024, 2025" "9" [] H1 H3)
    as [_ H].
  destruct H as [selected [E Hi]].
  - intros post [<- | [<- | []]]; vm_compute; discriminate.
  - exists selected. split; [exact E|].
    apply (proj2 (Hi 0)). right.
    exists 0%nat, (SiteGenerator.FromJSON ex_post), (" 2025" : str).
    split; [reflexivity|]. split; [reflexivity|].
    split; [vm_compute; right; left; reflexivity | vm_compute; reflexivity].
Defined.

Lemma X24_witness :
  Py.strip "5" = ("5" : str)
  /\ Py.strip "9" = ("9" : str)
  /\ exists selected,
       SelectPosts.bulk_selection
         None ex_posts ["5" : str; "2020" : str; "2030" : str; "9" : str]
       = (SelectPosts.Returned selected,
          Some (SelectPosts.save_selection selected))
       /\ In 1 selected.
Proof.
  assert (H1 : Py.strip "5" = ("5" : str)) by (vm_compute; reflexivity).
  assert (H4 : Py.strip "9" = ("9" : str)) by (vm_compute; reflexivity).
  split; [exact H1|]. split; [exact H4|].
  destruct (X24_select_by_range None ex_posts "5" "2020" "2030" "9" [] H1 H4)
    as [selected [E [Hi _]]].
  - intros post [<- | [<- | []]]; vm_compute; discriminate.
  - exists selected. split; [exact E|].
    apply (proj2 (Hi 1)). right.
    exists 1%nat, (SiteGenerator.FromHTML ex_html_post), ("2025" : str).
    split; [reflexivity|]. split; [reflexivity|].
    split; [vm_compute; reflexivity|].
    split; vm_compute; reflexivity.
Defined.

Lemma X25_witness :
  Py.strip "7" = ("7" : str)
  /\ SelectPosts.bulk_selection (Some [7]) ex_posts ["7" : str; "9" : str]
     = (SelectPosts.Raised IndexError, Some [7]).
Proof.
  assert (H7 : Py.strip "7" = ("7" : str)) by (vm_compute; reflexivity).
  split; [exact H7|].
  apply (proj1 (X25_view_selection (Some [7]) ex_posts "7" ["9" : str] H7)).
  exists 7. split; [vm_compute; left; reflexivity | right; vm_compute].
  discriminate.
Defined.
